(** * convert.py: conversion of DNS velocity fields to the Pele layout

    A shallow embedding of [convert.py] and the properties of its pipeline:
    metadata extraction, coordinate transformation, physical scales,
    normalisation and the CSV writer.

    Numbers.  The script computes on IEEE doubles.  The embedding is written
    over a carrier [F] with the operations the script uses ([Float64]); it is
    instantiated with the primitive binary64 floats (executable, used for the
    concrete runs) and with the real numbers (the exact arithmetic some
    properties are stated in).

    Library calls.  [argparse], [float], the parsing of [pandas.read_csv]
    and the ['%.18e'] formatter are not code of the script: they are section
    variables of the development, instantiated for the concrete runs.  The
    pandas and numpy operations the script composes ([rename], column
    access and assignment, [sort_values], [np.diff], [np.max], [np.mean],
    [reshape], [np.gradient], [to_csv]) are embedded with the behaviour
    their documentation gives them; the sums of [np.mean] group their terms
    as numpy's pairwise summation does, and [sort_values] puts the NaN keys
    last, as pandas does. *)

Set Warnings "-inexact-float".

From Stdlib Require Import PrimFloat.
From Stdlib Require FloatOps SpecFloat Uint63 FloatAxioms.
From Stdlib Require Import String Ascii ZArith List Bool Arith Lia.
From Stdlib Require Import Permutation Sorted.
From Stdlib Require Import Reals Lra.
Import ListNotations.

Local Open Scope string_scope.
Local Open Scope list_scope.

(* ===================================================================== *)
(** ** Exceptions and results *)

(** The exceptions a run can end with.  [Unsupported] is no exception of
    Python: the concrete library functions of the module [Binary64] return
    it on the inputs they do not cover. *)
Inductive exn : Type :=
| FileNotFoundError
| ValueError
| ZeroDivisionError
| KeyError
| IndexError
| ParserError
| SystemExit (code : Z)
| Unsupported.

Inductive result (A : Type) : Type :=
| Ok (a : A)
| Raise (e : exn).

Arguments Ok {A} a.
Arguments Raise {A} e.

Definition bind {A B : Type} (c : result A) (k : A -> result B) : result B :=
  match c with
  | Ok a => k a
  | Raise e => Raise e
  end.

Declare Scope py_scope.
Delimit Scope py_scope with py.
Notation "x <- c ;; k" := (bind c (fun x => k))
  (at level 61, c at next level, right associativity) : py_scope.

Definition returns {A : Type} (c : result A) : Prop := exists a, c = Ok a.

(* ===================================================================== *)
(** ** The numeric carrier *)

(** The double-precision operations of the script.  [f_of_Z] is the
    conversion of an integer to a double ([/ 3], the element count of
    [np.mean]); [fhalf] is the literal [0.5]. *)
Class Float64 (F : Type) : Type := {
  f_of_Z : Z -> F;
  fhalf : F;
  fadd : F -> F -> F;
  fsub : F -> F -> F;
  fmul : F -> F -> F;
  fdiv : F -> F -> F;
  fsqrt : F -> F;
  fltb : F -> F -> bool;
  feqb : F -> F -> bool
}.

Definition fleb {F} `{Float64 F} (a b : F) : bool := fltb a b || feqb a b.

(** A NaN is the only value that differs from itself. *)
Definition isnan {F} `{Float64 F} (a : F) : bool := negb (feqb a a).

Definition f_of_nat {F} `{Float64 F} (n : nat) : F := f_of_Z (Z.of_nat n).

(** binary64, on Rocq's primitive floats. *)
Definition float_of_Z (z : Z) : float :=
  match z with
  | Z0 => PrimFloat.zero
  | Zpos _ => PrimFloat.of_uint63 (Uint63.of_Z z)
  | Zneg _ => PrimFloat.opp (PrimFloat.of_uint63 (Uint63.of_Z (Z.opp z)))
  end.

#[export] Instance Float64_float : Float64 float := {
  f_of_Z := float_of_Z;
  fhalf := 0.5%float;
  fadd := PrimFloat.add;
  fsub := PrimFloat.sub;
  fmul := PrimFloat.mul;
  fdiv := PrimFloat.div;
  fsqrt := PrimFloat.sqrt;
  fltb := PrimFloat.ltb;
  feqb := PrimFloat.eqb
}.

(** Exact arithmetic, on the real numbers. *)
Definition Rltb (a b : R) : bool := if Rlt_dec a b then true else false.
Definition Reqb (a b : R) : bool := if Req_dec_T a b then true else false.

#[export] Instance Float64_R : Float64 R := {
  f_of_Z := IZR;
  fhalf := (/ 2)%R;
  fadd := Rplus;
  fsub := Rminus;
  fmul := Rmult;
  fdiv := Rdiv;
  fsqrt := R_sqrt.sqrt;
  fltb := Rltb;
  feqb := Reqb
}.

(** A Python number: [get_viscosity] returns the int [0] or a float. *)
Inductive pynum (F : Type) : Type :=
| PyInt (z : Z)
| PyFloat (f : F).

Arguments PyInt {F} z.
Arguments PyFloat {F} f.

(* ===================================================================== *)
(** ** Strings: [in] and [str.split] *)

(** [pat in s] *)
Fixpoint str_in (pat s : string) : bool :=
  if String.prefix pat s then true
  else match s with
       | EmptyString => false
       | String _ s' => str_in pat s'
       end.

(** [str.isspace] on the ASCII range: TAB, LF, VT, FF, CR, FS, GS, RS, US
    and the space. *)
Definition isspace (c : ascii) : bool :=
  let n := nat_of_ascii c in
  (Nat.leb 9 n && Nat.leb n 13) || (Nat.leb 28 n && Nat.leb n 32).

Definition flush (acc : string) (k : list string) : list string :=
  match acc with
  | EmptyString => k
  | _ => acc :: k
  end.

(** [s.split()]: the maximal runs of non-whitespace characters. [acc] is
    the run being read. *)
Fixpoint split_from (acc s : string) : list string :=
  match s with
  | EmptyString => flush acc []
  | String c s' =>
      if isspace c then flush acc (split_from EmptyString s')
      else split_from (String.append acc (String c EmptyString)) s'
  end.

Definition split (s : string) : list string := split_from EmptyString s.

(** [l[-1]] *)
Definition last_item {A : Type} (l : list A) : result A :=
  match rev l with
  | [] => Raise IndexError
  | a :: _ => Ok a
  end.

(* ===================================================================== *)
(** ** Metadata extraction *)

Section Metadata.

Context {F : Type}.

(** Python's [float] on a string. *)
Variable py_float : string -> result F.

(** [get_viscosity], on the lines of the file. *)
Fixpoint get_viscosity (f : list string) : result (pynum F) :=
  match f with
  | [] => Ok (PyInt 0)
  | line :: f' =>
      if str_in "viscosity" line then
        (tok <- last_item (split line) ;;
         v <- py_float tok ;;
         Ok (PyFloat v))%py
      else get_viscosity f'
  end.

(** [get_skiprows_num]: [enumerate(f, 1)] counts the lines from 1. *)
Fixpoint get_skiprows_from (nskip : nat) (f : list string) : nat :=
  match f with
  | [] => 0
  | line :: f' =>
      if str_in "exporting field in real space" line then nskip
      else get_skiprows_from (S nskip) f'
  end.

Definition get_skiprows_num (f : list string) : nat := get_skiprows_from 1 f.

End Metadata.

(* ===================================================================== *)
(** ** Data frames *)

Fixpoint mapM {A B : Type} (f : A -> result B) (l : list A) : result (list B) :=
  match l with
  | [] => Ok []
  | a :: l' => (b <- f a ;; bs <- mapM f l' ;; Ok (b :: bs))%py
  end.

Fixpoint map2 {A B C : Type} (f : A -> B -> C) (l : list A) (m : list B) : list C :=
  match l, m with
  | a :: l', b :: m' => f a b :: map2 f l' m'
  | _, _ => []
  end.

(** Replace the element at position [p]. *)
Fixpoint set_nth {A : Type} (p : nat) (v : A) (l : list A) : list A :=
  match l, p with
  | [], _ => []
  | _ :: l', O => v :: l'
  | a :: l', S p' => a :: set_nth p' v l'
  end.

(** Position of a column label; a missing label is a [KeyError]. *)
Fixpoint col_pos (c : string) (cols : list string) : result nat :=
  match cols with
  | [] => Raise KeyError
  | c' :: cs =>
      if String.eqb c c' then Ok 0
      else (p <- col_pos c cs ;; Ok (S p))%py
  end.

Definition relabel (mapper : list (string * string)) (c : string) : string :=
  match find (fun kv => String.eqb (fst kv) c) mapper with
  | Some kv => snd kv
  | None => c
  end.

Section Frames.

Context {F : Type} `{Float64 F}.

(** A row keeps its index label: the labels are those of the
    [RangeIndex] that [read_csv] creates and they travel with the rows. *)
Record Row : Type := { label : nat; cells : list F }.

Record DataFrame : Type := { columns : list string; rows : list Row }.

(** One parsed line of the table: six numbers. *)
Definition Rec6 : Type := (F * F * F * F * F * F)%type.

Definition cells_of (t : Rec6) : list F :=
  let '(a, b, c, d, e, f) := t in [a; b; c; d; e; f].

Fixpoint index_from (i : nat) (data : list Rec6) : list Row :=
  match data with
  | [] => []
  | t :: data' => {| label := i; cells := cells_of t |} :: index_from (S i) data'
  end.

(** The frame [read_csv(..., header=None, names=names)] builds from the
    parsed lines. *)
Definition frame_of (names : list string) (data : list Rec6) : DataFrame :=
  {| columns := names; rows := index_from 0 data |}.

(** [dat.rename(columns=mapper)] *)
Definition rename (mapper : list (string * string)) (dat : DataFrame) : DataFrame :=
  {| columns := map (relabel mapper) (columns dat); rows := rows dat |}.

Definition cell (p : nat) (r : Row) : result F :=
  match nth_error (cells r) p with
  | Some v => Ok v
  | None => Raise IndexError
  end.

(** [dat[c]]: the values of column [c], in row order. *)
Definition getitem (dat : DataFrame) (c : string) : result (list F) :=
  (p <- col_pos c (columns dat) ;;
   mapM (cell p) (rows dat))%py.

(** [dat[c] = vals], for a series [vals] computed from a column of [dat]
    (same index, so the alignment is positional).  A new label appends a
    column. *)
Definition setitem (dat : DataFrame) (c : string) (vals : list F) : result DataFrame :=
  if Nat.eqb (List.length vals) (List.length (rows dat)) then
    match col_pos c (columns dat) with
    | Ok p =>
        Ok {| columns := columns dat;
              rows := map2 (fun r v => {| label := label r;
                                          cells := set_nth p v (cells r) |})
                        (rows dat) vals |}
    | Raise _ =>
        Ok {| columns := columns dat ++ [c];
              rows := map2 (fun r v => {| label := label r;
                                          cells := cells r ++ [v] |})
                        (rows dat) vals |}
    end
  else Raise ValueError.

(** [np.diff(a)]: [a[1:] - a[:-1]]. *)
Fixpoint np_diff (a : list F) : list F :=
  match a with
  | x :: (y :: _) as t => fsub y x :: np_diff t
  | _ => []
  end.

(** [np.maximum]: a NaN operand wins. *)
Definition np_maximum (a b : F) : F :=
  if fleb b a || isnan a then a else b.

(** [np.max(a)]; the maximum of an empty array is a [ValueError]. *)
Definition np_max (a : list F) : result F :=
  match a with
  | [] => Raise ValueError
  | x :: t => Ok (fold_left np_maximum t x)
  end.

(** [isna] on a sort key: a NaN is the value that [<=] does not relate to
    itself (on binary64, the value with [x != x]). *)
Definition isna (x : F) : bool := negb (fleb x x).

(** The order of [sort_values] within one key column, ascending with
    [na_position='last']: the values in their order, then the NaN
    entries, which all share the last rank. *)
Definition na_last_ltb (x y : F) : bool := fltb x y || (negb (isna x) && isna y).

Definition na_last_eqb (x y : F) : bool := feqb x y || (isna x && isna y).

(** The order of [sort_values] on key tuples, first key first. *)
Fixpoint sort_leb (a b : list F) : bool :=
  match a, b with
  | x :: a', y :: b' => na_last_ltb x y || (na_last_eqb x y && sort_leb a' b')
  | _, _ => true
  end.

Definition Keyed : Type := (list F * Row)%type.

(** A row goes in front of the first row whose key is not below its
    own. *)
Fixpoint insert_keyed (x : Keyed) (l : list Keyed) : list Keyed :=
  match l with
  | [] => [x]
  | y :: l' =>
      if sort_leb (fst x) (fst y) then x :: l
      else y :: insert_keyed x l'
  end.

Fixpoint sort_keyed (l : list Keyed) : list Keyed :=
  match l with
  | [] => []
  | x :: l' => insert_keyed x (sort_keyed l')
  end.

Definition key_of (ps : list nat) (r : Row) : result Keyed :=
  (k <- mapM (fun p => cell p r) ps ;; Ok (k, r))%py.

(** [dat.sort_values(by=by, inplace=True)].  With several keys pandas
    ranks every key column (equal values share a rank, the NaN entries
    take the last one) and orders the rows by their tuples of ranks through
    its lexsort indexer, which keeps rows of equal key in their order; it
    is embedded as an insertion sort on the key tuples under [sort_leb].
    Rows keep their labels. *)
Definition sort_values (dat : DataFrame) (by_ : list string) : result DataFrame :=
  (ps <- mapM (fun c => col_pos c (columns dat)) by_ ;;
   keyed <- mapM (key_of ps) (rows dat) ;;
   Ok {| columns := columns dat; rows := map snd (sort_keyed keyed) |})%py.

(** [v + 0.5 * dx] *)
Definition shifted (dx v : F) : F := fadd v (fmul fhalf dx).

(** [series + 0.5 * dx] *)
Definition shift (dx : F) (a : list F) : list F := map (shifted dx) a.

(** Lines 79-87 of the script: rename, grid spacing, shift to the cell
    centres.  Returns the spacing [dx] and the table. *)
Definition shift_coordinates (dat : DataFrame) : result (F * DataFrame) :=
  (let dat := rename [("x", "y"); ("y", "x")] dat in
   x <- getitem dat "x" ;;
   dx <- np_max (np_diff x) ;;
   x <- getitem dat "x" ;;
   dat <- setitem dat "x" (shift dx x) ;;
   y <- getitem dat "y" ;;
   dat <- setitem dat "y" (shift dx y) ;;
   z <- getitem dat "z" ;;
   dat <- setitem dat "z" (shift dx z) ;;
   Ok (dx, dat))%py.

(** The sort keys of line 90, slowest first. *)
Definition sort_keys : list string := ["z"; "y"; "x"].

(** Lines 79-90: the coordinate transformer. *)
Definition coordinate_transformer (dat : DataFrame) : result (F * DataFrame) :=
  (dxdat <- shift_coordinates dat ;;
   dat <- sort_values (snd dxdat) sort_keys ;;
   Ok (fst dxdat, dat))%py.

(* ------------------------------------------------------------------- *)
(** *** Physical scales (lines 92-104) *)

Definition fzero : F := f_of_Z 0.
Definition fone : F := f_of_Z 1.
Definition ftwo : F := f_of_Z 2.
Definition fthree : F := f_of_Z 3.

(** [a ** 2] *)
Definition square (a : F) : F := fmul a a.

(** The eight running sums of numpy's unrolled summation loop. *)
Definition Acc8 : Type := (F * F * F * F * F * F * F * F)%type.

(** [r[j] += a[i + j]], [j = 0..7], for every full block of eight
    elements; returns the sums and the rest of fewer than eight
    elements. *)
Fixpoint unroll8 (r : Acc8) (a : list F) : Acc8 * list F :=
  match a with
  | a0 :: a1 :: a2 :: a3 :: a4 :: a5 :: a6 :: a7 :: a' =>
      let '(r0, r1, r2, r3, r4, r5, r6, r7) := r in
      unroll8 (fadd r0 a0, fadd r1 a1, fadd r2 a2, fadd r3 a3,
               fadd r4 a4, fadd r5 a5, fadd r6 a6, fadd r7 a7) a'
  | _ => (r, a)
  end.

(** [((r[0] + r[1]) + (r[2] + r[3])) + ((r[4] + r[5]) + (r[6] + r[7]))] *)
Definition add8 (r : Acc8) : F :=
  let '(r0, r1, r2, r3, r4, r5, r6, r7) := r in
  fadd (fadd (fadd r0 r1) (fadd r2 r3)) (fadd (fadd r4 r5) (fadd r6 r7)).

(** The sum of one block: fewer than eight elements are added one after
    the other, from 0; otherwise the first eight start the running sums,
    the full blocks of eight are added to them, the sums are added in
    pairs and the rest is added one element after the other. *)
Definition block_sum (a : list F) : F :=
  match a with
  | a0 :: a1 :: a2 :: a3 :: a4 :: a5 :: a6 :: a7 :: a' =>
      let '(r, rest) := unroll8 (a0, a1, a2, a3, a4, a5, a6, a7) a' in
      fold_left fadd rest (add8 r)
  | _ => fold_left fadd a fzero
  end.

(** numpy's pairwise summation of a contiguous array: a block of at most
    128 elements is summed by [block_sum]; a longer array is cut in two, the
    first part of [n / 2] elements rounded down to a multiple of eight, and
    the sums of the parts are added.  Each cut shortens both parts, so a
    [fuel] of the length of the array is never used up. *)
Fixpoint pairwise_sum (fuel : nat) (a : list F) : F :=
  match fuel with
  | O => block_sum a
  | S fuel' =>
      let n := List.length a in
      if Nat.leb n 128 then block_sum a
      else
        let n2 := n / 2 - (n / 2) mod 8 in
        fadd (pairwise_sum fuel' (firstn n2 a)) (pairwise_sum fuel' (skipn n2 a))
  end.

(** [np.add.reduce] over a contiguous array, which starts from the identity
    0 of the addition.  (Whether a version of numpy starts from 0 or from
    -0.0 shows in the sign of a sum of negative zeros only; the terms the
    script adds are squares.) *)
Definition np_sum (a : list F) : F :=
  fadd fzero (pairwise_sum (List.length a) a).

(** [np.mean] of an array. *)
Definition np_mean (a : list F) : F :=
  fdiv (np_sum a) (f_of_nat (List.length a)).

(** [np.mean] of a pandas series is [Series.mean]: the NaN entries enter
    the sum as 0 and are left out of the count. *)
Definition series_mean (a : list F) : F :=
  fdiv (np_sum (map (fun v => if isnan v then fzero else v) a))
    (f_of_nat (List.length (filter (fun v => negb (isnan v)) a))).

(** [dat['u']**2 + dat['v']**2 + dat['w']**2] *)
Fixpoint squares3 (u v w : list F) : list F :=
  match u, v, w with
  | a :: u', b :: v', c :: w' =>
      fadd (fadd (square a) (square b)) (square c) :: squares3 u' v' w'
  | _, _, _ => []
  end.

(** Line 93. *)
Definition urms_of (dat : DataFrame) : result F :=
  (u <- getitem dat "u" ;;
   v <- getitem dat "v" ;;
   w <- getitem dat "w" ;;
   Ok (fsqrt (fdiv (series_mean (squares3 u v w)) fthree)))%py.

Definition Plane : Type := list (list F).
Definition Cube : Type := list Plane.

(** [a.reshape((n, n, n), order='F')]: element [(i, j, k)] is
    [a[i + n*j + n*n*k]]; the cube is held as [cube[i][j][k]]. *)
Definition reshape_F (n : nat) (a : list F) : result Cube :=
  if Nat.eqb (List.length a) (n * n * n) then
    Ok (map (fun i =>
               map (fun j =>
                      map (fun k => nth (i + n * j + n * n * k) a fzero)
                        (seq 0 n))
                 (seq 0 n))
          (seq 0 n))
  else Raise ValueError.

Definition plane_sub (p q : Plane) : Plane := map2 (map2 fsub) p q.

Definition plane_div (p : Plane) (s : F) : Plane :=
  map (map (fun v => fdiv v s)) p.

(** [np.gradient(f, dx, axis=0)], first-order edges:
    [out[1:-1] = (f[2:] - f[:-2]) / (2. * dx)],
    [out[0] = (f[1] - f[0]) / dx], [out[-1] = (f[-1] - f[-2]) / dx];
    fewer than two planes is a [ValueError]. *)
Definition np_gradient0 (f : Cube) (dx : F) : result Cube :=
  let n := List.length f in
  if Nat.ltb n 2 then Raise ValueError
  else
    Ok ([plane_div (plane_sub (nth 1 f []) (nth 0 f [])) dx]
        ++ map2 (fun lo hi => plane_div (plane_sub hi lo) (fmul ftwo dx))
             (firstn (n - 2) f) (skipn 2 f)
        ++ [plane_div (plane_sub (nth (n - 1) f []) (nth (n - 2) f [])) dx]).

(** The elements of a cube in the order of its memory.  The cube of
    lines 98-99 is a Fortran-ordered view of the column, [np.gradient] and
    [**] return arrays laid out like their argument, and the reduction of
    [np.mean] runs through the memory: first axis fastest. *)
Definition ravel (c : Cube) : list F :=
  let n0 := List.length c in
  let n1 := List.length (nth 0 c []) in
  let n2 := List.length (nth 0 (nth 0 c []) []) in
  flat_map (fun k =>
    flat_map (fun j =>
      map (fun i => nth k (nth j (nth i c []) []) fzero) (seq 0 n0))
      (seq 0 n1))
    (seq 0 n2).

(** Lines 97-101. *)
Definition dudx2_of (resolution : nat) (dat : DataFrame) (dx : F) : result F :=
  (u <- getitem dat "u" ;;
   cube <- reshape_F resolution u ;;
   g <- np_gradient0 cube dx ;;
   Ok (np_mean (map square (ravel g))))%py.

Definition to_float (mu : pynum F) : F :=
  match mu with
  | PyInt z => f_of_Z z
  | PyFloat f => f
  end.

(** [a / mu] between Python numbers: a zero divisor raises. *)
Definition py_truediv (a : F) (mu : pynum F) : result F :=
  match mu with
  | PyInt z => if Z.eqb z 0 then Raise ZeroDivisionError
               else Ok (fdiv a (f_of_Z z))
  | PyFloat f => if feqb f fzero then Raise ZeroDivisionError
                 else Ok (fdiv a f)
  end.

Record Scalars : Type := {
  s_resolution : nat;
  s_urms : F;
  s_lambda0 : F;
  s_k0 : F;
  s_mu : pynum F;
  s_Re : F;
  s_Re_lambda : F
}.

(** Lines 92-104; [Re] was computed at line 73.  [urms] and [lambda0] are
    numpy scalars, so the divisions here follow IEEE and do not raise. *)
Definition physical_scales (resolution : nat) (dat : DataFrame) (dx : F)
    (mu : pynum F) (Re : F) : result Scalars :=
  (urms <- urms_of dat ;;
   u <- getitem dat "u" ;;
   let u2 := series_mean (map square u) in
   dudx2 <- dudx2_of resolution dat dx ;;
   let lambda0 := fsqrt (fdiv u2 dudx2) in
   let k0 := fdiv ftwo lambda0 in
   let Re_lambda := fdiv (fmul urms lambda0) (to_float mu) in
   Ok {| s_resolution := resolution; s_urms := urms; s_lambda0 := lambda0;
         s_k0 := k0; s_mu := mu; s_Re := Re; s_Re_lambda := Re_lambda |})%py.

(* ------------------------------------------------------------------- *)
(** *** Normalisation (lines 107-109) *)

(** [v / urms] *)
Definition scaled (urms v : F) : F := fdiv v urms.

Definition scale_down (urms : F) (a : list F) : list F := map (scaled urms) a.

Definition normalizer (dat : DataFrame) (urms : F) : result DataFrame :=
  (u <- getitem dat "u" ;;
   dat <- setitem dat "u" (scale_down urms u) ;;
   v <- getitem dat "v" ;;
   dat <- setitem dat "v" (scale_down urms v) ;;
   w <- getitem dat "w" ;;
   dat <- setitem dat "w" (scale_down urms w) ;;
   Ok dat)%py.

(* ------------------------------------------------------------------- *)
(** *** Writer (lines 124-127) *)

(** ['%.18e' % v] *)
Variable format_e18 : F -> string.

(** A NaN is written as the empty [na_rep]. *)
Definition csv_field (v : F) : string :=
  if isnan v then "" else format_e18 v.

Definition csv_line (fields : list string) : string :=
  String.concat "," fields.

Definition csv_row (ps : list nat) (r : Row) : result string :=
  (vs <- mapM (fun p => cell p r) ps ;; Ok (csv_line (map csv_field vs)))%py.

(** [dat.to_csv(oname, columns=cols, float_format='%.18e', index=False)]:
    the lines of the file.  [header] keeps its default, [True]: the first
    line carries the column labels. *)
Definition to_csv (dat : DataFrame) (cols : list string) : result (list string) :=
  (ps <- mapM (fun c => col_pos c (columns dat)) cols ;;
   body <- mapM (csv_row ps) (rows dat) ;;
   Ok (csv_line cols :: body))%py.

End Frames.

Arguments Row F : clear implicits.
Arguments DataFrame F : clear implicits.
Arguments Rec6 F : clear implicits.
Arguments Keyed F : clear implicits.
Arguments Acc8 F : clear implicits.
Arguments Plane F : clear implicits.
Arguments Cube F : clear implicits.
Arguments Scalars F : clear implicits.

(* ===================================================================== *)
(** ** The script *)

(** What [parser.parse_args()] returns. *)
Record Namespace : Type := { plot : bool }.

(** The six column names given to [read_csv] and to [to_csv]. *)
Definition names : list string := ["x"; "y"; "z"; "u"; "v"; "w"].

(** [open(fname)]: the lines of the file, when it exists. *)
Definition open_file (file : option (list string)) : result (list string) :=
  match file with
  | Some f => Ok f
  | None => Raise FileNotFoundError
  end.

Section Script.

Context {F : Type} `{Float64 F}.

(** [argparse]'s parser for the single flag of the script. *)
Variable parse_args : list string -> result Namespace.

(** Python's [float]. *)
Variable py_float : string -> result F.

(** The parsing of [pd.read_csv(fname, delim_whitespace=True, header=None,
    names=names, skiprows=nskip)] into rows of six numbers, for the files
    of the input format: data lines of at most six numeric fields, a
    missing field being a NaN.  On these files pandas returns a frame with
    the six named columns and the labels 0, 1, 2, ... ([frame_of]).  The
    frames it builds from other files (the leading fields of the lines as
    index when the first data line has more than six fields, a column of
    strings for a field that is no number) are not embedded: the variable
    stands for the parser on the files it reads into six numeric columns.
    The numbers are held as doubles; a column of integer fields, which
    pandas holds as [int64], is embedded as the doubles of these
    integers. *)
Variable pd_read_table : list string -> nat -> result (list (Rec6 F)).

(** ['%.18e' % v] *)
Variable format_e18 : F -> string.

(** Lines 65-69: the frame of the parsed rows, with the six names of the
    call as column labels. *)
Definition read_csv (f : list string) (nskip : nat) : result (DataFrame F) :=
  (data <- pd_read_table f nskip ;; Ok (frame_of names data))%py.

(** What a run leaves behind: the printed scalars and the lines of the
    output file. *)
Record Output : Type := { report : Scalars F; out_file : list string }.

(** Lines 64-109 on the lines [f] of the input file, for a grid of
    [resolution] points per axis: the scalars and the final table. *)
Definition process (resolution : nat) (f : list string)
    : result (Scalars F * DataFrame F) :=
  (let nskip := get_skiprows_num f in
   dat <- read_csv f nskip ;;
   mu <- get_viscosity py_float f ;;
   Re <- py_truediv fone mu ;;
   dxdat <- coordinate_transformer dat ;;
   let dx := fst dxdat in
   let dat := snd dxdat in
   sc <- physical_scales resolution dat dx mu Re ;;
   dat <- normalizer dat (s_urms sc) ;;
   Ok (sc, dat))%py.

(** The script, top to bottom.  The file is opened by the first function
    that reads it; the elapsed time the script prints is not part of the
    result. *)
Definition script (resolution : nat) (argv : list string)
    (file : option (list string)) : result Output :=
  (args <- parse_args argv ;;
   f <- open_file file ;;
   scdat <- process resolution f ;;
   lines <- to_csv format_e18 (snd scdat) names ;;
   Ok {| report := fst scdat; out_file := lines |})%py.

Definition resolution : nat := 128.

Definition main (argv : list string) (file : option (list string)) : result Output :=
  script resolution argv file.

End Script.

Arguments Output F : clear implicits.

(* ===================================================================== *)
(** ** The library functions on binary64, for the concrete runs *)

Module Binary64.

Local Open Scope Z_scope.

(** The double nearest to [num / den] (ties to even), through the
    correctly rounded division of [SpecFloat]. *)
Definition of_ratio (neg : bool) (num den : Z) : float :=
  FloatOps.SF2Prim
    (SpecFloat.SFdiv FloatOps.prec FloatOps.emax
       (SpecFloat.S754_finite neg (Z.to_pos num) 0)
       (SpecFloat.S754_finite false (Z.to_pos den) 0)).

Definition is_digit (c : ascii) : bool :=
  let n := nat_of_ascii c in Nat.leb 48 n && Nat.leb n 57.

Definition digit_val (c : ascii) : Z := Z.of_nat (nat_of_ascii c - 48).

(** Reads a run of digits: the number read so far, how many digits were
    read, and what is left. *)
Fixpoint read_digits (acc : Z) (cnt : nat) (s : string) : Z * nat * string :=
  match s with
  | String c s' =>
      if is_digit c then read_digits (10 * acc + digit_val c) (S cnt) s'
      else (acc, cnt, s)
  | EmptyString => (acc, cnt, s)
  end.

Definition read_sign (s : string) : bool * string :=
  match s with
  | String "-" s' => (true, s')
  | String "+" s' => (false, s')
  | _ => (false, s)
  end.

Definition read_fraction (ip : Z) (s : string) : Z * nat * string :=
  match s with
  | String "." s' => read_digits ip 0 s'
  | _ => (ip, O, s)
  end.

(** A decimal literal [[+-]digits[.digits][e[+-]digits]]: its sign, the
    integer its digits spell, the number of these digits, its decimal
    exponent, and whether it is written as an integer (no point, no
    exponent). *)
Record literal : Type := {
  l_neg : bool;
  l_mant : Z;
  l_digits : nat;
  l_exp : Z;
  l_int : bool
}.

Definition decimal_literal (s : string) : option literal :=
  let '(neg, s1) := read_sign s in
  let '(ip, ni, s2) := read_digits 0 0 s1 in
  let '(m, nf, s3) := read_fraction ip s2 in
  if Nat.eqb (ni + nf) 0 then None
  else
    match s3 with
    | EmptyString =>
        Some {| l_neg := neg; l_mant := m; l_digits := ni + nf;
                l_exp := - Z.of_nat nf;
                l_int := String.eqb s2 EmptyString |}
    | String c s4 =>
        if Ascii.eqb c "e" || Ascii.eqb c "E" then
          let '(eneg, s5) := read_sign s4 in
          let '(e, ne, s6) := read_digits 0 0 s5 in
          match ne, s6 with
          | S _, EmptyString =>
              Some {| l_neg := neg; l_mant := m; l_digits := ni + nf;
                      l_exp := (if eneg then - e else e) - Z.of_nat nf;
                      l_int := false |}
          | _, _ => None
          end
        else None
    end.

(** Number of decimal digits of a positive integer. *)
Fixpoint ndigits_fuel (fuel : nat) (n : Z) : Z :=
  match fuel with
  | O => 0
  | S fuel' => if n <? 10 then 1 else 1 + ndigits_fuel fuel' (n / 10)
  end.

Definition ndigits (n : Z) : Z := ndigits_fuel (S (Z.to_nat (Z.log2 n))) n.

Definition signed_zero (neg : bool) : float :=
  if neg then PrimFloat.neg_zero else PrimFloat.zero.

Definition signed_infinity (neg : bool) : float :=
  if neg then PrimFloat.neg_infinity else PrimFloat.infinity.

(** The double nearest to [m * 10^e].  Beyond [10^310] it is an infinity,
    below [10^-330] a zero: the powers of ten are only computed in
    between. *)
Definition literal_value (neg : bool) (m e : Z) : float :=
  if m =? 0 then signed_zero neg
  else if 310 <? e + ndigits m then signed_infinity neg
  else if e + ndigits m <? -330 then signed_zero neg
  else if 0 <=? e then of_ratio neg (m * 10 ^ e) 1
  else of_ratio neg m (10 ^ (- e)).

(** *** Python's [float] on a string *)

(** The blanks [float] strips: TAB, LF, VT, FF, CR and the space. *)
Definition float_space (c : ascii) : bool :=
  let n := nat_of_ascii c in (Nat.leb 9 n && Nat.leb n 13) || Nat.eqb n 32.

Fixpoint lstrip (s : string) : string :=
  match s with
  | String c s' => if float_space c then lstrip s' else s
  | EmptyString => EmptyString
  end.

Fixpoint rstrip (s : string) : string :=
  match s with
  | EmptyString => EmptyString
  | String c s' =>
      match rstrip s' with
      | EmptyString => if float_space c then EmptyString else String c EmptyString
      | r => String c r
      end
  end.

(** The digit-group underscores: each stands between two digits; they are
    taken out.  [prev] is the character in front. *)
Fixpoint drop_underscores (prev : ascii) (s : string) : option string :=
  match s with
  | EmptyString => if Ascii.eqb prev "_" then None else Some EmptyString
  | String c s' =>
      if Ascii.eqb c "_" then
        if is_digit prev then drop_underscores c s' else None
      else if Ascii.eqb prev "_" && negb (is_digit c) then None
      else option_map (String c) (drop_underscores c s')
  end.

Definition to_lower (c : ascii) : ascii :=
  let n := nat_of_ascii c in
  if Nat.leb 65 n && Nat.leb n 90 then ascii_of_nat (n + 32) else c.

Fixpoint lower (s : string) : string :=
  match s with
  | EmptyString => EmptyString
  | String c s' => String (to_lower c) (lower s')
  end.

(** [float(s)]: blanks around the text are dropped; the text is [inf],
    [infinity] or [nan] in any case, with an optional sign, or a decimal
    literal, which may group its digits with underscores; the value is the
    nearest double.  Anything else is a [ValueError]. *)
Definition py_float (s : string) : result float :=
  match drop_underscores "000" (rstrip (lstrip s)) with
  | None => Raise ValueError
  | Some t =>
      let '(neg, word) := read_sign (lower t) in
      if String.eqb word "inf" || String.eqb word "infinity" then
        Ok (signed_infinity neg)
      else if String.eqb word "nan" then Ok PrimFloat.nan
      else
        match decimal_literal t with
        | None => Raise ValueError
        | Some l => Ok (literal_value (l_neg l) (l_mant l) (l_exp l))
        end
  end.

(** *** The parser of [pandas.read_csv]

    For [delim_whitespace=True, header=None, names=] six names and
    [skiprows=nskip], with pandas' C parser (pandas 1.2 and later).  The
    reader below returns what pandas returns on the files it covers, and
    [Unsupported] on the others:
    - a first data line of more than six fields makes pandas take the
      leading fields as the index of the frame: not covered;
    - a field that is no number makes its column a column of strings: not
      covered;
    - the float converter of the C parser reads at most 17 digits and
      scales by a power of ten; it rounds correctly for up to 15 digits
      and a decimal exponent of at most 22 in magnitude: longer fields are
      not covered;
    - a column whose fields are all integers is an [int64] column; for the
      coordinates this makes no difference below [10^15]; for the
      velocities the squares and their sums are exact in both
      representations as long as [3 * rows * max^2 <= 2^53]: larger
      integer columns are not covered. *)

Inductive field : Type :=
| IntField (z : Z)
| FloatField (v : float)
| NaField.

(** The texts pandas reads as a missing value. *)
Definition na_values : list string :=
  ["#N/A"; "#NA"; "-1.#IND"; "-1.#QNAN"; "-NaN"; "-nan"; "1.#IND"; "1.#QNAN";
   "<NA>"; "N/A"; "NA"; "NULL"; "NaN"; "n/a"; "nan"; "null"].

Definition inf_words : list string :=
  ["inf"; "+inf"; "infinity"; "+infinity"].

Definition neg_inf_words : list string := ["-inf"; "-infinity"].

Definition mem (s : string) (l : list string) : bool := existsb (String.eqb s) l.

Definition parse_field (tok : string) : result field :=
  if mem tok na_values then Ok NaField
  else if mem (lower tok) inf_words then Ok (FloatField PrimFloat.infinity)
  else if mem (lower tok) neg_inf_words then Ok (FloatField PrimFloat.neg_infinity)
  else
    match decimal_literal tok with
    | None => Raise Unsupported
    | Some l =>
        if Nat.ltb 15 (l_digits l) then Raise Unsupported
        else if l_int l then
          Ok (IntField (if l_neg l then - l_mant l else l_mant l))
        else if (l_exp l <? -22) || (22 <? l_exp l) then Raise Unsupported
        else Ok (FloatField (literal_value (l_neg l) (l_mant l) (l_exp l)))
    end.

(** The separators of [delim_whitespace]: the space and the TAB. *)
Definition is_blank (c : ascii) : bool := Ascii.eqb c " " || Ascii.eqb c "009".

(** A line without its terminator. *)
Definition chomp (line : string) : string :=
  let drop_last (c : ascii) (s : string) :=
    match rev (list_ascii_of_string s) with
    | c' :: r => if Ascii.eqb c c' then string_of_list_ascii (rev r) else s
    | [] => s
    end in
  drop_last "013"%char (drop_last "010"%char line).

(** A line holds no other white space than the separators. *)
Definition plain (line : string) : bool :=
  forallb (fun c => implb (isspace c) (is_blank c))
    (list_ascii_of_string (chomp line)).

Definition blank (line : string) : bool :=
  match split line with
  | [] => true
  | _ => false
  end.

Definition read_line (line : string) : result (list field) :=
  mapM parse_field (split line).

(** The lines after the first: a line of more fields than the first is an
    error of the tokenizer. *)
Fixpoint check_widths (w : nat) (rows : list (list field)) : result unit :=
  match rows with
  | [] => Ok tt
  | r :: rows' =>
      if Nat.ltb w (List.length r) then Raise ParserError
      else check_widths w rows'
  end.

(** The field of a line in column [j]; a short line is filled up with
    missing values. *)
Definition field_at (j : nat) (r : list field) : field := nth j r NaField.

Definition is_int_field (f : field) : bool :=
  match f with
  | IntField _ => true
  | _ => false
  end.

Definition int_of_field (f : field) : Z :=
  match f with
  | IntField z => z
  | _ => 0
  end.

(** Column [j] is an [int64] column: it has rows, and all its fields are
    integers. *)
Definition int_column (j : nat) (rows : list (list field)) : bool :=
  negb (Nat.eqb (List.length rows) 0)
  && forallb (fun r => is_int_field (field_at j r)) rows.

(** The bound on an integer velocity column. *)
Definition small_ints (j : nat) (rows : list (list field)) : bool :=
  let m := fold_left Z.max (map (fun r => Z.abs (int_of_field (field_at j r))) rows) 0 in
  3 * Z.of_nat (List.length rows) * (m * m) <=? 2 ^ 53.

Definition value_of (f : field) : float :=
  match f with
  | IntField z => float_of_Z z
  | FloatField v => v
  | NaField => PrimFloat.nan
  end.

Definition rec6_of (r : list field) : Rec6 float :=
  (value_of (field_at 0 r), value_of (field_at 1 r), value_of (field_at 2 r),
   value_of (field_at 3 r), value_of (field_at 4 r), value_of (field_at 5 r)).

(** The first [nskip] lines and the blank lines are skipped; the first
    data line fixes the number of fields. *)
Definition pd_read_table (f : list string) (nskip : nat)
    : result (list (Rec6 float)) :=
  let lines := skipn nskip f in
  if negb (forallb plain lines) then Raise Unsupported
  else
    (rows <- mapM read_line (filter (fun line => negb (blank line)) lines) ;;
     match rows with
     | [] => Ok []
     | first :: rest =>
         if Nat.ltb 6 (List.length first) then Raise Unsupported
         else
           (_ <- check_widths (List.length first) rest ;;
            if forallb (fun j => implb (int_column j rows) (small_ints j rows))
                 [3; 4; 5]%nat
            then Ok (map rec6_of rows)
            else Raise Unsupported)
     end)%py.

(** *** [argparse]

    The parser of lines 24-28 has the options [-h]/[--help], which
    [argparse] adds, and [-p]/[--plot]; [parse_args] is embedded as Python
    3.11 runs it on the arguments of the command line. *)

Inductive action : Type := Plot | Help.

Inductive arg_kind : Type :=
| Extra                       (* no option of the parser: reported at the end *)
| Flags (acts : list action)  (* an option, or several short ones in a row *)
| Explicit                    (* an option with a value it does not take *)
| Ambiguous.                  (* a prefix of both long options *)

(** [s] up to its first [=], and what follows it. *)
Fixpoint before_eq (s : string) : string * option string :=
  match s with
  | EmptyString => (EmptyString, None)
  | String c s' =>
      if Ascii.eqb c "=" then (EmptyString, Some s')
      else let '(a, b) := before_eq s' in (String c a, b)
  end.

Definition short_action (c : ascii) : option action :=
  if Ascii.eqb c "p" then Some Plot
  else if Ascii.eqb c "h" then Some Help
  else None.

(** A run of short options. *)
Fixpoint short_flags (s : string) : option (list action) :=
  match s with
  | EmptyString => Some []
  | String c s' =>
      match short_action c, short_flags s' with
      | Some a, Some l => Some (a :: l)
      | _, _ => None
      end
  end.

(** What an argument is for the parser.  A long option may be cut short
    to any prefix that fits one long option only; a value after [=] is
    not taken, by either option; short options may follow one another in
    one argument. *)
Definition classify (a : string) : arg_kind :=
  match a with
  | String "-" (String "-" _) =>
      let '(pre, value) := before_eq a in
      let p := String.prefix pre "--plot" in
      let h := String.prefix pre "--help" in
      match value with
      | None => if p && h then Extra
                else if p then Flags [Plot]
                else if h then Flags [Help]
                else Extra
      | Some _ => if p && h then Ambiguous
                  else if p || h then Explicit
                  else Extra
      end
  | String "-" (String c rest) =>
      match short_action c with
      | Some act =>
          let more := match rest with
                      | String "=" EmptyString => None
                      | String "=" value => short_flags value
                      | _ => short_flags rest
                      end in
          match more with
          | Some l => Flags (act :: l)
          | None => Explicit
          end
      | None => Extra
      end
  | _ => Extra
  end.

(** The arguments in front of the marker [--], and whether the marker is
    there. *)
Fixpoint options_part (argv : list string) : list string * bool :=
  match argv with
  | [] => ([], false)
  | a :: argv' =>
      if String.eqb a "--" then ([], true)
      else let '(l, m) := options_part argv' in (a :: l, m)
  end.

Definition is_help (a : action) : bool :=
  match a with
  | Help => true
  | Plot => false
  end.

Definition is_ambiguous (k : arg_kind) : bool :=
  match k with
  | Ambiguous => true
  | _ => false
  end.

(** The arguments are taken from left to right: [-h] prints the help and
    exits with status 0, a value given to an option is a usage error
    (status 2); the arguments that are no options are reported at the
    end, as a usage error. *)
Fixpoint consume (acc extras : bool) (kinds : list arg_kind) : result Namespace :=
  match kinds with
  | [] => if extras then Raise (SystemExit 2) else Ok {| plot := acc |}
  | Extra :: ks => consume acc true ks
  | Flags acts :: ks =>
      if existsb is_help acts then Raise (SystemExit 0)
      else consume true extras ks
  | Explicit :: _ => Raise (SystemExit 2)
  | Ambiguous :: _ => Raise (SystemExit 2)
  end.

(** An ambiguous option is an error before any argument is taken; the
    marker [--] and what follows it are no options. *)
Definition parse_args (argv : list string) : result Namespace :=
  let '(opts, marker) := options_part argv in
  let kinds := map classify opts in
  if existsb is_ambiguous kinds then Raise (SystemExit 2)
  else consume false marker kinds.

(** *** The ['%.18e'] formatter *)

Definition digit_char (d : Z) : ascii := ascii_of_nat (48 + Z.to_nat d).

(** The last [width] decimal digits of [n], most significant first. *)
Fixpoint decimal_digits (width : nat) (n : Z) (acc : string) : string :=
  match width with
  | O => acc
  | S width' => decimal_digits width' (n / 10) (String (digit_char (n mod 10)) acc)
  end.

(** [n] in decimal, on at least [width] digits. *)
Definition decimal (width : nat) (n : Z) : string :=
  decimal_digits (Nat.max width (Z.to_nat (ndigits n))) n EmptyString.

(** [10^d <= num / den] *)
Definition ge_pow10 (num den d : Z) : bool :=
  if 0 <=? d then den * 10 ^ d <=? num else den <=? num * 10 ^ (- d).

(** The decimal exponent of [num / den]: the largest [d] with
    [10^d <= num / den]. *)
Definition log10_floor (num den : Z) : Z :=
  let d := ndigits num - ndigits den in
  if ge_pow10 num den d then d else d - 1.

(** [num / den] rounded to the nearest integer, ties to even. *)
Definition round_div (num den : Z) : Z :=
  let q := num / den in
  let r := num mod den in
  if (den <? 2 * r) || ((2 * r =? den) && Z.odd q) then q + 1 else q.

(** The 19 significant digits and the decimal exponent of [num / den]. *)
Definition sci18 (num den : Z) : Z * Z :=
  let d := log10_floor num den in
  let k := 18 - d in
  let q := if 0 <=? k then round_div (num * 10 ^ k) den
           else round_div num (den * 10 ^ (- k)) in
  if 10 ^ 19 <=? q then (10 ^ 18, d + 1) else (q, d).

Definition mantissa_string (q : Z) : string :=
  match decimal 19 q with
  | String c rest => String c (String "." rest)
  | EmptyString => EmptyString
  end.

Definition exponent_string (d : Z) : string :=
  String.append (if d <? 0 then "-" else "+") (decimal 2 (Z.abs d)).

Definition sign_string (s : bool) : string := if s then "-" else "".

(** ['%.18e' % v] on a double: the exact value, correctly rounded to 19
    significant digits. *)
Definition format_e18 (v : float) : string :=
  match FloatOps.Prim2SF v with
  | SpecFloat.S754_nan => "nan"
  | SpecFloat.S754_infinity s => String.append (sign_string s) "inf"
  | SpecFloat.S754_zero s =>
      String.append (sign_string s) "0.000000000000000000e+00"
  | SpecFloat.S754_finite s m e =>
      let '(num, den) := if 0 <=? e then (Z.pos m * 2 ^ e, 1)
                         else (Z.pos m, 2 ^ (- e)) in
      let '(q, d) := sci18 num den in
      String.append (sign_string s)
        (String.append (mantissa_string q)
           (String.append "e" (exponent_string d)))
  end.

End Binary64.

(* ===================================================================== *)
(** ** Vocabulary of the properties *)

Section Vocabulary.

Context {F : Type} `{Float64 F}.

(** The value of a row at a column position. *)
Definition val (p : nat) (r : Row F) : F := nth p (cells r) fzero.

(** Every row has one cell per column. *)
Definition rectangular (dat : DataFrame F) : Prop :=
  Forall (fun r => List.length (cells r) = List.length (columns dat)) (rows dat).

(** [dat.loc[i]]: the row labelled [i]. *)
Definition row_at (dat : DataFrame F) (i : nat) : option (Row F) :=
  find (fun r => Nat.eqb (label r) i) (rows dat).

(** [dat.loc[i, c]] *)
Definition loc (dat : DataFrame F) (i : nat) (c : string) : option F :=
  match row_at dat i, col_pos c (columns dat) with
  | Some r, Ok p => nth_error (cells r) p
  | _, _ => None
  end.

(** The key tuple [(z, y, x)] of a row of [dat]. *)
Definition zyx (dat : DataFrame F) (r : Row F) : result (list F) :=
  (ps <- mapM (fun c => col_pos c (columns dat)) sort_keys ;;
   mapM (fun p => cell p r) ps)%py.

(** Lexicographic [<=] on key tuples, first key first, with the [<] and
    [==] of the numbers. *)
Fixpoint lex_leb (a b : list F) : bool :=
  match a, b with
  | x :: a', y :: b' => fltb x y || (feqb x y && lex_leb a' b')
  | _, _ => true
  end.

(** Equality of key tuples, component by component. *)
Fixpoint key_eqb (a b : list F) : bool :=
  match a, b with
  | x :: a', y :: b' => feqb x y && key_eqb a' b'
  | [], [] => true
  | _, _ => false
  end.

(** [a] occurs before [b] in [l]. *)
Definition before {A : Type} (a b : A) (l : list A) : Prop :=
  exists l1 l2 l3, l = l1 ++ a :: l2 ++ b :: l3.

(** Two values that [<] and [==] can order: neither is a NaN. *)
Definition comparable (a b : F) : bool := fltb a b || feqb a b || fltb b a.

Fixpoint comparable_keys (k1 k2 : list F) : bool :=
  match k1, k2 with
  | a :: k1', b :: k2' => comparable a b && comparable_keys k1' k2'
  | _, _ => true
  end.

(** The key tuples of every two rows of the table are comparable. *)
Definition comparable_rows (dat : DataFrame F) : bool :=
  forallb (fun r1 =>
    forallb (fun r2 =>
      match zyx dat r1, zyx dat r2 with
      | Ok k1, Ok k2 => comparable_keys k1 k2
      | _, _ => false
      end) (rows dat)) (rows dat).

(** [<=] orders the values of [l]: none is a NaN, every two of them are
    comparable and [<=] is transitive on them. *)
Definition ordered (l : list F) : bool :=
  forallb (fun a => negb (isnan a)) l
  && forallb (fun a => forallb (fun b => fleb a b || fleb b a) l) l
  && forallb (fun a =>
       forallb (fun b =>
         forallb (fun c => implb (fleb a b && fleb b c) (fleb a c)) l) l) l.

(** Element [(i, j, k)] of the cube that holds the flat array [u] with
    the first axis fastest. *)
Definition at_F (n : nat) (u : list F) (i j k : nat) : F :=
  nth (i + n * j + n * n * k) u fzero.

(** The plane [i] of that cube. *)
Definition plane_F (n : nat) (u : list F) (i : nat) : Plane F :=
  map (fun j => map (fun k => at_F n u i j k) (seq 0 n)) (seq 0 n).

(** The finite-difference gradient along the first axis, point by point:
    one-sided at the two ends, centred inside. *)
Definition grad_x (n : nat) (u : list F) (dx : F) (i j k : nat) : F :=
  if Nat.eqb i 0 then fdiv (fsub (at_F n u 1 j k) (at_F n u 0 j k)) dx
  else if Nat.eqb i (n - 1) then
    fdiv (fsub (at_F n u (n - 1) j k) (at_F n u (n - 2) j k)) dx
  else fdiv (fsub (at_F n u (i + 1) j k) (at_F n u (i - 1) j k)) (fmul ftwo dx).

(** The mean of the squared gradient over the [n^3] points, taken in the
    order of the column [u]. *)
Definition mean_sq_grad (n : nat) (u : list F) (dx : F) : F :=
  np_mean
    (flat_map (fun k =>
       flat_map (fun j =>
         map (fun i => square (grad_x n u dx i j k)) (seq 0 n))
         (seq 0 n))
       (seq 0 n)).

(** The divisor of [1. / mu] is zero. *)
Definition is_zero (mu : pynum F) : bool :=
  match mu with
  | PyInt z => Z.eqb z 0
  | PyFloat f => feqb f fzero
  end.

(** A row whose cell at position [p] went through [h]. *)
Definition map_column (p : nat) (h : F -> F) (r : Row F) : Row F :=
  {| label := label r; cells := set_nth p (h (val p r)) (cells r) |}.

(** A row with the key tuple read at the positions [ps]. *)
Definition with_key (ps : list nat) (r : Row F) : Keyed F :=
  (map (fun p => val p r) ps, r).

(** The order of the sort, on rows with their keys. *)
Definition key_le (a b : Keyed F) : Prop := lex_leb (fst a) (fst b) = true.

(** Every two keys of the list are comparable. *)
Definition total_on (l : list (Keyed F)) : Prop :=
  forall a b, In a l -> In b l -> comparable_keys (fst a) (fst b) = true.

(** The labels of the columns after the rename of line 79. *)
Definition renamed : list string := ["y"; "x"; "z"; "u"; "v"; "w"].

(** A row of six cells. *)
Definition six (r : Row F) : Prop := List.length (cells r) = 6.

(** A row after lines 85-87: the cells labelled x, y and z are shifted. *)
Definition shift_row (dx : F) (r : Row F) : Row F :=
  map_column 2 (shifted dx) (map_column 0 (shifted dx) (map_column 1 (shifted dx) r)).

(** The table after lines 79-87, for the spacing [dx]. *)
Definition shifted_frame (dx : F) (dat : DataFrame F) : DataFrame F :=
  {| columns := renamed; rows := map (shift_row dx) (rows dat) |}.

(** The table after line 90. *)
Definition sorted_frame (dx : F) (dat : DataFrame F) : DataFrame F :=
  {| columns := renamed;
     rows := map snd (sort_keyed (map (with_key [2; 0; 1])
                                    (map (shift_row dx) (rows dat)))) |}.

(** A row after lines 107-109, for the positions of the columns u, v
    and w: these cells are divided by [urms]. *)
Definition scaled_row (pu pv pw : nat) (urms : F) (r : Row F) : Row F :=
  map_column pw (scaled urms) (map_column pv (scaled urms)
                                 (map_column pu (scaled urms) r)).

(** The same on the renamed table, where u, v, w are the last three
    columns. *)
Definition norm_row (urms : F) (r : Row F) : Row F := scaled_row 3 4 5 urms r.

(** The values of a row of the renamed table, in the order x, y, z, u, v,
    w of the output file. *)
Definition xyzuvw (r : Row F) : list F :=
  [val 1 r; val 0 r; val 2 r; val 3 r; val 4 r; val 5 r].

(** A line of the output file for a row given by its six values. *)
Definition data_line (format_e18 : F -> string) (vs : list F) : string :=
  csv_line (map (csv_field format_e18) vs).

(** The six values written for a row [r] of the table the transformer
    returns, in the order of the file: x (cell 1 after the rename), y
    (cell 0), z, and u, v, w over [urms]. *)
Definition written (urms : F) (r : Row F) : list F :=
  [val 1 r; val 0 r; val 2 r;
   fdiv (val 3 r) urms; fdiv (val 4 r) urms; fdiv (val 5 r) urms].

(** No value written for the rows [rs] is a NaN. *)
Definition no_nan_written (urms : F) (rs : list (Row F)) : bool :=
  forallb (fun r => forallb (fun v => negb (isnan v)) (written urms r)) rs.

(** A file without a header line: every line is the comma-separated
    ['%.18e'] rendering of six values. *)
Definition headerless (format_e18 : F -> string) (lines : list string) : Prop :=
  forall line, In line lines ->
    exists vs, List.length vs = 6 /\ line = csv_line (map format_e18 vs).

End Vocabulary.

(* ===================================================================== *)
(** ** Vocabulary of the order of binary64 *)

(** [<=] and the NaN test on the specification of the doubles. *)
Definition SFle (a b : SpecFloat.spec_float) : bool :=
  SpecFloat.SFltb a b || SpecFloat.SFeqb a b.

Definition SFnan (a : SpecFloat.spec_float) : bool :=
  match a with
  | SpecFloat.S754_nan => true
  | _ => false
  end.

(* ===================================================================== *)
(** ** Vocabulary of the text properties *)

(** [pat] occurs in [s]. *)
Definition substring_of (pat s : string) : Prop :=
  exists a b, s = String.append a (String.append pat b).

Fixpoint all_chars (p : ascii -> bool) (s : string) : bool :=
  match s with
  | EmptyString => true
  | String c s' => p c && all_chars p s'
  end.

(** A token starts at the beginning of the line or after a blank. *)
Definition token_start (pre : string) : Prop :=
  pre = EmptyString
  \/ exists pre' c, pre = String.append pre' (String c EmptyString)
                    /\ isspace c = true.

(** [tok] is the last whitespace-separated token of [line]: a non-empty
    run without blanks, which starts a token and is followed by blanks
    only. *)
Definition last_token (line tok : string) : Prop :=
  exists pre post,
    line = String.append pre (String.append tok post)
    /\ tok <> EmptyString
    /\ all_chars (fun c => negb (isspace c)) tok = true
    /\ all_chars isspace post = true
    /\ token_start pre.

(* ===================================================================== *)
(** ** A small input, for the concrete runs *)

Module Example.

(** A header and the eight points of a 2 x 2 x 2 grid of spacing 0.5, in
    the order of the source solver (x fastest). *)
Definition file : list string :=
  [ "# initial DNS field";
    "kinematic viscosity 0.005";
    "exporting field in real space";
    "0 0 0 1 0 0";
    "0.5 0 0 2 1 0";
    "0 0.5 0 -1 0 0.5";
    "0.5 0.5 0 3 0 1";
    "0 0 0.5 0.5 0 0";
    "0.5 0 0.5 1 2 0";
    "0 0.5 0.5 0 0 1";
    "0.5 0.5 0.5 1 1 1" ].

(** The same file without its viscosity line. *)
Definition file_no_viscosity : list string :=
  match file with
  | l0 :: _ :: rest => l0 :: rest
  | _ => []
  end.

(** The table of [file], as [read_csv] parses it. *)
Definition data : list (Rec6 float) :=
  [ (0, 0, 0, 1, 0, 0);
    (0.5, 0, 0, 2, 1, 0);
    (0, 0.5, 0, -1, 0, 0.5);
    (0.5, 0.5, 0, 3, 0, 1);
    (0, 0, 0.5, 0.5, 0, 0);
    (0.5, 0, 0.5, 1, 2, 0);
    (0, 0.5, 0.5, 0, 0, 1);
    (0.5, 0.5, 0.5, 1, 1, 1) ]%float.

(** A table with repeated grid points. *)
Definition repeated : list (Rec6 float) :=
  [ (0.5, 0, 0, 1, 0, 0);
    (0, 0, 0, 2, 0, 0);
    (0.5, 0, 0, 3, 0, 0);
    (0, 0, 0, 4, 0, 0) ]%float.

(** A table with a NaN coordinate in its first two rows. *)
Definition with_nan : list (Rec6 float) :=
  [ (0, 0, nan, 1, 0, 0);
    (0, 0, nan, 2, 0, 0);
    (0.5, 0, 0, 3, 0, 0);
    (0, 0, 0, 4, 0, 0) ]%float.

(** A table over the real numbers. *)
Definition real_table : DataFrame R :=
  frame_of names [ (0, 0, 0, 1, 2, 2); (1, 0, 0, 0, -1, 0) ]%R.

(** The script on binary64, for a grid of [n] points per axis. *)
Definition run (n : nat) (argv : list string) (f : option (list string))
    : result (Output float) :=
  script Binary64.parse_args Binary64.py_float Binary64.pd_read_table
    Binary64.format_e18 n argv f.

End Example.

(* ===================================================================== *)
(** * Properties *)

(** ** Lists, results and frames *)

Lemma bind_Ok {A B : Type} (c : result A) (k : A -> result B) (b : B) :
  bind c k = Ok b -> exists a, c = Ok a /\ k a = Ok b.
Proof.
  destruct c as [a|e]; simpl; intros Hk; [exists a; auto | discriminate].
Qed.

Lemma Ok_inj {A : Type} (a b : A) : Ok a = Ok b -> a = b.
Proof. now intros [= ->]. Qed.

Lemma mapM_map {A B : Type} (f : A -> result B) (g : A -> B) (l : list A) :
  (forall a, In a l -> f a = Ok (g a)) -> mapM f l = Ok (map g l).
Proof.
  induction l as [|a l IH]; intros Hf; simpl; [reflexivity|].
  rewrite (Hf a (or_introl eq_refl)); simpl.
  rewrite IH by (intros b Hb; apply Hf; right; exact Hb).
  reflexivity.
Qed.

Lemma map2_map_same {A B C : Type} (f : A -> B -> C) (g : A -> B) (l : list A) :
  map2 f l (map g l) = map (fun a => f a (g a)) l.
Proof.
  induction l as [|a l IH]; simpl; [reflexivity | now rewrite IH].
Qed.

Lemma set_nth_length {A : Type} (p : nat) (v : A) (l : list A) :
  List.length (set_nth p v l) = List.length l.
Proof.
  revert p; induction l as [|a l IH]; intros [|p]; simpl; auto.
Qed.

Lemma nth_set_nth_same {A : Type} (p : nat) (v d : A) (l : list A) :
  p < List.length l -> nth p (set_nth p v l) d = v.
Proof.
  revert p; induction l as [|a l IH]; intros [|p] Hp; simpl in *;
    try lia; auto.
  apply IH; lia.
Qed.

Lemma nth_set_nth_other {A : Type} (p q : nat) (v d : A) (l : list A) :
  p <> q -> nth q (set_nth p v l) d = nth q l d.
Proof.
  revert p q; induction l as [|a l IH]; intros [|p] [|q] Hpq; simpl;
    try reflexivity; try congruence.
  apply IH; congruence.
Qed.

Lemma col_pos_bound (c : string) (cols : list string) (p : nat) :
  col_pos c cols = Ok p -> p < List.length cols /\ nth_error cols p = Some c.
Proof.
  revert p; induction cols as [|c' cs IH]; intros p; simpl; [discriminate|].
  destruct (String.eqb c c') eqn:E.
  - intros [= <-]. apply String.eqb_eq in E; subst. split; [lia | reflexivity].
  - intros Hb. apply bind_Ok in Hb as (q & Hq & [= <-]).
    destruct (IH q Hq) as [Hlt Hnth]. split; [lia | exact Hnth].
Qed.

Section FrameFacts.

Context {F : Type} `{Float64 F}.

Lemma cell_val (p : nat) (r : Row F) :
  p < List.length (cells r) -> cell p r = Ok (val p r).
Proof.
  intros Hp. unfold cell, val.
  destruct (nth_error (cells r) p) as [v|] eqn:E.
  - now rewrite (nth_error_nth _ _ fzero E).
  - apply nth_error_None in E. lia.
Qed.

Lemma getitem_rect (dat : DataFrame F) (c : string) (p : nat) :
  rectangular dat -> col_pos c (columns dat) = Ok p ->
  getitem dat c = Ok (map (val p) (rows dat)).
Proof.
  intros Hrect Hp. unfold getitem. rewrite Hp; simpl.
  apply mapM_map. intros r Hr. apply cell_val.
  unfold rectangular in Hrect. rewrite Forall_forall in Hrect.
  rewrite (Hrect r Hr). now apply col_pos_bound in Hp.
Qed.

Lemma setitem_map (cols : list string) (rs : list (Row F)) (c : string)
    (p : nat) (g : Row F -> F) :
  col_pos c cols = Ok p ->
  setitem {| columns := cols; rows := rs |} c (map g rs)
  = Ok {| columns := cols;
          rows := map (fun r => {| label := label r;
                                   cells := set_nth p (g r) (cells r) |}) rs |}.
Proof.
  intros Hp. unfold setitem; simpl.
  rewrite length_map, Nat.eqb_refl, Hp, map2_map_same. reflexivity.
Qed.

(** The pattern [dat[c] = h(dat[c])] of the script, followed by the rest
    [k] of the script. *)
Lemma update_column {A : Type} (cols : list string) (rs : list (Row F))
    (c : string) (p : nat) (h : F -> F) (k : DataFrame F -> result A) :
  rectangular {| columns := cols; rows := rs |} -> col_pos c cols = Ok p ->
  bind (getitem {| columns := cols; rows := rs |} c)
    (fun x => bind (setitem {| columns := cols; rows := rs |} c (map h x)) k)
  = k {| columns := cols; rows := map (map_column p h) rs |}.
Proof.
  intros Hrect Hp. rewrite (getitem_rect _ _ _ Hrect Hp); simpl.
  rewrite map_map. now rewrite (setitem_map _ _ _ _ (fun r => h (val p r)) Hp).
Qed.

Lemma rectangular_map_column (cols cols' : list string) (rs : list (Row F))
    (p : nat) (h : F -> F) :
  List.length cols' = List.length cols ->
  rectangular {| columns := cols; rows := rs |} ->
  rectangular {| columns := cols'; rows := map (map_column p h) rs |}.
Proof.
  unfold rectangular; simpl. intros Hlen Hrect.
  apply Forall_map. eapply Forall_impl; [|exact Hrect].
  intros r Hr; simpl. now rewrite set_nth_length, Hlen.
Qed.

Lemma val_map_column_same (p : nat) (h : F -> F) (r : Row F) :
  p < List.length (cells r) -> val p (map_column p h r) = h (val p r).
Proof. intros Hp. unfold val at 1; simpl. now apply nth_set_nth_same. Qed.

Lemma val_map_column_other (p q : nat) (h : F -> F) (r : Row F) :
  p <> q -> val q (map_column p h r) = val q r.
Proof. intros Hpq. unfold val; simpl. now apply nth_set_nth_other. Qed.

Lemma label_map_column (p : nat) (h : F -> F) (r : Row F) :
  label (map_column p h r) = label r.
Proof. reflexivity. Qed.

End FrameFacts.

(** ** The insertion sort on key tuples *)

Lemma before_cons {A : Type} (x a b : A) (l : list A) :
  before a b l -> before a b (x :: l).
Proof.
  intros (l1 & l2 & l3 & ->). now exists (x :: l1), l2, l3.
Qed.

Lemma before_head {A : Type} (a b : A) (l : list A) :
  In b l -> before a b (a :: l).
Proof.
  intros Hb. apply in_split in Hb as (l2 & l3 & ->). now exists [], l2, l3.
Qed.

Lemma before_inv {A : Type} (x a b : A) (l : list A) :
  before a b (x :: l) -> (a = x /\ In b l) \/ before a b l.
Proof.
  intros (l1 & l2 & l3 & Hl). destruct l1 as [|y l1]; simpl in Hl.
  - injection Hl as -> ->. left. split; [reflexivity|].
    apply in_or_app; right; now left.
  - injection Hl as -> ->. right. now exists l1, l2, l3.
Qed.

Lemma before_map {A B : Type} (f : A -> B) (a b : A) (l : list A) :
  before a b l -> before (f a) (f b) (map f l).
Proof.
  intros (l1 & l2 & l3 & ->). exists (map f l1), (map f l2), (map f l3).
  now rewrite map_app; simpl; rewrite map_app.
Qed.

Lemma NoDup_map_inj {A B : Type} (f : A -> B) (l : list A) (a b : A) :
  NoDup (map f l) -> In a l -> In b l -> f a = f b -> a = b.
Proof.
  induction l as [|x l IH]; simpl; intros Hnd Ha Hb Hf; [contradiction|].
  inversion Hnd as [|? ? Hnotin Hnd']; subst.
  destruct Ha as [->|Ha], Hb as [->|Hb]; auto.
  - exfalso. apply Hnotin. rewrite Hf. now apply in_map.
  - exfalso. apply Hnotin. rewrite <- Hf. now apply in_map.
Qed.

Section SortFacts.

Context {F : Type} `{Float64 F}.

Lemma key_eqb_lex_leb (a b : list F) :
  key_eqb a b = true -> lex_leb a b = true.
Proof.
  revert b; induction a as [|x a IH]; intros [|y b]; simpl; auto.
  intros Hk. apply andb_true_iff in Hk as [Hxy Hab].
  rewrite Hxy, (IH b Hab). apply orb_true_r.
Qed.

(** Keys that are equal component by component are equal for the sort. *)
Lemma key_eqb_sort_leb (a b : list F) :
  key_eqb a b = true -> sort_leb a b = true.
Proof.
  revert b; induction a as [|x a IH]; intros [|y b]; simpl; auto.
  intros Hk. apply andb_true_iff in Hk as [Hxy Hab].
  unfold na_last_eqb. rewrite Hxy, (IH b Hab). apply orb_true_r.
Qed.

(** A value that is comparable with itself is no NaN for the sort. *)
Lemma comparable_isna (x : F) : comparable x x = true -> isna x = false.
Proof.
  unfold comparable, isna, fleb.
  destruct (fltb x x), (feqb x x); simpl; congruence.
Qed.

(** On keys without NaN the order of the sort is the lexicographic
    order. *)
Lemma sort_leb_lex (a b : list F) :
  comparable_keys a a = true -> comparable_keys b b = true ->
  sort_leb a b = lex_leb a b.
Proof.
  revert b; induction a as [|x a IH]; intros [|y b]; simpl; auto.
  intros Ha Hb.
  apply andb_true_iff in Ha as [Hx Ha].
  apply andb_true_iff in Hb as [Hy Hb].
  unfold na_last_ltb, na_last_eqb.
  rewrite (comparable_isna x Hx), (comparable_isna y Hy), (IH b Ha Hb).
  simpl. now rewrite !orb_false_r.
Qed.

Lemma total_on_sort_leb (l : list (Keyed F)) (a b : Keyed F) :
  total_on l -> In a l -> In b l ->
  sort_leb (fst a) (fst b) = lex_leb (fst a) (fst b).
Proof.
  intros Htot Ha Hb. apply sort_leb_lex; now apply Htot.
Qed.

(** With comparable components, [lex_leb] is total. *)
Lemma lex_leb_total (a b : list F) :
  comparable_keys a b = true -> comparable_keys b a = true ->
  lex_leb a b = false -> lex_leb b a = true.
Proof.
  revert b; induction a as [|x a IH]; intros [|y b]; simpl; try discriminate.
  intros Hab Hba Hle.
  apply andb_true_iff in Hab as [Hxy Hab].
  apply andb_true_iff in Hba as [Hyx Hba].
  apply orb_false_iff in Hle as [Hlt Hle].
  unfold comparable in Hxy, Hyx. rewrite Hlt in *. simpl in Hxy.
  destruct (fltb y x); [reflexivity|]. simpl in *.
  rewrite orb_false_r in *. rewrite Hxy in Hle. rewrite Hyx. simpl in *.
  now apply IH.
Qed.

Lemma insert_keyed_perm (x : Keyed F) (l : list (Keyed F)) :
  Permutation (insert_keyed x l) (x :: l).
Proof.
  induction l as [|y l IH]; simpl; [reflexivity|].
  destruct (sort_leb (fst x) (fst y)); [reflexivity|].
  rewrite IH. apply perm_swap.
Qed.

Lemma sort_keyed_perm (l : list (Keyed F)) : Permutation (sort_keyed l) l.
Proof.
  induction l as [|x l IH]; simpl; [reflexivity|].
  rewrite insert_keyed_perm. now constructor.
Qed.

Lemma insert_keyed_sorted (x : Keyed F) (l : list (Keyed F)) :
  total_on (x :: l) -> Sorted key_le l -> Sorted key_le (insert_keyed x l).
Proof.
  intros Htot Hs. induction Hs as [|y l Hs IH Hhd]; simpl.
  - repeat constructor.
  - rewrite (total_on_sort_leb (x :: y :: l) x y Htot)
      by (simpl; auto).
    destruct (lex_leb (fst x) (fst y)) eqn:E.
    + constructor; [now constructor | now constructor].
    + assert (Hyx : key_le y x).
      { apply lex_leb_total; [| |exact E]; apply Htot; simpl; auto. }
      constructor.
      * apply IH. intros a b Ha Hb. apply Htot; simpl in *; tauto.
      * destruct l as [|z l]; simpl; [now constructor|].
        destruct (sort_leb (fst x) (fst z)); constructor; auto.
        now inversion Hhd.
Qed.

Lemma sort_keyed_sorted (l : list (Keyed F)) :
  total_on l -> Sorted key_le (sort_keyed l).
Proof.
  induction l as [|x l IH]; intros Htot; simpl; [constructor|].
  apply insert_keyed_sorted.
  - intros a b Ha Hb. apply Htot.
    + destruct Ha as [->|Ha]; [now left | right].
      now apply (Permutation_in _ (sort_keyed_perm l)).
    + destruct Hb as [->|Hb]; [now left | right].
      now apply (Permutation_in _ (sort_keyed_perm l)).
  - apply IH. intros a b Ha Hb. apply Htot; now right.
Qed.

Lemma insert_keyed_before (x a b : Keyed F) (l : list (Keyed F)) :
  before a b l -> before a b (insert_keyed x l).
Proof.
  revert a b; induction l as [|y l IH]; intros a b Hab; simpl.
  - now apply before_cons.
  - destruct (sort_leb (fst x) (fst y)); [now apply before_cons|].
    apply before_inv in Hab as [[-> Hb]|Hab].
    + apply before_head.
      apply (Permutation_in _ (Permutation_sym (insert_keyed_perm x l))).
      now right.
    + apply before_cons. now apply IH.
Qed.

(** A row is inserted in front of the rows of equal key. *)
Lemma insert_keyed_first (x b : Keyed F) (l : list (Keyed F)) :
  In b l -> sort_leb (fst x) (fst b) = true -> before x b (insert_keyed x l).
Proof.
  induction l as [|y l IH]; simpl; [contradiction|].
  intros Hb Hle. destruct (sort_leb (fst x) (fst y)) eqn:E.
  - now apply before_head.
  - destruct Hb as [->|Hb]; [congruence|].
    apply before_cons. now apply IH.
Qed.

Lemma sort_keyed_stable (a b : Keyed F) (l : list (Keyed F)) :
  before a b l -> key_eqb (fst a) (fst b) = true ->
  before a b (sort_keyed l).
Proof.
  revert a b; induction l as [|x l IH]; intros a b Hab Heq.
  - destruct Hab as (l1 & l2 & l3 & Hl). now destruct l1.
  - simpl. apply before_inv in Hab as [[-> Hb]|Hab].
    + apply insert_keyed_first.
      * now apply (Permutation_in _ (Permutation_sym (sort_keyed_perm l))).
      * now apply key_eqb_sort_leb.
    + apply insert_keyed_before. now apply IH.
Qed.

End SortFacts.

(** ** The coordinate transformer, stage by stage *)

Section TransformerFacts.

Context {F : Type} `{Float64 F}.

Lemma index_from_cells (i : nat) (data : list (Rec6 F)) :
  Forall (fun r => List.length (cells r) = 6) (index_from i data).
Proof.
  revert i; induction data as [|t data IH]; intros i; simpl; constructor.
  - destruct t as [[[[[a b] c] d] e] f]. reflexivity.
  - apply IH.
Qed.

Lemma index_from_labels (i : nat) (data : list (Rec6 F)) :
  map label (index_from i data) = seq i (List.length data).
Proof.
  revert i; induction data as [|t data IH]; intros i; simpl;
    [reflexivity | now rewrite IH].
Qed.

Lemma index_from_length (i : nat) (data : list (Rec6 F)) :
  List.length (index_from i data) = List.length data.
Proof.
  revert i; induction data as [|t data IH]; intros i; simpl;
    [reflexivity | now rewrite IH].
Qed.

Lemma frame_of_rectangular (data : list (Rec6 F)) :
  rectangular (frame_of names data).
Proof. exact (index_from_cells 0 data). Qed.

(** Lines 79-87 on a table with the six columns of [read_csv]. *)
Lemma shift_coordinates_spec (dat : DataFrame F) :
  columns dat = names -> rectangular dat ->
  shift_coordinates dat
  = (dx <- np_max (np_diff (map (val 1) (rows dat))) ;;
     Ok (dx, shifted_frame dx dat))%py.
Proof.
  destruct dat as [cols rs]; simpl. intros -> Hrect.
  unfold shift_coordinates.
  assert (R0 : rectangular {| columns := renamed; rows := rs |}) by exact Hrect.
  change (rename [("x", "y"); ("y", "x")] {| columns := names; rows := rs |})
    with {| columns := renamed; rows := rs |}.
  rewrite (getitem_rect _ "x" 1 R0 eq_refl); simpl.
  destruct (np_max (np_diff (map (val 1) rs))) as [dx|e]; simpl; [|reflexivity].
  unfold shift. rewrite map_map.
  rewrite (setitem_map renamed rs "x" 1 (fun r => shifted dx (val 1 r)) eq_refl).
  cbn [bind]. fold (map_column 1 (shifted dx)).
  assert (R1 : rectangular {| columns := renamed;
                              rows := map (map_column 1 (shifted dx)) rs |})
    by now apply (rectangular_map_column renamed).
  rewrite (update_column renamed _ "y" 0 (shifted dx) _ R1 eq_refl).
  assert (R2 : rectangular
                 {| columns := renamed;
                    rows := map (map_column 0 (shifted dx))
                              (map (map_column 1 (shifted dx)) rs) |})
    by now apply (rectangular_map_column renamed).
  rewrite (update_column renamed _ "z" 2 (shifted dx) _ R2 eq_refl).
  unfold shifted_frame; simpl. rewrite !map_map. reflexivity.
Qed.

Lemma shift_row_six (dx : F) (r : Row F) : six r -> six (shift_row dx r).
Proof.
  unfold six, shift_row, map_column; cbn [cells].
  now rewrite !set_nth_length.
Qed.

Lemma with_key_zyx (r : Row F) :
  six r -> key_of [2; 0; 1] r = Ok (with_key [2; 0; 1] r).
Proof.
  intros H6. unfold key_of, with_key; simpl.
  rewrite !cell_val by (rewrite H6; lia). reflexivity.
Qed.

(** Line 90 on the table of lines 79-87. *)
Lemma sort_values_shifted (dx : F) (dat : DataFrame F) :
  Forall six (rows dat) ->
  sort_values (shifted_frame dx dat) sort_keys = Ok (sorted_frame dx dat).
Proof.
  intros H6. unfold sort_values, shifted_frame, sorted_frame; simpl.
  rewrite (mapM_map _ (with_key [2; 0; 1])); [reflexivity|].
  intros r Hr. apply with_key_zyx.
  apply in_map_iff in Hr as (r0 & <- & Hr0). apply shift_row_six.
  rewrite Forall_forall in H6. now apply H6.
Qed.

(** Lines 79-90 on the table of [read_csv]. *)
Lemma coordinate_transformer_spec (data : list (Rec6 F)) :
  coordinate_transformer (frame_of names data)
  = (dx <- np_max (np_diff (map (val 1) (index_from 0 data))) ;;
     Ok (dx, sorted_frame dx (frame_of names data)))%py.
Proof.
  unfold coordinate_transformer.
  rewrite (shift_coordinates_spec (frame_of names data) eq_refl
             (frame_of_rectangular data)).
  simpl. destruct (np_max _) as [dx|e]; simpl; [|reflexivity].
  rewrite (sort_values_shifted dx (frame_of names data)); [reflexivity|].
  apply index_from_cells.
Qed.

Lemma np_diff_length (a : list F) :
  List.length (np_diff a) = List.length a - 1.
Proof.
  induction a as [|x [|y a] IH]; simpl in *; try reflexivity.
  rewrite IH. lia.
Qed.

Lemma np_max_returns (a : list F) :
  0 < List.length a -> exists m, np_max a = Ok m.
Proof.
  destruct a as [|x a]; simpl; [lia | eauto].
Qed.

(** With two rows or more the spacing is defined. *)
Lemma spacing_returns (data : list (Rec6 F)) :
  2 <= List.length data ->
  exists dx, np_max (np_diff (map (val 1) (index_from 0 data))) = Ok dx.
Proof.
  intros Hn. apply np_max_returns.
  rewrite np_diff_length, length_map, index_from_length. lia.
Qed.

Lemma sorted_rows_perm (dx : F) (dat : DataFrame F) :
  Permutation (rows (sorted_frame dx dat)) (map (shift_row dx) (rows dat)).
Proof.
  unfold sorted_frame; simpl.
  rewrite (Permutation_map snd (sort_keyed_perm _)).
  rewrite map_map; simpl. now rewrite map_id.
Qed.

Lemma find_label (l : list (Row F)) (r : Row F) :
  NoDup (map label l) -> In r l ->
  find (fun r' => Nat.eqb (label r') (label r)) l = Some r.
Proof.
  intros Hnd Hr.
  destruct (find _ l) as [r'|] eqn:E.
  - apply find_some in E as [Hin Hlab]. apply Nat.eqb_eq in Hlab.
    f_equal. now apply (NoDup_map_inj label l).
  - apply (find_none _ _ E) in Hr. now rewrite Nat.eqb_refl in Hr.
Qed.

(** The row labelled [i], before and after the transformer. *)
Lemma row_at_sorted (data : list (Rec6 F)) (dx : F) (i : nat) :
  i < List.length data ->
  exists r0, In r0 (index_from 0 data) /\ six r0 /\ label r0 = i
    /\ row_at (frame_of names data) i = Some r0
    /\ row_at (sorted_frame dx (frame_of names data)) i = Some (shift_row dx r0).
Proof.
  intros Hi.
  assert (Hlab := index_from_labels 0 data).
  assert (Hnd : NoDup (map label (index_from 0 data)))
    by (rewrite Hlab; apply seq_NoDup).
  destruct (nth_error (index_from 0 data) i) as [r0|] eqn:E;
    [|apply nth_error_None in E; rewrite index_from_length in E; lia].
  assert (Hin : In r0 (index_from 0 data)) by now apply nth_error_In in E.
  assert (Hl : label r0 = i).
  { apply (map_nth_error label) in E. rewrite Hlab in E.
    rewrite nth_error_seq in E.
    destruct (Nat.ltb_spec i (List.length data)); [|discriminate].
    now injection E as <-. }
  exists r0. repeat split; auto.
  - pose proof (index_from_cells 0 data) as H6.
    rewrite Forall_forall in H6. now apply H6.
  - unfold row_at; simpl. rewrite <- Hl. now apply find_label.
  - unfold row_at. rewrite <- Hl.
    change (label r0) with (label (shift_row dx r0)).
    apply find_label.
    + rewrite (Permutation_map label (sorted_rows_perm dx _)); simpl.
      rewrite map_map; simpl. exact Hnd.
    + apply (Permutation_in _ (Permutation_sym (sorted_rows_perm dx _))).
      simpl. now apply in_map.
Qed.

End TransformerFacts.

(** ** Column swap and shift (C1) *)

Section SwapAndShift.

Context {F : Type} `{Float64 F}.

Lemma nth_error_val (p : nat) (r : Row F) :
  p < List.length (cells r) -> nth_error (cells r) p = Some (val p r).
Proof.
  intros Hp. unfold val. now apply nth_error_nth'.
Qed.

Lemma val_shift_row (dx : F) (r : Row F) :
  six r ->
  val 0 (shift_row dx r) = shifted dx (val 0 r)
  /\ val 1 (shift_row dx r) = shifted dx (val 1 r)
  /\ val 2 (shift_row dx r) = shifted dx (val 2 r)
  /\ val 3 (shift_row dx r) = val 3 r
  /\ val 4 (shift_row dx r) = val 4 r
  /\ val 5 (shift_row dx r) = val 5 r.
Proof.
  destruct r as [i cs]. unfold six; simpl. intros H6.
  do 7 (destruct cs as [|? cs]; try discriminate).
  repeat split; reflexivity.
Qed.

(** [np.max] returns one of the elements of its argument. *)
Lemma fold_np_maximum_In (t : list F) (x : F) :
  In (fold_left np_maximum t x) (x :: t).
Proof.
  revert x; induction t as [|y t IH]; intros x; simpl; [now left|].
  destruct (IH (np_maximum x y)) as [E|Hin]; [|now right; right].
  rewrite <- E. unfold np_maximum.
  destruct (fleb y x || isnan x); [now left | now right; left].
Qed.

Lemma np_max_In (a : list F) (m : F) : np_max a = Ok m -> In m a.
Proof.
  destruct a as [|x t]; simpl; [discriminate|].
  intros [= <-]. apply fold_np_maximum_In.
Qed.

(** The elements of [np.diff] are the adjacent differences. *)
Lemma np_diff_In (a : list F) (d : F) :
  In d (np_diff a) ->
  exists k, S k < List.length a
    /\ d = fsub (nth (S k) a fzero) (nth k a fzero).
Proof.
  induction a as [|x [|y a] IH]; simpl; try contradiction.
  intros [<-|Hin].
  - exists 0. split; [lia | reflexivity].
  - destruct (IH Hin) as (k & Hk & ->). exists (S k).
    split; [simpl in Hk; lia | reflexivity].
Qed.

(** Every adjacent difference is an element of [np.diff]. *)
Lemma np_diff_nth (a : list F) (k : nat) :
  S k < List.length a ->
  In (fsub (nth (S k) a fzero) (nth k a fzero)) (np_diff a).
Proof.
  revert k; induction a as [|x [|y a] IH]; intros k Hk; simpl in Hk; try lia.
  destruct k as [|k].
  - now left.
  - right. apply (IH k). simpl. lia.
Qed.

Lemma ordered_spec (l : list F) :
  ordered l = true ->
  (forall a, In a l -> isnan a = false)
  /\ (forall a b, In a l -> In b l -> fleb a b = true \/ fleb b a = true)
  /\ (forall a b c, In a l -> In b l -> In c l ->
        fleb a b = true -> fleb b c = true -> fleb a c = true).
Proof.
  unfold ordered. intros Ho.
  apply andb_true_iff in Ho as [Ho Htr]. apply andb_true_iff in Ho as [Hnan Htot].
  rewrite forallb_forall in Hnan, Htot, Htr.
  split; [|split].
  - intros a Ha. now apply negb_true_iff, Hnan.
  - intros a b Ha Hb. specialize (Htot a Ha). rewrite forallb_forall in Htot.
    now apply orb_true_iff, Htot.
  - intros a b c Ha Hb Hc Hab Hbc.
    specialize (Htr a Ha). rewrite forallb_forall in Htr.
    specialize (Htr b Hb). rewrite forallb_forall in Htr.
    specialize (Htr c Hc). now rewrite Hab, Hbc in Htr.
Qed.

(** On values that [<=] orders, the fold of [np.maximum] is an upper
    bound of what it ran through. *)
Lemma fold_np_maximum_upper (l t : list F) (x : F) :
  ordered l = true -> (forall a, In a (x :: t) -> In a l) ->
  forall d, In d (x :: t) -> fleb d (fold_left np_maximum t x) = true.
Proof.
  intros Ho. destruct (ordered_spec l Ho) as (Hnan & Htot & Htr).
  revert x; induction t as [|y t IH]; intros x Hin d Hd.
  - destruct Hd as [<-|[]]. simpl.
    now destruct (Htot x x (Hin x (or_introl eq_refl)) (Hin x (or_introl eq_refl))).
  - cbn [fold_left].
    assert (Hx : In x l) by (apply Hin; now left).
    assert (Hy : In y l) by (apply Hin; right; now left).
    assert (Hm : In (np_maximum x y) l
                 /\ fleb x (np_maximum x y) = true
                 /\ fleb y (np_maximum x y) = true).
    { unfold np_maximum. rewrite (Hnan x Hx), orb_false_r.
      destruct (fleb y x) eqn:Eyx.
      - repeat split; auto. now destruct (Htot x x Hx Hx).
      - repeat split; auto.
        + destruct (Htot x y Hx Hy) as [E|E]; [exact E | congruence].
        + now destruct (Htot y y Hy Hy). }
    destruct Hm as (Hm & Hxm & Hym).
    assert (Hin' : forall a, In a (np_maximum x y :: t) -> In a l).
    { intros a [<-|Ha]; [exact Hm | apply Hin; right; now right]. }
    assert (Hf : In (fold_left np_maximum t (np_maximum x y)) l).
    { apply Hin'. apply fold_np_maximum_In. }
    pose proof (IH (np_maximum x y) Hin' (np_maximum x y) (or_introl eq_refl))
      as Htop.
    destruct Hd as [<-|[<-|Hd]].
    + exact (Htr _ _ _ Hx Hm Hf Hxm Htop).
    + exact (Htr _ _ _ Hy Hm Hf Hym Htop).
    + apply (IH (np_maximum x y) Hin'). now right.
Qed.

(** [np.max] of values that [<=] orders is their maximum. *)
Lemma np_max_upper (a : list F) (m : F) :
  ordered a = true -> np_max a = Ok m ->
  In m a /\ forall d, In d a -> fleb d m = true.
Proof.
  intros Ho Hm. split; [now apply np_max_In|].
  destruct a as [|x t]; simpl in Hm; [discriminate|].
  apply Ok_inj in Hm. subst m.
  now apply (fold_np_maximum_upper (x :: t)).
Qed.

(** C1.  On a table of two rows or more the coordinate transformer
    returns.  The spacing [dx] it uses is the largest adjacent difference
    of the x column after the rename: it is [np.max(np.diff(x))], one of the
    adjacent differences of that column, and, when [<=] orders these
    differences (none is a NaN), no adjacent difference exceeds it.  For
    the row of every label [i] the output x is the input y plus [0.5 * dx],
    the output y is the input x plus [0.5 * dx], and the output z is the
    input z plus [0.5 * dx]. *)
Theorem transformer_swaps_and_shifts (data : list (Rec6 F)) :
  2 <= List.length data ->
  exists dx out xs,
    coordinate_transformer (frame_of names data) = Ok (dx, out)
    /\ getitem (rename [("x", "y"); ("y", "x")] (frame_of names data)) "x" = Ok xs
    /\ np_max (np_diff xs) = Ok dx
    /\ (exists k, S k < List.length xs
                   /\ dx = fsub (nth (S k) xs fzero) (nth k xs fzero))
    /\ (ordered (np_diff xs) = true ->
        forall k, S k < List.length xs ->
          fleb (fsub (nth (S k) xs fzero) (nth k xs fzero)) dx = true)
    /\ forall i, i < List.length data ->
         exists x y z,
           loc (frame_of names data) i "x" = Some x
           /\ loc (frame_of names data) i "y" = Some y
           /\ loc (frame_of names data) i "z" = Some z
           /\ loc out i "x" = Some (fadd y (fmul fhalf dx))
           /\ loc out i "y" = Some (fadd x (fmul fhalf dx))
           /\ loc out i "z" = Some (fadd z (fmul fhalf dx)).
Proof.
  intros Hn. destruct (spacing_returns data Hn) as [dx Hdx].
  exists dx, (sorted_frame dx (frame_of names data)),
    (map (val 1) (index_from 0 data)).
  split; [|split; [|split; [|split; [|split]]]].
  - rewrite coordinate_transformer_spec, Hdx. reflexivity.
  - apply (getitem_rect {| columns := renamed; rows := index_from 0 data |} "x" 1);
      [exact (index_from_cells 0 data) | reflexivity].
  - exact Hdx.
  - apply np_diff_In. now apply np_max_In.
  - intros Ho k Hk.
    destruct (np_max_upper _ _ Ho Hdx) as [_ Hup].
    apply Hup. now apply np_diff_nth.
  - intros i Hi.
    destruct (row_at_sorted data dx i Hi) as (r0 & _ & H6 & _ & Hin & Hout).
    destruct (val_shift_row dx r0 H6) as (V0 & V1 & V2 & _).
    pose proof (shift_row_six dx r0 H6) as H6'. unfold six in H6, H6'.
    exists (val 0 r0), (val 1 r0), (val 2 r0).
    unfold loc. rewrite Hin, Hout.
    change (col_pos "x" (columns (frame_of names data))) with (@Ok nat 0).
    change (col_pos "y" (columns (frame_of names data))) with (@Ok nat 1).
    change (col_pos "z" (columns (frame_of names data))) with (@Ok nat 2).
    change (col_pos "x" (columns (sorted_frame dx (frame_of names data))))
      with (@Ok nat 1).
    change (col_pos "y" (columns (sorted_frame dx (frame_of names data))))
      with (@Ok nat 0).
    change (col_pos "z" (columns (sorted_frame dx (frame_of names data))))
      with (@Ok nat 2).
    cbv iota beta. rewrite !nth_error_val by lia.
    rewrite V0, V1, V2. repeat split; reflexivity.
Qed.

End SwapAndShift.

Lemma transformer_swaps_and_shifts_witness :
  2 <= List.length Example.data
  /\ exists dx out xs,
      coordinate_transformer (frame_of names Example.data) = Ok (dx, out)
      /\ getitem (rename [("x", "y"); ("y", "x")] (frame_of names Example.data)) "x"
         = Ok xs
      /\ np_max (np_diff xs) = Ok dx
      /\ (exists k, S k < List.length xs
                     /\ dx = fsub (nth (S k) xs fzero) (nth k xs fzero))
      /\ ordered (np_diff xs) = true
      /\ (forall k, S k < List.length xs ->
            fleb (fsub (nth (S k) xs fzero) (nth k xs fzero)) dx = true)
      /\ forall i, i < List.length Example.data ->
           exists x y z,
             loc (frame_of names Example.data) i "x" = Some x
             /\ loc (frame_of names Example.data) i "y" = Some y
             /\ loc (frame_of names Example.data) i "z" = Some z
             /\ loc out i "x" = Some (fadd y (fmul fhalf dx))
             /\ loc out i "y" = Some (fadd x (fmul fhalf dx))
             /\ loc out i "z" = Some (fadd z (fmul fhalf dx)).
Proof.
  assert (Hn : 2 <= List.length Example.data) by (simpl; lia).
  split; [exact Hn|].
  destruct (transformer_swaps_and_shifts Example.data Hn)
    as (dx & out & xs & Hrun & Hxs & Hdx & Hdiff & Hmax & Hrows).
  exists dx, out, xs.
  assert (Ho : ordered (np_diff xs) = true).
  { vm_compute in Hxs. injection Hxs as <-. vm_compute. reflexivity. }
  repeat (split; [assumption|]).
  split; [exact (Hmax Ho) | exact Hrows].
Defined.

(** The table of the example file is the one the examples start from. *)
Example example_table :
  Binary64.pd_read_table Example.file (get_skiprows_num Example.file)
  = Ok Example.data
  /\ get_skiprows_num Example.file = 3.
Proof. vm_compute. split; reflexivity. Qed.

(** The reader on other files: a short line is filled up with NaN and an
    integer field is read as its double; a line longer than the first is an
    error of the parser; a first line of seven fields, a field that is no
    number and a field of more than 15 digits are not covered. *)
Example read_table_examples :
  Binary64.pd_read_table ["skipped"; "1 2 3 4 5 6"; "  "; "1.5 -inf 3e-2"] 1
  = Ok [(1, 2, 3, 4, 5, 6); (1.5, neg_infinity, 0.03, nan, nan, nan)]%float
  /\ Binary64.pd_read_table ["1 2 3"; "1 2 3 4"] 0 = Raise ParserError
  /\ Binary64.pd_read_table ["0 1 2 3 4 5 6"] 0 = Raise Unsupported
  /\ Binary64.pd_read_table ["1 2 3 4 5 x"] 0 = Raise Unsupported
  /\ Binary64.pd_read_table ["1 2 3 4 5 0.1234567890123456"] 0 = Raise Unsupported
  /\ Binary64.pd_read_table [] 0 = Ok [].
Proof. vm_compute. repeat split. Qed.

(** The run on the example: the spacing is 0.5 and the row labelled 2, read
    as x = 0, y = 0.5, leaves as x = 0.75, y = 0.25. *)
Example transformer_example :
  exists out,
    coordinate_transformer (frame_of names Example.data) = Ok (0.5%float, out)
    /\ map label (rows out) = [0; 2; 1; 3; 4; 6; 5; 7]
    /\ loc (frame_of names Example.data) 2 "x" = Some 0%float
    /\ loc (frame_of names Example.data) 2 "y" = Some 0.5%float
    /\ loc out 2 "x" = Some 0.75%float
    /\ loc out 2 "y" = Some 0.25%float.
Proof.
  eexists. split; [vm_compute; reflexivity|]. vm_compute. repeat split.
Qed.

(** ** Frame, order and stability of the transformer (C9, C2, C6) *)

Lemma Sorted_adjacent {A : Type} (R : A -> A -> Prop) (l : list A) (k : nat) (a b : A) :
  Sorted R l -> nth_error l k = Some a -> nth_error l (S k) = Some b -> R a b.
Proof.
  intros Hs; revert k; induction Hs as [|x l Hs IH Hhd]; intros k Ha Hb.
  - now destruct k.
  - destruct k as [|k]; simpl in Ha, Hb.
    + injection Ha as ->. destruct l as [|y l]; [discriminate|].
      simpl in Hb. injection Hb as ->. now inversion Hhd.
    + now apply (IH k).
Qed.

Lemma before_In {A : Type} (a b : A) (l : list A) :
  before a b l -> In a l /\ In b l.
Proof.
  intros (l1 & l2 & l3 & ->). split.
  - apply in_or_app; right; now left.
  - apply in_or_app; right; right. apply in_or_app; right; now left.
Qed.

Section TransformerOrder.

Context {F : Type} `{Float64 F}.

Lemma zyx_renamed (rs : list (Row F)) (r : Row F) :
  six r ->
  zyx {| columns := renamed; rows := rs |} r = Ok (map (fun p => val p r) [2; 0; 1]).
Proof.
  intros H6. unfold zyx; simpl. unfold six in H6.
  rewrite !cell_val by lia. reflexivity.
Qed.

Lemma shifted_rows_six (dx : F) (data : list (Rec6 F)) (r : Row F) :
  In r (map (shift_row dx) (index_from 0 data)) -> six r.
Proof.
  intros Hr. apply in_map_iff in Hr as (r0 & <- & Hr0).
  apply shift_row_six.
  pose proof (index_from_cells 0 data) as H6.
  rewrite Forall_forall in H6. now apply H6.
Qed.

Lemma sorted_keyed_shape (ps : list nat) (l : list (Row F)) (a : Keyed F) :
  In a (sort_keyed (map (with_key ps) l)) ->
  In (snd a) l /\ fst a = map (fun p => val p (snd a)) ps.
Proof.
  intros Ha. apply (Permutation_in _ (sort_keyed_perm _)) in Ha.
  apply in_map_iff in Ha as (r & <- & Hr). now split.
Qed.

(** C9.  The coordinate transformer keeps the number of rows, the set of
    column labels and the set of row labels, and every row keeps its u, v
    and w values: only the x, y, z values and the order of the rows
    change. *)
Theorem transformer_frame (data : list (Rec6 F)) :
  2 <= List.length data ->
  exists dx out,
    coordinate_transformer (frame_of names data) = Ok (dx, out)
    /\ List.length (rows out) = List.length (rows (frame_of names data))
    /\ Permutation (columns out) (columns (frame_of names data))
    /\ Permutation (map label (rows out)) (map label (rows (frame_of names data)))
    /\ forall i c, i < List.length data -> In c ["u"; "v"; "w"] ->
         exists v, loc (frame_of names data) i c = Some v
                   /\ loc out i c = Some v.
Proof.
  intros Hn. destruct (spacing_returns data Hn) as [dx Hdx].
  exists dx, (sorted_frame dx (frame_of names data)).
  pose proof (sorted_rows_perm dx (frame_of names data)) as Hperm.
  split; [|split; [|split; [|split]]].
  - rewrite coordinate_transformer_spec, Hdx. reflexivity.
  - rewrite (Permutation_length Hperm). apply length_map.
  - simpl. apply perm_swap.
  - rewrite (Permutation_map label Hperm), map_map. reflexivity.
  - intros i c Hi Hc.
    destruct (row_at_sorted data dx i Hi) as (r0 & _ & H6 & _ & Hin & Hout).
    destruct (val_shift_row dx r0 H6) as (_ & _ & _ & V3 & V4 & V5).
    pose proof (shift_row_six dx r0 H6) as H6'. unfold six in H6, H6'.
    unfold loc. rewrite Hin, Hout.
    destruct Hc as [<-|[<-|[<-|[]]]].
    + exists (val 3 r0).
      change (col_pos "u" (columns (frame_of names data))) with (@Ok nat 3).
      change (col_pos "u" (columns (sorted_frame dx (frame_of names data))))
        with (@Ok nat 3).
      cbv iota beta. rewrite !nth_error_val by lia. now rewrite V3.
    + exists (val 4 r0).
      change (col_pos "v" (columns (frame_of names data))) with (@Ok nat 4).
      change (col_pos "v" (columns (sorted_frame dx (frame_of names data))))
        with (@Ok nat 4).
      cbv iota beta. rewrite !nth_error_val by lia. now rewrite V4.
    + exists (val 5 r0).
      change (col_pos "w" (columns (frame_of names data))) with (@Ok nat 5).
      change (col_pos "w" (columns (sorted_frame dx (frame_of names data))))
        with (@Ok nat 5).
      cbv iota beta. rewrite !nth_error_val by lia. now rewrite V5.
Qed.

(** The table after line 90 is in order when its keys are comparable. *)
Lemma sorted_frame_consecutive (data : list (Rec6 F)) (dx : F) :
  comparable_rows (sorted_frame dx (frame_of names data)) = true ->
  forall k r1 r2,
    nth_error (rows (sorted_frame dx (frame_of names data))) k = Some r1 ->
    nth_error (rows (sorted_frame dx (frame_of names data))) (S k) = Some r2 ->
    exists k1 k2,
      zyx (sorted_frame dx (frame_of names data)) r1 = Ok k1
      /\ zyx (sorted_frame dx (frame_of names data)) r2 = Ok k2
      /\ lex_leb k1 k2 = true.
Proof.
  intros Hcmp k r1 r2 H1 H2.
  set (keyed := map (with_key [2; 0; 1])
                  (map (shift_row dx) (rows (frame_of names data)))) in *.
  assert (Hrows : rows (sorted_frame dx (frame_of names data))
                  = map snd (sort_keyed keyed)) by reflexivity.
  assert (Hsix : forall a, In a (sort_keyed keyed) ->
                   six (snd a) /\ In (snd a) (map snd (sort_keyed keyed))
                   /\ fst a = map (fun p => val p (snd a)) [2; 0; 1]).
  { intros a Ha. destruct (sorted_keyed_shape _ _ _ Ha) as [Hin Hfst].
    repeat split; auto.
    - now apply (shifted_rows_six dx data).
    - now apply in_map. }
  assert (Htot : total_on (sort_keyed keyed)).
  { intros a b Ha Hb.
    destruct (Hsix a Ha) as (Ha6 & Hain & Hafst).
    destruct (Hsix b Hb) as (Hb6 & Hbin & Hbfst).
    unfold comparable_rows in Hcmp. rewrite Hrows in Hcmp.
    rewrite forallb_forall in Hcmp. specialize (Hcmp _ Hain).
    rewrite forallb_forall in Hcmp. specialize (Hcmp _ Hbin).
    unfold sorted_frame in Hcmp.
    rewrite (zyx_renamed _ _ Ha6), (zyx_renamed _ _ Hb6) in Hcmp.
    now rewrite Hafst, Hbfst. }
  assert (Hsorted : Sorted key_le (sort_keyed keyed)).
  { apply sort_keyed_sorted. intros a b Ha Hb. apply Htot.
    - now apply (Permutation_in _ (Permutation_sym (sort_keyed_perm keyed))).
    - now apply (Permutation_in _ (Permutation_sym (sort_keyed_perm keyed))). }
  rewrite Hrows in H1, H2.
  rewrite nth_error_map in H1, H2.
  match type of H1 with option_map snd ?x = _ =>
    destruct x as [a|] eqn:Ea; simpl in H1; [|discriminate] end.
  match type of H2 with option_map snd ?x = _ =>
    destruct x as [b|] eqn:Eb; simpl in H2; [|discriminate] end.
  injection H1 as <-. injection H2 as <-.
  destruct (Hsix a (nth_error_In _ _ Ea)) as (Ha6 & _ & Hafst).
  destruct (Hsix b (nth_error_In _ _ Eb)) as (Hb6 & _ & Hbfst).
  exists (fst a), (fst b). unfold sorted_frame.
  rewrite (zyx_renamed _ _ Ha6), (zyx_renamed _ _ Hb6), <- Hafst, <- Hbfst.
  repeat split. exact (Sorted_adjacent _ _ _ _ _ Hsorted Ea Eb).
Qed.

(** C2.  After the transformer, when the key tuples of the table are
    comparable (no NaN among the coordinates), every two consecutive rows
    are in lexicographic order of their (z, y, x) tuples, z first. *)
Theorem transformer_sorts (data : list (Rec6 F)) :
  2 <= List.length data ->
  exists dx out,
    coordinate_transformer (frame_of names data) = Ok (dx, out)
    /\ (comparable_rows out = true ->
        forall k r1 r2,
          nth_error (rows out) k = Some r1 ->
          nth_error (rows out) (S k) = Some r2 ->
          exists k1 k2, zyx out r1 = Ok k1 /\ zyx out r2 = Ok k2
                        /\ lex_leb k1 k2 = true).
Proof.
  intros Hn. destruct (spacing_returns data Hn) as [dx Hdx].
  exists dx, (sorted_frame dx (frame_of names data)).
  split; [rewrite coordinate_transformer_spec, Hdx; reflexivity|].
  apply sorted_frame_consecutive.
Qed.

(** C6.  The sort of line 90 is stable: two rows with equal (z, y, x) key
    tuples come out in the order they had in the table that was sorted. *)
Theorem sort_is_stable (data : list (Rec6 F)) :
  2 <= List.length data ->
  exists dx pre out,
    shift_coordinates (frame_of names data) = Ok (dx, pre)
    /\ sort_values pre sort_keys = Ok out
    /\ coordinate_transformer (frame_of names data) = Ok (dx, out)
    /\ forall r1 r2 k1 k2,
         before r1 r2 (rows pre) ->
         zyx pre r1 = Ok k1 -> zyx pre r2 = Ok k2 -> key_eqb k1 k2 = true ->
         before r1 r2 (rows out).
Proof.
  intros Hn. destruct (spacing_returns data Hn) as [dx Hdx].
  exists dx, (shifted_frame dx (frame_of names data)),
    (sorted_frame dx (frame_of names data)).
  split; [|split; [|split]].
  - rewrite (shift_coordinates_spec (frame_of names data) eq_refl
               (frame_of_rectangular data)).
    simpl. simpl in Hdx. now rewrite Hdx.
  - apply sort_values_shifted. apply index_from_cells.
  - rewrite coordinate_transformer_spec, Hdx. reflexivity.
  - intros r1 r2 k1 k2 Hbef Hk1 Hk2 Heq.
    destruct (before_In _ _ _ Hbef) as [Hin1 Hin2].
    unfold shifted_frame in Hk1, Hk2.
    rewrite (zyx_renamed _ _ (shifted_rows_six dx data r1 Hin1)) in Hk1.
    rewrite (zyx_renamed _ _ (shifted_rows_six dx data r2 Hin2)) in Hk2.
    injection Hk1 as <-. injection Hk2 as <-.
    apply (before_map (with_key [2; 0; 1])) in Hbef.
    apply sort_keyed_stable in Hbef; [|exact Heq].
    apply (before_map snd) in Hbef. exact Hbef.
Qed.

End TransformerOrder.

Lemma transformer_frame_witness :
  2 <= List.length Example.data
  /\ exists dx out,
      coordinate_transformer (frame_of names Example.data) = Ok (dx, out)
      /\ List.length (rows out) = List.length (rows (frame_of names Example.data))
      /\ Permutation (columns out) (columns (frame_of names Example.data))
      /\ Permutation (map label (rows out))
           (map label (rows (frame_of names Example.data)))
      /\ forall i c, i < List.length Example.data -> In c ["u"; "v"; "w"] ->
           exists v, loc (frame_of names Example.data) i c = Some v
                     /\ loc out i c = Some v.
Proof.
  assert (Hn : 2 <= List.length Example.data) by (simpl; lia).
  split; [exact Hn|].
  exact (transformer_frame Example.data Hn).
Defined.

Lemma transformer_sorts_witness :
  2 <= List.length Example.data
  /\ exists dx out,
      coordinate_transformer (frame_of names Example.data) = Ok (dx, out)
      /\ comparable_rows out = true
      /\ forall k r1 r2,
           nth_error (rows out) k = Some r1 ->
           nth_error (rows out) (S k) = Some r2 ->
           exists k1 k2, zyx out r1 = Ok k1 /\ zyx out r2 = Ok k2
                         /\ lex_leb k1 k2 = true.
Proof.
  assert (Hn : 2 <= List.length Example.data) by (simpl; lia).
  split; [exact Hn|].
  destruct (transformer_sorts Example.data Hn) as (dx & out & Hrun & Hsorted).
  exists dx, out. split; [exact Hrun|].
  assert (Hc : comparable_rows out = true).
  { vm_compute in Hrun. injection Hrun as <- <-. vm_compute. reflexivity. }
  split; [exact Hc | exact (Hsorted Hc)].
Defined.

Lemma sort_is_stable_witness :
  2 <= List.length Example.repeated
  /\ exists dx pre out,
      shift_coordinates (frame_of names Example.repeated) = Ok (dx, pre)
      /\ sort_values pre sort_keys = Ok out
      /\ coordinate_transformer (frame_of names Example.repeated) = Ok (dx, out)
      /\ forall r1 r2 k1 k2,
           before r1 r2 (rows pre) ->
           zyx pre r1 = Ok k1 -> zyx pre r2 = Ok k2 -> key_eqb k1 k2 = true ->
           before r1 r2 (rows out).
Proof.
  assert (Hn : 2 <= List.length Example.repeated) by (simpl; lia).
  split; [exact Hn|].
  exact (sort_is_stable Example.repeated Hn).
Defined.

(** On the table with repeated grid points the rows labelled 1 and 3 share
    a key, and so do the rows labelled 0 and 2: each pair keeps its order. *)
Example stable_example :
  exists dx out,
    coordinate_transformer (frame_of names Example.repeated) = Ok (dx, out)
    /\ map label (rows out) = [1; 3; 0; 2]
    /\ map (zyx out) (rows out)
       = map (fun k => Ok k) [[0; 0; 0]; [0; 0; 0]; [0; 0.5; 0]; [0; 0.5; 0]]%float.
Proof.
  eexists _, _. split; [vm_compute; reflexivity|]. vm_compute. split; reflexivity.
Qed.

(** Rows with a NaN key go last, in the order they had: on the table
    whose rows 0 and 1 have a NaN z, the rows come out as 3, 2, 0, 1. *)
Example nan_keys_last_example :
  exists dx out,
    coordinate_transformer (frame_of names Example.with_nan) = Ok (dx, out)
    /\ map label (rows out) = [3; 2; 0; 1]
    /\ comparable_rows out = false.
Proof.
  eexists _, _. split; [vm_compute; reflexivity|]. vm_compute. split; reflexivity.
Qed.

(** ** Metadata extraction (C8) *)

Lemma append_nil_r (s : string) : String.append s EmptyString = s.
Proof. induction s as [|c s IH]; simpl; [reflexivity | now rewrite IH]. Qed.

Lemma append_assoc (a b c : string) :
  String.append (String.append a b) c = String.append a (String.append b c).
Proof. induction a as [|x a IH]; simpl; [reflexivity | now rewrite IH]. Qed.

Lemma all_chars_append (p : ascii -> bool) (a b : string) :
  all_chars p (String.append a b) = all_chars p a && all_chars p b.
Proof.
  induction a as [|c a IH]; simpl; [reflexivity|].
  now rewrite IH, andb_assoc.
Qed.

Lemma prefix_iff (p s : string) :
  String.prefix p s = true <-> exists b, s = String.append p b.
Proof.
  revert s; induction p as [|c p IH]; intros s.
  - split; [intros _; exists s; reflexivity | now destruct s].
  - destruct s as [|d s]; simpl.
    + split; [discriminate | intros [b Hb]; discriminate].
    + destruct (ascii_dec c d) as [->|Hcd].
      * rewrite IH. split; intros [b Hb]; exists b; congruence.
      * split; [discriminate | intros [b Hb]; congruence].
Qed.

Lemma str_in_unfold (pat s : string) :
  str_in pat s
  = if String.prefix pat s then true
    else match s with
         | EmptyString => false
         | String _ s' => str_in pat s'
         end.
Proof. now destruct s. Qed.

Lemma str_in_iff (pat s : string) :
  str_in pat s = true <-> substring_of pat s.
Proof.
  induction s as [|c s IH]; rewrite str_in_unfold;
    destruct (String.prefix pat _) eqn:E.
  - split; [|reflexivity]. intros _.
    apply prefix_iff in E as [b Hb]. now exists EmptyString, b.
  - split; [discriminate|]. intros (a & b & Hab).
    destruct a as [|x a]; [|discriminate]. simpl in Hab.
    assert (String.prefix pat EmptyString = true)
      by (apply prefix_iff; now exists b).
    congruence.
  - split; [|reflexivity]. intros _.
    apply prefix_iff in E as [b Hb]. now exists EmptyString, b.
  - rewrite IH. split.
    + intros (a & b & ->). now exists (String c a), b.
    + intros (a & b & Hab). destruct a as [|x a]; simpl in Hab.
      * assert (String.prefix pat (String c s) = true)
          by (apply prefix_iff; now exists b).
        congruence.
      * injection Hab as _ ->. now exists a, b.
Qed.

Lemma flush_nil (acc : string) (k : list string) :
  flush acc k = [] -> acc = EmptyString /\ k = [].
Proof. destruct acc; simpl; [auto | discriminate]. Qed.

Lemma split_from_nil (acc s : string) :
  split_from acc s = [] -> acc = EmptyString /\ all_chars isspace s = true.
Proof.
  revert acc; induction s as [|c s IH]; intros acc; simpl.
  - intros Hf. apply flush_nil in Hf as [-> _]. now split.
  - destruct (isspace c) eqn:Ec.
    + intros Hf. apply flush_nil in Hf as [-> Hs].
      apply IH in Hs as [_ Hs]. now split.
    + intros Hs. apply IH in Hs as [Hacc _]. now destruct acc.
Qed.

Lemma last_item_cons {A : Type} (a : A) (l : list A) (x : A) :
  l <> [] -> last_item (a :: l) = Ok x -> last_item l = Ok x.
Proof.
  unfold last_item; simpl. intros Hl.
  destruct (rev l) as [|y r] eqn:E; simpl.
  - apply (f_equal (@rev A)) in E. rewrite rev_involutive in E. contradiction.
  - auto.
Qed.

(** The last item of [split_from acc s] is the last token of [acc ++ s],
    when [acc] is the beginning of a token. *)
Lemma split_from_last (acc s tok : string) :
  all_chars (fun c => negb (isspace c)) acc = true ->
  last_item (split_from acc s) = Ok tok ->
  exists pre post,
    String.append acc s = String.append pre (String.append tok post)
    /\ tok <> EmptyString
    /\ all_chars (fun c => negb (isspace c)) tok = true
    /\ all_chars isspace post = true
    /\ token_start pre.
Proof.
  revert acc tok; induction s as [|c s IH]; intros acc tok Hacc; simpl.
  - destruct acc as [|a acc]; simpl; [discriminate|].
    intros [= <-]. exists EmptyString, EmptyString. simpl.
    rewrite append_nil_r. repeat split; auto; try discriminate. now left.
  - destruct (isspace c) eqn:Ec.
    + destruct (split_from EmptyString s) as [|t ts] eqn:Es.
      * apply split_from_nil in Es as [_ Hsp].
        destruct acc as [|a acc]; simpl; [discriminate|].
        intros [= <-]. exists EmptyString, (String c s). simpl.
        rewrite Ec, Hsp. repeat split; auto; try discriminate. now left.
      * intros Hl.
        assert (Hl' : last_item (t :: ts) = Ok tok).
        { destruct acc; simpl in Hl; [exact Hl|].
          apply last_item_cons in Hl; [exact Hl | discriminate]. }
        rewrite <- Es in Hl'.
        destruct (IH EmptyString tok eq_refl Hl')
          as (pre & post & Hs & Hne & Hns & Hsp & Hst).
        simpl in Hs. subst s.
        exists (String.append acc (String c pre)), post.
        rewrite append_assoc. simpl. repeat split; auto.
        right. destruct Hst as [->|(pre' & d & -> & Hd)].
        -- now exists acc, c.
        -- exists (String.append acc (String c pre')), d.
           rewrite append_assoc. simpl. now split.
    + intros Hl.
      assert (Hacc' : all_chars (fun c => negb (isspace c))
                        (String.append acc (String c EmptyString)) = true).
      { rewrite all_chars_append, Hacc. simpl. now rewrite Ec. }
      destruct (IH _ tok Hacc' Hl) as (pre & post & Hs & Hne & Hns & Hsp & Hst).
      rewrite append_assoc in Hs. simpl in Hs.
      exists pre, post. repeat split; auto.
Qed.

Lemma last_item_returns {A : Type} (l : list A) :
  l <> [] -> exists a, last_item l = Ok a.
Proof.
  intros Hl. unfold last_item. destruct (rev l) as [|a r] eqn:E; [|eauto].
  apply (f_equal (@rev A)) in E. rewrite rev_involutive in E. contradiction.
Qed.

Lemma split_last_token (line tok : string) :
  last_item (split line) = Ok tok -> last_token line tok.
Proof.
  intros Hl. exact (split_from_last EmptyString line tok eq_refl Hl).
Qed.

(** A line that contains the word has a last token. *)
Lemma viscosity_line_token (line : string) :
  substring_of "viscosity" line -> exists tok, last_item (split line) = Ok tok.
Proof.
  intros (a & b & ->). apply last_item_returns. intros Hs.
  apply split_from_nil in Hs as [_ Hsp].
  rewrite !all_chars_append in Hsp.
  apply andb_true_iff in Hsp as [_ Hsp].
  apply andb_true_iff in Hsp as [Hsp _]. discriminate.
Qed.

Section MetadataFacts.

Context {F : Type}.
Variable py_float : string -> result F.

(** C8.  [get_viscosity] either finds no line that contains "viscosity"
    and returns the integer 0, or returns what [float] makes of the last
    whitespace-separated token of the first line that contains it (an
    error of [float] is raised as it is). *)
Theorem get_viscosity_spec (f : list string) :
  (Forall (fun line => ~ substring_of "viscosity" line) f
   /\ get_viscosity py_float f = Ok (PyInt 0))
  \/ (exists front line back tok,
        f = front ++ line :: back
        /\ Forall (fun l => ~ substring_of "viscosity" l) front
        /\ substring_of "viscosity" line
        /\ last_token line tok
        /\ get_viscosity py_float f
           = (v <- py_float tok ;; Ok (PyFloat v))%py).
Proof.
  induction f as [|line f IH]; simpl.
  - left. split; [constructor | reflexivity].
  - destruct (str_in "viscosity" line) eqn:E.
    + right. apply str_in_iff in E.
      destruct (viscosity_line_token line E) as [tok Htok].
      exists [], line, f, tok. rewrite Htok. simpl.
      repeat split; auto. now apply split_last_token.
    + assert (Hno : ~ substring_of "viscosity" line).
      { intros Hs. apply str_in_iff in Hs. congruence. }
      destruct IH as [[Hall Hz]|(front & l & back & tok & -> & Hfr & Hl & Ht & Hg)].
      * left. split; [now constructor | exact Hz].
      * right. exists (line :: front), l, back, tok.
        repeat split; auto.
Qed.

End MetadataFacts.

(** The two cases of the metadata scenario, on binary64. *)
Example get_viscosity_example :
  get_viscosity Binary64.py_float
    ["# run 114"; "kinematic viscosity 0.005"; "viscosity 7"]
  = Ok (PyFloat 0.005%float)
  /\ get_viscosity Binary64.py_float ["# run 114"; "no such word"] = Ok (PyInt 0)
  /\ get_viscosity Binary64.py_float ["viscosity"] = Raise ValueError.
Proof. vm_compute. repeat split. Qed.

(** [float] on the texts of a viscosity: the words for the infinities and
    the NaN, digit groups, blanks around the text, a decimal literal out of
    the range of the doubles. *)
Example py_float_examples :
  Binary64.py_float "-Infinity" = Ok neg_infinity
  /\ Binary64.py_float "NaN" = Ok nan
  /\ Binary64.py_float " 1_000.5 " = Ok 1000.5%float
  /\ Binary64.py_float "1e999" = Ok infinity
  /\ Binary64.py_float "1e-999" = Ok 0%float
  /\ Binary64.py_float "1__0" = Raise ValueError
  /\ Binary64.py_float "1e" = Raise ValueError
  /\ get_viscosity Binary64.py_float ["viscosity inf"] = Ok (PyFloat infinity).
Proof. vm_compute. repeat split. Qed.

(** ** The command line and the viscosity (C10, C7) *)

Section ScriptFacts.

Context {F : Type} `{Float64 F}.
Variable parse_args : list string -> result Namespace.
Variable py_float : string -> result F.
Variable pd_read_table : list string -> nat -> result (list (Rec6 F)).
Variable format_e18 : F -> string.

(** C10.  Two command lines that argparse accepts, with the plot flag or
    without it, give the same result on the same input file: the same
    scalars and the same output file, or the same error. *)
Theorem plot_flag_has_no_effect (n : nat) (argv1 argv2 : list string)
    (file : option (list string)) :
  parse_args argv1 = Ok {| plot := true |} ->
  parse_args argv2 = Ok {| plot := false |} ->
  script parse_args py_float pd_read_table format_e18 n argv1 file
  = script parse_args py_float pd_read_table format_e18 n argv2 file
  /\ main parse_args py_float pd_read_table format_e18 argv1 file
     = main parse_args py_float pd_read_table format_e18 argv2 file.
Proof.
  intros H1 H2. unfold main, script. rewrite H1, H2. split; reflexivity.
Qed.

(** C7, as the script behaves.  When the command line and the table are
    read and the viscosity is zero (the integer 0 of a file without a
    viscosity line, or a float zero), [Re = 1. / mu] raises
    ZeroDivisionError: the run stops there, before any scalar is derived
    and before the output file is written. *)
Theorem zero_viscosity_raises (n : nat) (argv : list string) (f : list string)
    (args : Namespace) (data : list (Rec6 F)) (mu : pynum F) :
  parse_args argv = Ok args ->
  pd_read_table f (get_skiprows_num f) = Ok data ->
  get_viscosity py_float f = Ok mu ->
  is_zero mu = true ->
  script parse_args py_float pd_read_table format_e18 n argv (Some f)
  = Raise ZeroDivisionError.
Proof.
  intros Hargs Hdata Hmu Hz. unfold script, process, read_csv.
  rewrite Hargs; simpl. rewrite Hdata; simpl. rewrite Hmu; simpl.
  unfold py_truediv. destruct mu as [z|v]; simpl in Hz; now rewrite Hz.
Qed.

End ScriptFacts.

Lemma plot_flag_has_no_effect_witness :
  Binary64.parse_args ["--plot"] = Ok {| plot := true |}
  /\ Binary64.parse_args [] = Ok {| plot := false |}
  /\ Example.run 2 ["--plot"] (Some Example.file) = Example.run 2 [] (Some Example.file)
  /\ main Binary64.parse_args Binary64.py_float Binary64.pd_read_table
       Binary64.format_e18 ["--plot"] (Some Example.file)
     = main Binary64.parse_args Binary64.py_float Binary64.pd_read_table
         Binary64.format_e18 [] (Some Example.file).
Proof.
  assert (H1 : Binary64.parse_args ["--plot"] = Ok {| plot := true |})
    by reflexivity.
  assert (H2 : Binary64.parse_args [] = Ok {| plot := false |}) by reflexivity.
  split; [exact H1|]. split; [exact H2|].
  exact (plot_flag_has_no_effect Binary64.parse_args Binary64.py_float
           Binary64.pd_read_table Binary64.format_e18 2 ["--plot"] []
           (Some Example.file) H1 H2).
Defined.

(** The short flag, and what the two runs produce. *)
Example plot_flag_example :
  Example.run 2 ["-p"] (Some Example.file) = Example.run 2 [] (Some Example.file)
  /\ exists out, Example.run 2 [] (Some Example.file) = Ok out
       /\ s_urms (report out) = 1.050793351076541%float
       /\ List.length (out_file out) = 9.
Proof.
  split; [vm_compute; reflexivity|].
  eexists. split; [vm_compute; reflexivity|]. vm_compute. split; reflexivity.
Qed.

(** Other command lines: a long option cut short, short options in one
    argument, the help, a value the flag does not take, an argument that
    is no option, alone and in front of the help. *)
Example parse_args_examples :
  Binary64.parse_args ["--pl"] = Ok {| plot := true |}
  /\ Binary64.parse_args ["-pp"] = Ok {| plot := true |}
  /\ Binary64.parse_args ["-ph"] = Raise (SystemExit 0)
  /\ Binary64.parse_args ["--plot=1"] = Raise (SystemExit 2)
  /\ Binary64.parse_args ["out.dat"] = Raise (SystemExit 2)
  /\ Binary64.parse_args ["out.dat"; "--help"] = Raise (SystemExit 0)
  /\ Binary64.parse_args ["--"; "-p"] = Raise (SystemExit 2).
Proof. vm_compute. repeat split. Qed.

(** C7, as the claim states it: on the file without a viscosity line
    [get_viscosity] returns 0, and the run does not produce scalars: it
    raises ZeroDivisionError. *)
Lemma zero_viscosity_counterexample :
  get_viscosity Binary64.py_float Example.file_no_viscosity = Ok (PyInt 0)
  /\ main Binary64.parse_args Binary64.py_float Binary64.pd_read_table
       Binary64.format_e18 [] (Some Example.file_no_viscosity)
     = Raise ZeroDivisionError
  /\ ~ returns (main Binary64.parse_args Binary64.py_float Binary64.pd_read_table
                  Binary64.format_e18 [] (Some Example.file_no_viscosity)).
Proof.
  assert (Hrun : main Binary64.parse_args Binary64.py_float Binary64.pd_read_table
                   Binary64.format_e18 [] (Some Example.file_no_viscosity)
                 = Raise ZeroDivisionError) by (vm_compute; reflexivity).
  split; [vm_compute; reflexivity|]. split; [exact Hrun|].
  intros [out Hout]. rewrite Hrun in Hout. discriminate.
Qed.

Lemma zero_viscosity_raises_witness :
  Binary64.parse_args [] = Ok {| plot := false |}
  /\ get_viscosity Binary64.py_float Example.file_no_viscosity = Ok (PyInt 0)
  /\ is_zero (@PyInt float 0) = true
  /\ Example.run 128 [] (Some Example.file_no_viscosity) = Raise ZeroDivisionError.
Proof.
  assert (Ha : Binary64.parse_args [] = Ok {| plot := false |}) by reflexivity.
  assert (Hd : Binary64.pd_read_table Example.file_no_viscosity
                 (get_skiprows_num Example.file_no_viscosity) = Ok Example.data)
    by (vm_compute; reflexivity).
  assert (Hm : get_viscosity Binary64.py_float Example.file_no_viscosity
               = Ok (PyInt 0)) by (vm_compute; reflexivity).
  assert (Hz : is_zero (@PyInt float 0) = true) by reflexivity.
  split; [exact Ha|]. split; [exact Hm|]. split; [exact Hz|].
  exact (zero_viscosity_raises Binary64.parse_args Binary64.py_float
           Binary64.pd_read_table Binary64.format_e18 128 [] _ _ _ _ Ha Hd Hm Hz).
Defined.

(** ** The sums of [np.mean] *)

Lemma pairwise_split_shorter (n : nat) :
  128 < n -> 0 < n / 2 - (n / 2) mod 8 /\ n / 2 - (n / 2) mod 8 < n.
Proof.
  intros Hn.
  pose proof (Nat.div_mod_eq n 2) as Hd.
  pose proof (Nat.mod_upper_bound n 2) as Hm.
  pose proof (Nat.mod_upper_bound (n / 2) 8) as Hr.
  lia.
Qed.

Section Summation.

Context {F : Type} `{Float64 F}.

(** The pairwise summation does not depend on its fuel, once the fuel
    covers the length of the array: [np_sum] never runs out of it. *)
Lemma pairwise_sum_fuel (fuel fuel' : nat) (a : list F) :
  List.length a <= fuel -> List.length a <= fuel' ->
  pairwise_sum fuel a = pairwise_sum fuel' a.
Proof.
  revert fuel' a; induction fuel as [|fuel IH]; intros fuel' a H1 H2.
  - destruct a; [|simpl in H1; lia]. destruct fuel'; reflexivity.
  - destruct fuel' as [|fuel'].
    + destruct a; [reflexivity | simpl in H2; lia].
    + cbn [pairwise_sum].
      destruct (Nat.leb (List.length a) 128) eqn:E; [reflexivity|].
      apply Nat.leb_gt in E.
      destruct (pairwise_split_shorter _ E) as [Hpos Hlt].
      f_equal; apply IH; rewrite ?length_firstn, ?length_skipn; lia.
Qed.

(** Up to seven terms are added one after the other; eight terms are
    added in pairs. *)
Lemma np_sum_three (a0 a1 a2 : F) :
  np_sum [a0; a1; a2] = fadd fzero (fadd (fadd (fadd fzero a0) a1) a2).
Proof. reflexivity. Qed.

Lemma np_sum_eight (a0 a1 a2 a3 a4 a5 a6 a7 : F) :
  np_sum [a0; a1; a2; a3; a4; a5; a6; a7]
  = fadd fzero (fadd (fadd (fadd a0 a1) (fadd a2 a3))
                  (fadd (fadd a4 a5) (fadd a6 a7))).
Proof. reflexivity. Qed.

(** Nine terms and more: the ninth term is added to the pairs of the
    first eight. *)
Lemma np_sum_nine (a0 a1 a2 a3 a4 a5 a6 a7 a8 : F) :
  np_sum [a0; a1; a2; a3; a4; a5; a6; a7; a8]
  = fadd fzero (fadd (fadd (fadd (fadd a0 a1) (fadd a2 a3))
                        (fadd (fadd a4 a5) (fadd a6 a7))) a8).
Proof. reflexivity. Qed.

End Summation.

(** ** The normaliser (C3) *)

Section NormalizerFacts.

Context {F : Type} `{Float64 F}.

Lemma getitem_Ok_inv (dat : DataFrame F) (c : string) (x : list F) :
  getitem dat c = Ok x -> exists p, col_pos c (columns dat) = Ok p.
Proof.
  unfold getitem. intros Hg. apply bind_Ok in Hg as (p & Hp & _). eauto.
Qed.

Lemma col_pos_distinct (cols : list string) (c d : string) (p q : nat) :
  c <> d -> col_pos c cols = Ok p -> col_pos d cols = Ok q -> p <> q.
Proof.
  intros Hcd Hp Hq ->.
  apply col_pos_bound in Hp as [_ Hp]. apply col_pos_bound in Hq as [_ Hq].
  congruence.
Qed.

Lemma squares3_map {A : Type} (f g h : A -> F) (l : list A) :
  squares3 (map f l) (map g l) (map h l)
  = map (fun r => fadd (fadd (square (f r)) (square (g r))) (square (h r))) l.
Proof.
  induction l as [|a l IH]; simpl; [reflexivity | now rewrite IH].
Qed.

Lemma normalizer_spec (cols : list string) (rs : list (Row F)) (urms : F)
    (pu pv pw : nat) :
  rectangular {| columns := cols; rows := rs |} ->
  col_pos "u" cols = Ok pu -> col_pos "v" cols = Ok pv ->
  col_pos "w" cols = Ok pw ->
  normalizer {| columns := cols; rows := rs |} urms
  = Ok {| columns := cols; rows := map (scaled_row pu pv pw urms) rs |}.
Proof.
  intros R0 Hu Hv Hw. unfold normalizer, scale_down.
  rewrite (update_column cols rs "u" pu (scaled urms) _ R0 Hu).
  assert (R1 : rectangular {| columns := cols;
                              rows := map (map_column pu (scaled urms)) rs |})
    by now apply (rectangular_map_column cols).
  rewrite (update_column cols _ "v" pv (scaled urms) _ R1 Hv).
  assert (R2 : rectangular
                 {| columns := cols;
                    rows := map (map_column pv (scaled urms))
                              (map (map_column pu (scaled urms)) rs) |})
    by now apply (rectangular_map_column cols).
  rewrite (update_column cols _ "w" pw (scaled urms) _ R2 Hw).
  rewrite !map_map. reflexivity.
Qed.

Lemma scaled_row_vals (pu pv pw : nat) (urms : F) (r : Row F) :
  pu <> pv -> pu <> pw -> pv <> pw ->
  pu < List.length (cells r) -> pv < List.length (cells r) ->
  pw < List.length (cells r) ->
  val pu (scaled_row pu pv pw urms r) = scaled urms (val pu r)
  /\ val pv (scaled_row pu pv pw urms r) = scaled urms (val pv r)
  /\ val pw (scaled_row pu pv pw urms r) = scaled urms (val pw r).
Proof.
  intros Huv Huw Hvw Lu Lv Lw. unfold scaled_row. repeat split.
  - rewrite val_map_column_other by congruence.
    rewrite val_map_column_other by congruence.
    now apply val_map_column_same.
  - rewrite val_map_column_other by congruence.
    rewrite val_map_column_same by (simpl; now rewrite set_nth_length).
    now rewrite val_map_column_other.
  - rewrite val_map_column_same by (simpl; now rewrite !set_nth_length).
    rewrite val_map_column_other by congruence.
    now rewrite val_map_column_other.
Qed.

Lemma urms_of_spec (cols : list string) (rs : list (Row F)) (pu pv pw : nat) :
  rectangular {| columns := cols; rows := rs |} ->
  col_pos "u" cols = Ok pu -> col_pos "v" cols = Ok pv ->
  col_pos "w" cols = Ok pw ->
  urms_of {| columns := cols; rows := rs |}
  = Ok (fsqrt (fdiv (series_mean
                       (map (fun r => fadd (fadd (square (val pu r))
                                              (square (val pv r)))
                                        (square (val pw r))) rs))
                 fthree)).
Proof.
  intros R0 Hu Hv Hw. unfold urms_of.
  rewrite (getitem_rect _ "u" pu R0 Hu), (getitem_rect _ "v" pv R0 Hv),
    (getitem_rect _ "w" pw R0 Hw).
  simpl. now rewrite squares3_map.
Qed.

End NormalizerFacts.

(** *** In exact arithmetic *)

Section UnitRms.

Local Open Scope R_scope.

Lemma R_isnan (v : R) : isnan v = false.
Proof.
  unfold isnan; simpl. unfold Reqb.
  destruct (Req_dec_T v v); [reflexivity | contradiction].
Qed.

Lemma fold_plus_scaled {A : Type} (phi : A -> R) (k : R) (l : list A) (acc : R) :
  fold_left Rplus (map (fun r => phi r * k) l) (acc * k)
  = fold_left Rplus (map phi l) acc * k.
Proof.
  revert acc; induction l as [|a l IH]; intros acc; simpl; [reflexivity|].
  rewrite <- IH. f_equal. ring.
Qed.

Lemma fold_Rplus_acc (l : list R) (acc : R) :
  fold_left Rplus l acc = acc + fold_left Rplus l 0.
Proof.
  revert acc; induction l as [|a l IH]; intros acc; simpl; [lra|].
  rewrite (IH (acc + a)), (IH (0 + a)). lra.
Qed.

Lemma fold_Rplus_app (l1 l2 : list R) :
  fold_left Rplus (l1 ++ l2) 0 = fold_left Rplus l1 0 + fold_left Rplus l2 0.
Proof.
  rewrite fold_left_app. apply fold_Rplus_acc.
Qed.

(** In exact arithmetic the grouping of the additions does not matter:
    the unrolled loop, the block and the pairwise summation all return the
    sum of the elements. *)
Lemma R_unroll8 (n : nat) (l : list R) (r : Acc8 R) :
  (List.length l <= n)%nat ->
  fold_left Rplus (snd (unroll8 r l)) (add8 (fst (unroll8 r l)))
  = add8 r + fold_left Rplus l 0.
Proof.
  revert l r; induction n as [|n IH]; intros l r Hn.
  - destruct l; [|simpl in Hn; lia]. simpl. lra.
  - destruct l as [|a0 [|a1 [|a2 [|a3 [|a4 [|a5 [|a6 [|a7 l]]]]]]]];
      try (cbn [unroll8 fst snd]; apply fold_Rplus_acc).
    destruct r as [[[[[[[r0 r1] r2] r3] r4] r5] r6] r7].
    cbn [unroll8]. rewrite IH by (simpl in Hn; lia).
    cbn [fold_left]. rewrite (fold_Rplus_acc l (_ + a7)).
    unfold add8; simpl. lra.
Qed.

Lemma R_block_sum (l : list R) : block_sum l = fold_left Rplus l 0.
Proof.
  destruct l as [|a0 [|a1 [|a2 [|a3 [|a4 [|a5 [|a6 [|a7 l]]]]]]]];
    try reflexivity.
  unfold block_sum.
  destruct (unroll8 (a0, a1, a2, a3, a4, a5, a6, a7) l) as [r rest] eqn:E.
  pose proof (R_unroll8 (List.length l) l (a0, a1, a2, a3, a4, a5, a6, a7)
                (le_n _)) as Hu.
  rewrite E in Hu. cbn [fst snd] in Hu.
  transitivity (add8 (a0, a1, a2, a3, a4, a5, a6, a7) + fold_left Rplus l 0);
    [exact Hu|].
  cbn [fold_left]. rewrite (fold_Rplus_acc l (_ + a7)).
  unfold add8; simpl. lra.
Qed.

Lemma R_pairwise_sum (fuel : nat) (l : list R) :
  pairwise_sum fuel l = fold_left Rplus l 0.
Proof.
  revert l; induction fuel as [|fuel IH]; intros l; cbn [pairwise_sum];
    [apply R_block_sum|].
  destruct (Nat.leb (List.length l) 128); [apply R_block_sum|].
  rewrite !IH.
  change (fadd ?a ?b) with (a + b).
  rewrite <- fold_Rplus_app. now rewrite firstn_skipn.
Qed.

Lemma R_np_sum (l : list R) : np_sum l = fold_left Rplus l 0.
Proof.
  unfold np_sum. rewrite R_pairwise_sum.
  change (fadd ?a ?b) with (a + b). change (fzero : R) with 0. lra.
Qed.

Lemma R_np_mean (a : list R) :
  np_mean a = fold_left Rplus a 0 / INR (List.length a).
Proof.
  unfold np_mean. rewrite R_np_sum.
  unfold f_of_nat; simpl. now rewrite <- INR_IZR_INZ.
Qed.

Lemma R_series_mean (a : list R) : series_mean a = np_mean a.
Proof.
  unfold series_mean, np_mean.
  assert (Hm : map (fun v : R => if isnan v then fzero else v) a = a).
  { induction a as [|v a IH]; cbn [map]; [reflexivity|].
    now rewrite R_isnan, IH. }
  assert (Hf : filter (fun v : R => negb (isnan v)) a = a).
  { clear Hm. induction a as [|v a IH]; cbn [filter]; [reflexivity|].
    rewrite R_isnan. cbn [negb]. now rewrite IH. }
  now rewrite Hm, Hf.
Qed.

(** The mean of the scaled squares is the mean of the squares over
    [urms^2]. *)
Lemma mean_scaled {A : Type} (f g h : A -> R) (urms : R) (l : list A) :
  urms <> 0 ->
  np_mean (map (fun r => fadd (fadd (square (scaled urms (f r)))
                                 (square (scaled urms (g r))))
                           (square (scaled urms (h r)))) l)
  = np_mean (map (fun r => fadd (fadd (square (f r)) (square (g r)))
                             (square (h r))) l)
    / (urms * urms).
Proof.
  intros Hu. rewrite !R_np_mean, !length_map.
  set (phi := fun r => fadd (fadd (square (f r)) (square (g r))) (square (h r))).
  assert (Hsum : fold_left Rplus
                   (map (fun r => fadd (fadd (square (scaled urms (f r)))
                                          (square (scaled urms (g r))))
                                    (square (scaled urms (h r)))) l) 0
                 = fold_left Rplus (map phi l) 0 * / (urms * urms)).
  { rewrite <- fold_plus_scaled, Rmult_0_l. f_equal. apply map_ext.
    intros r. unfold phi, square, scaled; simpl. now field. }
  rewrite Hsum. unfold Rdiv. ring.
Qed.

Lemma urms_squared (m urms : R) :
  urms = sqrt (m / 3) -> 0 < urms -> urms * urms = m / 3.
Proof.
  intros -> Hpos. apply sqrt_sqrt.
  destruct (Rle_or_lt 0 (m / 3)) as [Hle|Hlt]; [exact Hle|].
  rewrite sqrt_neg_0 in Hpos by lra. lra.
Qed.

(** C3.  In exact arithmetic, for a table whose [urms] is positive, the
    normaliser returns a table whose velocity columns have unit rms: the
    mean of [(u^2 + v^2 + w^2) / 3] over its rows is 1, and [urms]
    computed again on it is 1. *)
Theorem normalization_unit_rms (dat : DataFrame R) (urms : R) :
  rectangular dat ->
  urms_of dat = Ok urms ->
  0 < urms ->
  exists dat' u v w,
    normalizer dat urms = Ok dat'
    /\ getitem dat' "u" = Ok u
    /\ getitem dat' "v" = Ok v
    /\ getitem dat' "w" = Ok w
    /\ np_mean (squares3 u v w) / 3 = 1
    /\ urms_of dat' = Ok 1.
Proof.
  destruct dat as [cols rs]. intros R0 Hurms Hpos.
  pose proof Hurms as Hcols. unfold urms_of in Hcols.
  apply bind_Ok in Hcols as (u0 & Hu0 & Hcols).
  apply bind_Ok in Hcols as (v0 & Hv0 & Hcols).
  apply bind_Ok in Hcols as (w0 & Hw0 & _).
  apply getitem_Ok_inv in Hu0 as [pu Hu]. apply getitem_Ok_inv in Hv0 as [pv Hv].
  apply getitem_Ok_inv in Hw0 as [pw Hw]. simpl in Hu, Hv, Hw.
  rewrite (urms_of_spec cols rs pu pv pw R0 Hu Hv Hw) in Hurms.
  apply Ok_inj in Hurms. rewrite R_series_mean in Hurms.
  set (phi := fun r : Row R => fadd (fadd (square (val pu r)) (square (val pv r)))
                                (square (val pw r))) in *.
  assert (Hsq : urms * urms = np_mean (map phi rs) / 3)
    by (apply urms_squared; [symmetry; exact Hurms | exact Hpos]).
  assert (Hne : urms <> 0) by lra.
  set (rs' := map (scaled_row pu pv pw urms) rs).
  assert (R1 : rectangular {| columns := cols; rows := rs' |}).
  { unfold rectangular, rs' in *; simpl in *. apply Forall_map.
    eapply Forall_impl; [|exact R0]. intros r Hr.
    unfold scaled_row, map_column; cbn [cells].
    now rewrite !set_nth_length. }
  assert (Hvals : forall r, In r rs ->
            val pu (scaled_row pu pv pw urms r) = scaled urms (val pu r)
            /\ val pv (scaled_row pu pv pw urms r) = scaled urms (val pv r)
            /\ val pw (scaled_row pu pv pw urms r) = scaled urms (val pw r)).
  { intros r Hr. unfold rectangular in R0; simpl in R0.
    rewrite Forall_forall in R0. specialize (R0 r Hr).
    apply scaled_row_vals; rewrite ?R0;
      try (now apply (col_pos_distinct cols "u" "v"));
      try (now apply (col_pos_distinct cols "u" "w"));
      try (now apply (col_pos_distinct cols "v" "w"));
      eapply col_pos_bound; eassumption. }
  assert (Hmean : np_mean (map (fun r => fadd (fadd (square (val pu r))
                                                (square (val pv r)))
                                          (square (val pw r))) rs')
                  = np_mean (map phi rs) / (urms * urms)).
  { unfold rs', phi. rewrite map_map.
    rewrite <- (mean_scaled (val pu) (val pv) (val pw) urms rs Hne).
    f_equal. apply map_ext_in. intros r Hr.
    destruct (Hvals r Hr) as (-> & -> & ->). reflexivity. }
  assert (Hone : np_mean (map (fun r => fadd (fadd (square (val pu r))
                                               (square (val pv r)))
                                         (square (val pw r))) rs') / 3 = 1).
  { rewrite Hmean.
    replace (np_mean (map phi rs)) with (3 * (urms * urms)) by lra.
    now field. }
  exists {| columns := cols; rows := rs' |},
    (map (val pu) rs'), (map (val pv) rs'), (map (val pw) rs').
  split; [now apply normalizer_spec|].
  split; [now apply (getitem_rect _ "u" pu R1)|].
  split; [now apply (getitem_rect _ "v" pv R1)|].
  split; [now apply (getitem_rect _ "w" pw R1)|].
  rewrite squares3_map. split; [exact Hone|].
  rewrite (urms_of_spec cols rs' pu pv pw R1 Hu Hv Hw), R_series_mean.
  f_equal. change (fthree : R) with 3. change (fdiv ?a ?b) with (a / b).
  rewrite Hone. apply sqrt_1.
Qed.

End UnitRms.

Lemma normalization_unit_rms_witness :
  exists urms dat' u v w,
    rectangular Example.real_table
    /\ urms_of Example.real_table = Ok urms
    /\ (0 < urms)%R
    /\ normalizer Example.real_table urms = Ok dat'
    /\ getitem dat' "u" = Ok u
    /\ getitem dat' "v" = Ok v
    /\ getitem dat' "w" = Ok w
    /\ (np_mean (squares3 u v w) / 3 = 1)%R
    /\ urms_of dat' = Ok 1%R.
Proof.
  assert (Hr : rectangular Example.real_table) by (repeat constructor).
  pose proof (urms_of_spec names (rows Example.real_table) 3 4 5 Hr
                eq_refl eq_refl eq_refl) as Hu.
  match type of Hu with _ = Ok ?x => set (urms := x) in * end.
  assert (Hpos : (0 < urms)%R).
  { unfold urms. rewrite R_series_mean, R_np_mean.
    apply sqrt_lt_R0. unfold val, square; simpl. lra. }
  destruct (normalization_unit_rms Example.real_table urms Hr Hu Hpos)
    as (dat' & u & v & w & H1 & H2 & H3 & H4 & H5 & H6).
  exists urms, dat', u, v, w. repeat split; auto.
Defined.

(** ** The writer (C5) *)

Section WriterFacts.

Context {F : Type} `{Float64 F}.
Variable parse_args : list string -> result Namespace.
Variable py_float : string -> result F.
Variable pd_read_table : list string -> nat -> result (list (Rec6 F)).
Variable format_e18 : F -> string.

Lemma csv_row_six (r : Row F) :
  six r ->
  csv_row format_e18 [1; 0; 2; 3; 4; 5] r = Ok (data_line format_e18 (xyzuvw r)).
Proof.
  intros H6. unfold csv_row, six in *. simpl.
  rewrite !cell_val by lia. reflexivity.
Qed.

(** The lines of the file for a table with the renamed columns: the
    labels, then the rows in the order of the table, their values picked
    by label. *)
Lemma to_csv_renamed (rs : list (Row F)) :
  Forall six rs ->
  to_csv format_e18 {| columns := renamed; rows := rs |} names
  = Ok ("x,y,z,u,v,w" :: map (fun r => data_line format_e18 (xyzuvw r)) rs).
Proof.
  intros H6. unfold to_csv; simpl.
  rewrite (mapM_map _ (fun r => data_line format_e18 (xyzuvw r))); [reflexivity|].
  intros r Hr. apply csv_row_six. rewrite Forall_forall in H6. now apply H6.
Qed.

Lemma norm_row_six (urms : F) (r : Row F) : six r -> six (norm_row urms r).
Proof.
  unfold six, norm_row, scaled_row, map_column; cbn [cells].
  now rewrite !set_nth_length.
Qed.

Lemma xyzuvw_norm_row (urms : F) (r : Row F) :
  six r ->
  xyzuvw (norm_row urms r)
  = [val 1 r; val 0 r; val 2 r;
     fdiv (val 3 r) urms; fdiv (val 4 r) urms; fdiv (val 5 r) urms].
Proof.
  destruct r as [i cs]. unfold six; simpl. intros H6.
  do 7 (destruct cs as [|? cs]; try discriminate). reflexivity.
Qed.

(** What lines 64-109 return, in terms of the parsed table. *)
Lemma process_spec (n : nat) (f : list string) (sc : Scalars F) (dat : DataFrame F) :
  process py_float pd_read_table n f = Ok (sc, dat) ->
  exists data dx,
    pd_read_table f (get_skiprows_num f) = Ok data
    /\ coordinate_transformer (frame_of names data)
       = Ok (dx, sorted_frame dx (frame_of names data))
    /\ dat = {| columns := renamed;
                rows := map (norm_row (s_urms sc))
                          (rows (sorted_frame dx (frame_of names data))) |}.
Proof.
  unfold process, read_csv. intros Hp.
  apply bind_Ok in Hp as (dat0 & Hread & Hp).
  apply bind_Ok in Hread as (data & Hdata & [= <-]).
  apply bind_Ok in Hp as (mu & _ & Hp).
  apply bind_Ok in Hp as (Re & _ & Hp).
  apply bind_Ok in Hp as (dxdat & Htr & Hp).
  apply bind_Ok in Hp as (sc' & _ & Hp).
  apply bind_Ok in Hp as (dat' & Hnorm & [= <- <-]).
  rewrite coordinate_transformer_spec in Htr.
  apply bind_Ok in Htr as (dx & Hdx & [= <-]).
  exists data, dx. split; [exact Hdata|]. split.
  - rewrite coordinate_transformer_spec, Hdx. reflexivity.
  - simpl in Hnorm. unfold sorted_frame in Hnorm.
    rewrite (normalizer_spec renamed _ (s_urms sc') 3 4 5) in Hnorm;
      [now injection Hnorm as <- | | reflexivity | reflexivity | reflexivity].
    unfold rectangular; simpl. rewrite Forall_forall. intros r Hr.
    apply (Permutation_in _ (sorted_rows_perm dx (frame_of names data))) in Hr.
    now apply (shifted_rows_six dx data).
Qed.

(** A field without NaN is the rendering of its value. *)
Lemma csv_field_no_nan (vs : list F) :
  forallb (fun v => negb (isnan v)) vs = true ->
  map (csv_field format_e18) vs = map format_e18 vs.
Proof.
  intros Hvs. apply map_ext_in. intros v Hv.
  rewrite forallb_forall in Hvs. specialize (Hvs v Hv).
  apply negb_true_iff in Hvs. unfold csv_field. now rewrite Hvs.
Qed.

(** C5, as the script behaves.  The output file of a run starts with the
    line of the column labels, x,y,z,u,v,w, followed by one line per row
    of the table read.  When the coordinates are comparable and no value
    written is a NaN, these lines are the rows of the table in
    lexicographic (z, y, x) order, z first, each with the six
    comma-separated fields x, y, z, u/urms, v/urms, w/urms written with
    ['%.18e']. *)
Theorem output_file_lines (n : nat) (argv : list string)
    (file : option (list string)) (out : Output F) :
  script parse_args py_float pd_read_table format_e18 n argv file = Ok out ->
  exists f data dx sorted,
    file = Some f
    /\ pd_read_table f (get_skiprows_num f) = Ok data
    /\ coordinate_transformer (frame_of names data) = Ok (dx, sorted)
    /\ hd_error (out_file out) = Some "x,y,z,u,v,w"
    /\ List.length (out_file out) = S (List.length data)
    /\ (comparable_rows sorted = true ->
        no_nan_written (s_urms (report out)) (rows sorted) = true ->
        out_file out
        = "x,y,z,u,v,w"
          :: map (fun r => csv_line (map format_e18
                                       (written (s_urms (report out)) r)))
               (rows sorted)
        /\ forall k r1 r2,
             nth_error (rows sorted) k = Some r1 ->
             nth_error (rows sorted) (S k) = Some r2 ->
             exists k1 k2, zyx sorted r1 = Ok k1 /\ zyx sorted r2 = Ok k2
                           /\ lex_leb k1 k2 = true).
Proof.
  unfold script. intros Hs.
  apply bind_Ok in Hs as (args & _ & Hs).
  apply bind_Ok in Hs as (f & Hopen & Hs).
  apply bind_Ok in Hs as ([sc dat] & Hproc & Hs).
  apply bind_Ok in Hs as (lines & Hcsv & [= <-]).
  destruct file as [f'|]; simpl in Hopen; [injection Hopen as ->|discriminate].
  destruct (process_spec n f sc dat Hproc) as (data & dx & Hdata & Htr & ->).
  assert (H6 : Forall six (rows (sorted_frame dx (frame_of names data)))).
  { rewrite Forall_forall. intros r Hr.
    apply (Permutation_in _ (sorted_rows_perm dx (frame_of names data))) in Hr.
    now apply (shifted_rows_six dx data). }
  simpl in Hcsv. rewrite to_csv_renamed in Hcsv.
  2:{ apply Forall_map. eapply Forall_impl; [|exact H6].
      intros r. apply norm_row_six. }
  injection Hcsv as <-.
  exists f, data, dx, (sorted_frame dx (frame_of names data)).
  split; [reflexivity|]. split; [exact Hdata|]. split; [exact Htr|].
  cbn [out_file report]. split; [reflexivity|]. split.
  - cbn [List.length]. rewrite !length_map.
    pose proof (Permutation_length
                  (sort_keyed_perm
                     (map (with_key [2; 0; 1])
                        (map (shift_row dx) (index_from 0 data))))) as Hl.
    rewrite !length_map, index_from_length in Hl. f_equal. exact Hl.
  - intros Hcmp Hnan. split.
    + f_equal. rewrite map_map. apply map_ext_in. intros r Hr.
      unfold data_line. rewrite xyzuvw_norm_row;
        [|rewrite Forall_forall in H6; now apply H6].
      fold (written (s_urms sc) r). rewrite csv_field_no_nan; [reflexivity|].
      unfold no_nan_written in Hnan. rewrite forallb_forall in Hnan.
      now apply Hnan.
    + now apply sorted_frame_consecutive.
Qed.

End WriterFacts.

(** *** The formatter never starts a field with a letter of the header *)

Lemma digit_char_not_x (d : Z) :
  (0 <= d < 10)%Z -> Binary64.digit_char d <> "x"%char.
Proof.
  intros Hd.
  assert (Hc : (d = 0 \/ d = 1 \/ d = 2 \/ d = 3 \/ d = 4 \/ d = 5 \/ d = 6
                \/ d = 7 \/ d = 8 \/ d = 9)%Z) by lia.
  repeat (destruct Hc as [->|Hc]; [discriminate|]). subst. discriminate.
Qed.

Lemma decimal_digits_head (w : nat) (n : Z) (acc : string) (c : ascii) (rest : string) :
  Binary64.decimal_digits w n acc = String c rest ->
  c <> "x"%char \/ exists rest', acc = String c rest'.
Proof.
  revert n acc; induction w as [|w IH]; intros n acc; simpl.
  - intros ->. right. now exists rest.
  - intros Hd. apply IH in Hd as [Hc|[rest' [= <- _]]]; [now left|].
    left. apply digit_char_not_x. apply Z.mod_pos_bound. lia.
Qed.

Lemma format_e18_head (v : float) :
  exists c rest, Binary64.format_e18 v = String c rest /\ c <> "x"%char.
Proof.
  unfold Binary64.format_e18.
  destruct (FloatOps.Prim2SF v) as [s|s| |s m e].
  - destruct s; simpl; eexists _, _; (split; [reflexivity | discriminate]).
  - destruct s; simpl; eexists _, _; (split; [reflexivity | discriminate]).
  - eexists _, _; (split; [reflexivity | discriminate]).
  - destruct (if (0 <=? e)%Z then _ else _) as [num den].
    destruct (Binary64.sci18 num den) as [q d].
    destruct s; simpl; [eexists _, _; (split; [reflexivity | discriminate])|].
    unfold Binary64.mantissa_string, Binary64.decimal.
    destruct (Binary64.decimal_digits _ q EmptyString) as [|c rest] eqn:E; simpl.
    + eexists _, _; (split; [reflexivity | discriminate]).
    + exists c. eexists. split; [reflexivity|].
      apply decimal_digits_head in E as [Hc|[rest' Hacc]];
        [exact Hc | discriminate].
Qed.

(** The line of the labels is not the rendering of six numbers. *)
Lemma header_is_no_data_row (vs : list float) :
  "x,y,z,u,v,w" <> csv_line (map Binary64.format_e18 vs).
Proof.
  destruct vs as [|v vs]; [discriminate|].
  destruct (format_e18_head v) as (c & rest & Hv & Hc).
  unfold csv_line; simpl. rewrite Hv.
  destruct (map Binary64.format_e18 vs); simpl; intros [= <-]; now apply Hc.
Qed.

(** C5, as the claim states it: the output file of the example run has 9
    lines for a table of 8 rows; its first line is the header
    [x,y,z,u,v,w], which is no rendering of six numbers. *)
Lemma output_has_header_counterexample :
  exists out,
    Example.run 2 [] (Some Example.file) = Ok out
    /\ hd_error (out_file out) = Some "x,y,z,u,v,w"
    /\ List.length (out_file out) = 9
    /\ List.length Example.data = 8
    /\ ~ headerless Binary64.format_e18 (out_file out).
Proof.
  eexists. split; [vm_compute; reflexivity|].
  cbn [out_file]. split; [reflexivity|]. split; [reflexivity|].
  split; [reflexivity|].
  intros Hh. destruct (Hh "x,y,z,u,v,w" (or_introl eq_refl)) as (vs & _ & Hvs).
  now apply (header_is_no_data_row vs).
Qed.

Lemma output_file_lines_witness :
  exists out f data dx sorted,
    Example.run 2 [] (Some Example.file) = Ok out
    /\ Some Example.file = Some f
    /\ Binary64.pd_read_table f (get_skiprows_num f) = Ok data
    /\ coordinate_transformer (frame_of names data) = Ok (dx, sorted)
    /\ hd_error (out_file out) = Some "x,y,z,u,v,w"
    /\ List.length (out_file out) = S (List.length data)
    /\ comparable_rows sorted = true
    /\ no_nan_written (s_urms (report out)) (rows sorted) = true
    /\ out_file out
       = "x,y,z,u,v,w"
         :: map (fun r => csv_line (map Binary64.format_e18
                                      (written (s_urms (report out)) r)))
              (rows sorted)
    /\ forall k r1 r2,
         nth_error (rows sorted) k = Some r1 ->
         nth_error (rows sorted) (S k) = Some r2 ->
         exists k1 k2, zyx sorted r1 = Ok k1 /\ zyx sorted r2 = Ok k2
                       /\ lex_leb k1 k2 = true.
Proof.
  destruct (Example.run 2 [] (Some Example.file)) as [out|e] eqn:Hrun;
    [|vm_compute in Hrun; discriminate].
  destruct (output_file_lines Binary64.parse_args Binary64.py_float
              Binary64.pd_read_table Binary64.format_e18 2 [] _ out Hrun)
    as (f & data & dx & sorted & H1 & H2 & H3 & H4 & H5 & H6).
  exists out, f, data, dx, sorted.
  assert (Hc : comparable_rows sorted = true
               /\ no_nan_written (s_urms (report out)) (rows sorted) = true).
  { injection H1 as <-.
    vm_compute in H2. injection H2 as <-.
    vm_compute in H3. injection H3 as <- <-.
    vm_compute in Hrun. injection Hrun as <-.
    vm_compute. split; reflexivity. }
  destruct Hc as [Hc Hn]. destruct (H6 Hc Hn) as [H7 H8].
  repeat (split; [first [assumption | reflexivity]|]). assumption.
Defined.

(** ** The Taylor microscale (C4) *)

Lemma map2_map_map {A B C D : Type} (f : B -> C -> D) (g : A -> B) (h : A -> C)
    (l : list A) :
  map2 f (map g l) (map h l) = map (fun a => f (g a) (h a)) l.
Proof.
  induction l as [|a l IH]; simpl; [reflexivity | now rewrite IH].
Qed.

Lemma firstn_seq_prefix (a m k : nat) : firstn m (seq a (m + k)) = seq a m.
Proof.
  revert a; induction m as [|m IH]; intros a; simpl; [reflexivity|].
  now rewrite IH.
Qed.

Lemma map2_seq_shift {A B : Type} (f : A -> A -> B) (P : nat -> A) (a m : nat) :
  map2 f (map P (seq a m)) (map P (seq (2 + a) m))
  = map (fun i => f (P (i - 1)) (P (i + 1))) (seq (1 + a) m).
Proof.
  revert a; induction m as [|m IH]; intros a; simpl; [reflexivity|].
  rewrite Nat.sub_0_r. replace (S (a + 1)) with (S (S a)) by lia.
  f_equal. exact (IH (S a)).
Qed.

Lemma map_flat_map_comm {A B C : Type} (f : B -> C) (g : A -> list B) (l : list A) :
  map f (flat_map g l) = flat_map (fun a => map f (g a)) l.
Proof.
  induction l as [|a l IH]; simpl; [reflexivity|]. now rewrite map_app, IH.
Qed.

Lemma flat_map_ext_In {A B : Type} (f g : A -> list B) (l : list A) :
  (forall a, In a l -> f a = g a) -> flat_map f l = flat_map g l.
Proof.
  induction l as [|a l IH]; intros Hfg; simpl; [reflexivity|].
  rewrite (Hfg a (or_introl eq_refl)), IH; [reflexivity|].
  intros b Hb. apply Hfg. now right.
Qed.

Lemma nth_map_seq {A : Type} (P : nat -> A) (n k : nat) (d : A) :
  k < n -> nth k (map P (seq 0 n)) d = P k.
Proof.
  intros Hk. rewrite (nth_indep _ d (P 0)) by (now rewrite length_map, length_seq).
  now rewrite map_nth, seq_nth.
Qed.

Section GradientFacts.

Context {F : Type} `{Float64 F}.

Lemma reshape_F_planes (n : nat) (u : list F) :
  List.length u = n * n * n ->
  reshape_F n u = Ok (map (plane_F n u) (seq 0 n)).
Proof.
  intros Hlen. unfold reshape_F. rewrite Hlen, Nat.eqb_refl. reflexivity.
Qed.

(** The difference quotient of two planes of the cube, point by point. *)
Lemma plane_quotient (n : nat) (u : list F) (a b : nat) (s : F) :
  plane_div (plane_sub (plane_F n u a) (plane_F n u b)) s
  = map (fun j => map (fun k => fdiv (fsub (at_F n u a j k) (at_F n u b j k)) s)
                    (seq 0 n))
      (seq 0 n).
Proof.
  unfold plane_div, plane_sub, plane_F.
  rewrite map2_map_map, map_map. apply map_ext. intros j.
  now rewrite map2_map_map, map_map.
Qed.

(** [np.gradient] on the planes [P 0 .. P (m+1)]: plane by plane. *)
Lemma np_gradient0_planes (P : nat -> Plane F) (m : nat) (dx : F) :
  np_gradient0 (map P (seq 0 (S (S m)))) dx
  = Ok (map (fun i =>
               if Nat.eqb i 0 then plane_div (plane_sub (P 1) (P 0)) dx
               else if Nat.eqb i (S m) then
                 plane_div (plane_sub (P (S m)) (P m)) dx
               else plane_div (plane_sub (P (i + 1)) (P (i - 1))) (fmul ftwo dx))
          (seq 0 (S (S m)))).
Proof.
  unfold np_gradient0. rewrite length_map, length_seq.
  change (Nat.ltb (S (S m)) 2) with false. cbv iota. f_equal.
  replace (S (S m) - 1) with (S m) by lia.
  replace (S (S m) - 2) with m by lia.
  rewrite !nth_map_seq by lia.
  rewrite firstn_map, skipn_map.
  replace (firstn m (seq 0 (S (S m)))) with (seq 0 m)
    by (symmetry; replace (S (S m)) with (m + 2) by lia; apply firstn_seq_prefix).
  change (skipn 2 (seq 0 (S (S m)))) with (seq 2 m).
  rewrite (map2_seq_shift
             (fun lo hi => plane_div (plane_sub hi lo) (fmul ftwo dx)) P 0 m).
  change (seq 0 (S (S m))) with (0 :: seq 1 (S m)).
  rewrite seq_S, map_cons, map_app. cbn [map app Nat.eqb].
  f_equal. f_equal.
  - apply map_ext_in. intros i Hi. apply in_seq in Hi.
    destruct (Nat.eqb_spec i 0); [lia|].
    destruct (Nat.eqb_spec i (S m)); [lia | reflexivity].
  - replace (1 + m) with (S m) by lia. rewrite Nat.eqb_refl. reflexivity.
Qed.

(** The gradient of the reshaped cube, point by point. *)
Lemma np_gradient0_points (n : nat) (u : list F) (dx : F) :
  2 <= n ->
  np_gradient0 (map (plane_F n u) (seq 0 n)) dx
  = Ok (map (fun i => map (fun j => map (fun k => grad_x n u dx i j k) (seq 0 n))
                        (seq 0 n))
          (seq 0 n)).
Proof.
  intros Hn. destruct n as [|[|m]]; try lia.
  rewrite np_gradient0_planes. f_equal. apply map_ext. intros i.
  unfold grad_x.
  replace (S (S m) - 1) with (S m) by lia.
  replace (S (S m) - 2) with m by lia.
  destruct (Nat.eqb i 0); [apply plane_quotient|].
  destruct (Nat.eqb i (S m)); apply plane_quotient.
Qed.

(** The elements of a cube given point by point, in memory order. *)
Lemma ravel_points (f : F -> F) (g : nat -> nat -> nat -> F) (n : nat) :
  0 < n ->
  map f (ravel (map (fun i => map (fun j => map (fun k => g i j k) (seq 0 n))
                                (seq 0 n))
                  (seq 0 n)))
  = flat_map (fun k => flat_map (fun j => map (fun i => f (g i j k)) (seq 0 n))
                         (seq 0 n))
      (seq 0 n).
Proof.
  intros Hn. unfold ravel.
  repeat (rewrite ?nth_map_seq by exact Hn; rewrite ?length_map, ?length_seq).
  rewrite map_flat_map_comm. apply flat_map_ext_In. intros k Hk.
  rewrite map_flat_map_comm. apply flat_map_ext_In. intros j Hj.
  rewrite map_map. apply map_ext_in. intros i Hi.
  apply in_seq in Hk, Hj, Hi.
  rewrite !nth_map_seq by lia. reflexivity.
Qed.

(** Lines 97-101 compute the mean of the squared point-wise gradient. *)
Lemma dudx2_of_spec (n : nat) (dat : DataFrame F) (dx : F) (u : list F) :
  2 <= n -> getitem dat "u" = Ok u -> List.length u = n * n * n ->
  dudx2_of n dat dx = Ok (mean_sq_grad n u dx).
Proof.
  intros Hn Hu Hlen. unfold dudx2_of. rewrite Hu; simpl.
  rewrite (reshape_F_planes n u Hlen); simpl.
  rewrite (np_gradient0_points n u dx Hn); simpl.
  unfold mean_sq_grad. rewrite ravel_points by lia. reflexivity.
Qed.

(** Without a NaN entry the mean of a series is the mean of the array of
    its values. *)
Lemma series_mean_no_nan (a : list F) :
  forallb (fun v => negb (isnan v)) a = true -> series_mean a = np_mean a.
Proof.
  intros Ha. unfold series_mean, np_mean.
  assert (Hm : map (fun v : F => if isnan v then fzero else v) a = a
               /\ filter (fun v : F => negb (isnan v)) a = a).
  { induction a as [|v a IH]; cbn [map filter forallb] in *; [now split|].
    apply andb_true_iff in Ha as [Hv Ha]. destruct (IH Ha) as [IH1 IH2].
    rewrite Hv, IH1, IH2. apply negb_true_iff in Hv. rewrite Hv. now split. }
  destruct Hm as [-> ->]. reflexivity.
Qed.

(** C4.  On a table whose u column has [n^3] entries ([n >= 2]) and no
    NaN square, [dudx2] is the mean over the [n^3] grid points of the
    squared finite-difference gradient along the first axis of the u column
    laid out first-axis-fastest (one-sided differences over [dx] at the two
    ends, centred differences over [2 dx] inside), and the scale calculator
    returns [lambda0 = sqrt (u2 / dudx2)] with [u2] the mean of [u^2] over
    all rows. *)
Theorem taylor_microscale_spec (n : nat) (dat : DataFrame F) (dx : F)
    (mu : pynum F) (Re : F) (u : list F) (urms : F) :
  2 <= n ->
  getitem dat "u" = Ok u ->
  List.length u = n * n * n ->
  forallb (fun v => negb (isnan v)) (map square u) = true ->
  urms_of dat = Ok urms ->
  dudx2_of n dat dx = Ok (mean_sq_grad n u dx)
  /\ exists sc,
      physical_scales n dat dx mu Re = Ok sc
      /\ s_lambda0 sc
         = fsqrt (fdiv (np_mean (map square u)) (mean_sq_grad n u dx)).
Proof.
  intros Hn Hu Hlen Hnan Hurms.
  pose proof (dudx2_of_spec n dat dx u Hn Hu Hlen) as Hd.
  split; [exact Hd|].
  unfold physical_scales. rewrite Hurms; simpl. rewrite Hu; simpl.
  rewrite Hd; simpl. eexists. split; [reflexivity|]. simpl.
  now rewrite (series_mean_no_nan _ Hnan).
Qed.

End GradientFacts.

Lemma taylor_microscale_spec_witness :
  exists dx dat u urms,
    coordinate_transformer (frame_of names Example.data) = Ok (dx, dat)
    /\ 2 <= 2
    /\ getitem dat "u" = Ok u
    /\ List.length u = 2 * 2 * 2
    /\ forallb (fun v => negb (isnan v)) (map square u) = true
    /\ urms_of dat = Ok urms
    /\ dudx2_of 2 dat dx = Ok (mean_sq_grad 2 u dx)
    /\ exists sc,
        physical_scales 2 dat dx (PyFloat 0.005%float) 200%float = Ok sc
        /\ s_lambda0 sc
           = fsqrt (fdiv (np_mean (map square u)) (mean_sq_grad 2 u dx)).
Proof.
  destruct (coordinate_transformer (frame_of names Example.data))
    as [[dx dat]|e] eqn:Htr; [|vm_compute in Htr; discriminate].
  vm_compute in Htr. injection Htr as <- <-.
  eexists _, _, _, _. split; [reflexivity|].
  assert (Hn : 2 <= 2) by lia. split; [exact Hn|].
  match goal with
  | |- getitem ?d "u" = Ok ?x /\ _ =>
      assert (Hu : getitem d "u"
                   = Ok [1; -1; 2; 3; 0.5; 0; 1; 1]%float) by (vm_compute; reflexivity)
  end.
  split; [exact Hu|].
  assert (Hlen : List.length [1; -1; 2; 3; 0.5; 0; 1; 1]%float = 2 * 2 * 2)
    by reflexivity.
  split; [exact Hlen|].
  assert (Hnan : forallb (fun v => negb (isnan v))
                   (map square [1; -1; 2; 3; 0.5; 0; 1; 1]%float) = true)
    by (vm_compute; reflexivity).
  split; [exact Hnan|].
  match goal with
  | |- urms_of ?d = Ok ?x /\ _ =>
      assert (Hurms : urms_of d = Ok 1.050793351076541%float)
        by (vm_compute; reflexivity)
  end.
  split; [exact Hurms|].
  exact (taylor_microscale_spec 2 _ 0.5%float (PyFloat 0.005%float) 200%float
           _ _ Hn Hu Hlen Hnan Hurms).
Defined.

(** The numbers of the example: [dudx2 = 5.25]; the gradient at the grid
    point (0, 0, 0) is [(-1 - 1) / 0.5], at (1, 1, 0) it is [(3 - 2) / 0.5]. *)
Example taylor_microscale_example :
  mean_sq_grad 2 [1; -1; 2; 3; 0.5; 0; 1; 1]%float 0.5%float = 5.25%float
  /\ grad_x 2 [1; -1; 2; 3; 0.5; 0; 1; 1]%float 0.5%float 0 0 0 = (-4)%float
  /\ grad_x 2 [1; -1; 2; 3; 0.5; 0; 1; 1]%float 0.5%float 1 1 0 = 2%float.
Proof. vm_compute. repeat split. Qed.

(** ** Supplements in exact arithmetic and on binary64 *)

Lemma R_np_maximum (a b : R) : np_maximum a b = Rmax a b.
Proof.
  unfold np_maximum, fleb. rewrite R_isnan, orb_false_r. simpl.
  unfold Rltb, Reqb, Rmax.
  destruct (Rlt_dec b a), (Req_dec_T b a), (Rle_dec a b); simpl;
    try reflexivity; lra.
Qed.

Lemma fold_Rmax_upper (t : list R) (x d : R) :
  In d (x :: t) -> (d <= fold_left np_maximum t x)%R.
Proof.
  revert x d; induction t as [|y t IH]; intros x d Hd; simpl.
  - destruct Hd as [->|[]]. lra.
  - rewrite R_np_maximum. destruct Hd as [->|[->|Hd]].
    + apply Rle_trans with (Rmax d y); [apply Rmax_l | apply IH; now left].
    + apply Rle_trans with (Rmax x d); [apply Rmax_r | apply IH; now left].
    + apply IH. now right.
Qed.

(** In exact arithmetic [np.max] returns an element of the array that no
    element exceeds: the spacing of C1 is the largest adjacent difference. *)
Lemma np_max_is_maximum (a : list R) (m : R) :
  np_max a = Ok m -> In m a /\ forall d, In d a -> (d <= m)%R.
Proof.
  intros Hm. split; [now apply np_max_In|].
  destruct a as [|x t]; simpl in Hm; [discriminate|].
  apply Ok_inj in Hm. subst m. intros d Hd. now apply fold_Rmax_upper.
Qed.

Lemma R_comparable_keys (k1 k2 : list R) : comparable_keys k1 k2 = true.
Proof.
  revert k2; induction k1 as [|a k1 IH]; intros [|b k2]; simpl; auto.
  rewrite IH, andb_true_r. unfold comparable; simpl. unfold Rltb, Reqb.
  destruct (Rlt_dec a b), (Req_dec_T a b), (Rlt_dec b a); simpl;
    try reflexivity; lra.
Qed.

(** On binary64 [<=] orders the numbers: it is reflexive off the NaN,
    total off the NaN, and transitive. *)
Ltac sf_compare :=
  repeat match goal with
  | |- context [Z.compare ?a ?b] => destruct (Z.compare_spec a b)
  | |- context [Pos.compare_cont Eq ?a ?b] =>
      change (Pos.compare_cont Eq a b) with (Pos.compare a b);
      destruct (Pos.compare_spec a b)
  end.

Lemma SFeqb_refl (a : SpecFloat.spec_float) :
  SpecFloat.SFeqb a a = negb (SFnan a).
Proof.
  unfold SpecFloat.SFeqb.
  destruct a as [s|s| |s m e]; simpl; try (destruct s; reflexivity);
    try reflexivity.
  rewrite Z.compare_refl, Pos.compare_cont_refl. destruct s; reflexivity.
Qed.

Lemma SFle_total (a b : SpecFloat.spec_float) :
  SFnan a = false -> SFnan b = false -> SFle a b = true \/ SFle b a = true.
Proof.
  unfold SFle, SpecFloat.SFltb, SpecFloat.SFeqb.
  destruct a as [sa|sa| |sa ma ea], b as [sb|sb| |sb mb eb]; simpl;
    intros Ha Hb; try discriminate;
    try (destruct sa); try (destruct sb); simpl; auto.
  all: sf_compare; simpl; auto; try lia.
Qed.

Lemma SFle_trans (a b c : SpecFloat.spec_float) :
  SFle a b = true -> SFle b c = true -> SFle a c = true.
Proof.
  unfold SFle, SpecFloat.SFltb, SpecFloat.SFeqb.
  destruct a as [sa|sa| |sa ma ea], b as [sb|sb| |sb mb eb];
    try (destruct sa); try (destruct sb); simpl;
    try (intros H; discriminate H);
    destruct c as [sc|sc| |sc mc ec]; try (destruct sc); simpl;
    try (intros _ H; discriminate H); try (intros H _; discriminate H);
    try reflexivity.
  all: sf_compare; simpl; intros ? ?; try discriminate; try reflexivity;
    try lia.
Qed.

Lemma SF_comparable (a b : SpecFloat.spec_float) :
  SpecFloat.SFltb a b || SpecFloat.SFeqb a b || SpecFloat.SFltb b a
  = negb (SFnan a) && negb (SFnan b).
Proof.
  unfold SpecFloat.SFltb, SpecFloat.SFeqb.
  destruct a as [sa|sa| |sa ma ea], b as [sb|sb| |sb mb eb]; simpl;
    try (destruct sa); try (destruct sb); simpl; try reflexivity.
  all: sf_compare; simpl; try reflexivity; try lia.
Qed.

Lemma float_fleb (a b : float) :
  fleb a b = SFle (FloatOps.Prim2SF a) (FloatOps.Prim2SF b).
Proof.
  unfold fleb, SFle; simpl.
  now rewrite FloatAxioms.ltb_spec, FloatAxioms.eqb_spec.
Qed.

Lemma float_isnan (a : float) : isnan a = SFnan (FloatOps.Prim2SF a).
Proof.
  unfold isnan; simpl.
  rewrite FloatAxioms.eqb_spec, SFeqb_refl. apply negb_involutive.
Qed.

(** On binary64 two values are comparable when neither is a NaN. *)
Lemma float_comparable (a b : float) :
  comparable a b = negb (isnan a) && negb (isnan b).
Proof.
  unfold comparable; simpl.
  rewrite !FloatAxioms.ltb_spec, FloatAxioms.eqb_spec, !float_isnan.
  apply SF_comparable.
Qed.

(** On binary64 [<=] orders every list without a NaN: the condition under
    which the spacing of C1 is the largest adjacent difference is that no
    adjacent difference is a NaN. *)
Lemma float_ordered (l : list float) :
  forallb (fun v => negb (isnan v)) l = true -> ordered l = true.
Proof.
  intros Hl. unfold ordered. rewrite Hl. cbn [andb].
  rewrite forallb_forall in Hl.
  assert (Hn : forall a, In a l -> SFnan (FloatOps.Prim2SF a) = false).
  { intros a Ha. rewrite <- float_isnan. now apply negb_true_iff, Hl. }
  apply andb_true_iff; split.
  - apply forallb_forall. intros a Ha. apply forallb_forall. intros b Hb.
    rewrite !float_fleb. apply orb_true_iff.
    apply SFle_total; now apply Hn.
  - apply forallb_forall. intros a _. apply forallb_forall. intros b _.
    apply forallb_forall. intros c _. rewrite !float_fleb.
    destruct (SFle (FloatOps.Prim2SF a) (FloatOps.Prim2SF b)) eqn:Eab;
      [|reflexivity].
    destruct (SFle (FloatOps.Prim2SF b) (FloatOps.Prim2SF c)) eqn:Ebc;
      [|reflexivity].
    cbn [andb implb]. exact (SFle_trans _ _ _ Eab Ebc).
Qed.

(** On binary64 [np.max] of an array without NaN returns an element of
    the array that no element exceeds. *)
Lemma np_max_is_maximum_binary64 (a : list float) (m : float) :
  forallb (fun v => negb (isnan v)) a = true ->
  np_max a = Ok m ->
  In m a /\ forall d, In d a -> fleb d m = true.
Proof.
  intros Ha Hm. apply np_max_upper; [now apply float_ordered | exact Hm].
Qed.

(** In exact arithmetic [<=] orders every list. *)
Lemma R_ordered (l : list R) : ordered l = true.
Proof.
  assert (Hle : forall a b : R, fleb a b = true <-> (a <= b)%R).
  { intros a b. unfold fleb; simpl. unfold Rltb, Reqb.
    destruct (Rlt_dec a b), (Req_dec_T a b); simpl; split; intros; lra
      || reflexivity || discriminate. }
  unfold ordered. repeat (apply andb_true_iff; split).
  - apply forallb_forall. intros a _. now rewrite R_isnan.
  - apply forallb_forall. intros a _. apply forallb_forall. intros b _.
    apply orb_true_iff. destruct (Rle_or_lt a b) as [Hab|Hab].
    + left. now apply Hle.
    + right. apply Hle. lra.
  - apply forallb_forall. intros a _. apply forallb_forall. intros b _.
    apply forallb_forall. intros c _.
    destruct (fleb a b) eqn:Eab; [|reflexivity].
    destruct (fleb b c) eqn:Ebc; [|reflexivity].
    apply Hle in Eab, Ebc. cbn [andb implb]. apply Hle. lra.
Qed.

(** In exact arithmetic every two keys are comparable: the table the
    transformer returns is in lexicographic (z, y, x) order, with no
    condition. *)
Lemma transformer_sorts_exact (data : list (Rec6 R)) :
  2 <= List.length data ->
  exists dx out,
    coordinate_transformer (frame_of names data) = Ok (dx, out)
    /\ forall k r1 r2,
         nth_error (rows out) k = Some r1 ->
         nth_error (rows out) (S k) = Some r2 ->
         exists k1 k2, zyx out r1 = Ok k1 /\ zyx out r2 = Ok k2
                       /\ lex_leb k1 k2 = true.
Proof.
  intros Hn. destruct (spacing_returns data Hn) as [dx Hdx].
  exists dx, (sorted_frame dx (frame_of names data)).
  split; [rewrite coordinate_transformer_spec, Hdx; reflexivity|].
  apply sorted_frame_consecutive.
  unfold comparable_rows. apply forallb_forall. intros r1 Hr1.
  apply forallb_forall. intros r2 Hr2.
  assert (H6 : forall r, In r (rows (sorted_frame dx (frame_of names data))) ->
                 six r).
  { intros r Hr.
    apply (Permutation_in _ (sorted_rows_perm dx (frame_of names data))) in Hr.
    now apply (shifted_rows_six dx data). }
  unfold sorted_frame at 1 2.
  rewrite (zyx_renamed _ _ (H6 r1 Hr1)), (zyx_renamed _ _ (H6 r2 Hr2)).
  apply R_comparable_keys.
Qed.

(** On binary64 the table of the example, normalised by its [urms], has a
    recomputed [urms] of exactly 1: the eight terms of the mean are added in
    pairs.  Added one after the other they would give the double below 1. *)
Example normalization_float_example :
  exists dx dat urms dat' u v w,
    coordinate_transformer (frame_of names Example.data) = Ok (dx, dat)
    /\ urms_of dat = Ok urms
    /\ normalizer dat urms = Ok dat'
    /\ urms_of dat' = Ok 1%float
    /\ getitem dat' "u" = Ok u /\ getitem dat' "v" = Ok v
    /\ getitem dat' "w" = Ok w
    /\ fsqrt (fdiv (fdiv (fold_left fadd (squares3 u v w) fzero) 8%float)
                3%float)
       = 0x1.fffffffffffffp-1%float.
Proof.
  eexists _, _, _, _, _, _, _. split; [vm_compute; reflexivity|].
  split; [vm_compute; reflexivity|]. split; [vm_compute; reflexivity|].
  split; [vm_compute; reflexivity|].
  split; [vm_compute; reflexivity|].
  split; [vm_compute; reflexivity|].
  split; vm_compute; reflexivity.
Qed.

(** A field that grows by 1 per grid step along the first axis of a
    3 x 3 x 3 grid: the one-sided and the centred differences all give 1. *)
Example gradient_linear_example :
  let u := concat (repeat [0; 1; 2]%float 9) in
  reshape_F 3 u = Ok (map (plane_F 3 u) (seq 0 3))
  /\ bind (reshape_F 3 u) (fun c => np_gradient0 c 1%float)
     = Ok (repeat (repeat (repeat 1%float 3) 3) 3)
  /\ grad_x 3 u 1%float 1 2 0 = 1%float
  /\ mean_sq_grad 3 u 1%float = 1%float.
Proof. vm_compute. repeat split. Qed.

(* ===================================================================== *)
(** * Further properties of the script *)

(** ** The two scans of the header *)

Lemma get_skiprows_from_spec (k : nat) (f : list string) :
  (Forall (fun l => ~ substring_of "exporting field in real space" l) f
   /\ get_skiprows_from k f = 0)
  \/ (exists front line back,
        f = front ++ line :: back
        /\ Forall (fun l => ~ substring_of "exporting field in real space" l) front
        /\ substring_of "exporting field in real space" line
        /\ get_skiprows_from k f = k + List.length front).
Proof.
  revert k; induction f as [|line f IH]; intros k; simpl.
  - left. split; [constructor | reflexivity].
  - destruct (str_in "exporting field in real space" line) eqn:E.
    + right. apply str_in_iff in E. exists [], line, f. simpl.
      repeat split; auto.
    + assert (Hno : ~ substring_of "exporting field in real space" line).
      { intros Hs. apply str_in_iff in Hs. congruence. }
      destruct (IH (S k)) as [[Hall Hz]|(front & l & back & -> & Hfr & Hl & Hk)].
      * left. split; [now constructor | exact Hz].
      * right. exists (line :: front), l, back. simpl.
        repeat split; auto. rewrite Hk. lia.
Qed.

Lemma skipn_past {A : Type} (front : list A) (a : A) (back : list A) :
  skipn (S (List.length front)) (front ++ a :: back) = back.
Proof. induction front as [|x front IH]; simpl; auto. Qed.

(** [get_skiprows_num] returns the 1-based number of the first line that
    contains the marker, and skipping that many lines leaves exactly the
    lines after the marker; without a marker it returns 0 and nothing is
    skipped. *)
Theorem get_skiprows_num_spec (f : list string) :
  (Forall (fun l => ~ substring_of "exporting field in real space" l) f
   /\ get_skiprows_num f = 0
   /\ skipn (get_skiprows_num f) f = f)
  \/ (exists front line back,
        f = front ++ line :: back
        /\ Forall (fun l => ~ substring_of "exporting field in real space" l) front
        /\ substring_of "exporting field in real space" line
        /\ get_skiprows_num f = S (List.length front)
        /\ skipn (get_skiprows_num f) f = back).
Proof.
  unfold get_skiprows_num.
  destruct (get_skiprows_from_spec 1 f)
    as [[Hall Hz]|(front & l & back & -> & Hfr & Hl & Hk)].
  - left. rewrite Hz. repeat split; auto.
  - right. exists front, l, back. rewrite Hk. simpl.
    repeat split; auto. apply (skipn_past front l back).
Qed.

(** The count 0 is returned for the files without a marker line and for no
    other file, and the count never exceeds the number of lines. *)
Theorem get_skiprows_num_zero (f : list string) :
  (get_skiprows_num f = 0
   <-> Forall (fun l => ~ substring_of "exporting field in real space" l) f)
  /\ get_skiprows_num f <= List.length f.
Proof.
  unfold get_skiprows_num.
  destruct (get_skiprows_from_spec 1 f)
    as [[Hall Hz]|(front & l & back & -> & Hfr & Hl & Hk)].
  - rewrite Hz. split; [tauto | lia].
  - rewrite Hk, length_app. simpl. split; [|lia]. split; [lia|].
    intros Hall. apply Forall_app in Hall as [_ Hall].
    inversion Hall; subst. contradiction.
Qed.

Section ViscosityErrors.

Context {F : Type}.
Variable py_float : string -> result F.

(** An exception of [get_viscosity] is an exception of [float] on the last
    token of the first line that contains "viscosity": the indexing [[-1]]
    never fails, because such a line has a token. *)
Theorem get_viscosity_raises_only_float (f : list string) (e : exn) :
  get_viscosity py_float f = Raise e ->
  exists front line back tok,
    f = front ++ line :: back
    /\ Forall (fun l => ~ substring_of "viscosity" l) front
    /\ substring_of "viscosity" line
    /\ last_token line tok
    /\ py_float tok = Raise e.
Proof.
  induction f as [|line f IH]; simpl; [discriminate|].
  destruct (str_in "viscosity" line) eqn:E.
  - apply str_in_iff in E.
    destruct (viscosity_line_token line E) as [tok Htok].
    rewrite Htok; simpl. intros Hr.
    exists [], line, f, tok. repeat split; auto.
    + now apply split_last_token.
    + destruct (py_float tok) as [v|e']; simpl in Hr; [discriminate|].
      now injection Hr as ->.
  - assert (Hno : ~ substring_of "viscosity" line).
    { intros Hs. apply str_in_iff in Hs. congruence. }
    intros Hr. destruct (IH Hr) as (front & l & back & tok & -> & Hfr & Hl & Ht & Hp).
    exists (line :: front), l, back, tok. repeat split; auto.
Qed.

End ViscosityErrors.

Lemma get_viscosity_raises_only_float_witness :
  get_viscosity Binary64.py_float ["# header"; "viscosity = n/a"; "viscosity 1"]
  = Raise ValueError
  /\ exists front line back tok,
      ["# header"; "viscosity = n/a"; "viscosity 1"] = front ++ line :: back
      /\ Forall (fun l => ~ substring_of "viscosity" l) front
      /\ substring_of "viscosity" line
      /\ last_token line tok
      /\ Binary64.py_float tok = Raise ValueError.
Proof.
  assert (Hr : get_viscosity Binary64.py_float
                 ["# header"; "viscosity = n/a"; "viscosity 1"]
               = Raise ValueError) by (vm_compute; reflexivity).
  split; [exact Hr|].
  exact (get_viscosity_raises_only_float Binary64.py_float _ _ Hr).
Defined.

(** ** The rename of line 79 *)

Lemma relabel_swap_unfold (c : string) :
  relabel [("x", "y"); ("y", "x")] c
  = if String.eqb "x" c then "y" else if String.eqb "y" c then "x" else c.
Proof.
  unfold relabel. cbn [find fst snd].
  destruct (String.eqb "x" c); [reflexivity|].
  destruct (String.eqb "y" c); reflexivity.
Qed.

Lemma relabel_swap_involutive (c : string) :
  relabel [("x", "y"); ("y", "x")] (relabel [("x", "y"); ("y", "x")] c) = c.
Proof.
  rewrite (relabel_swap_unfold c).
  destruct (String.eqb_spec "x" c) as [<-|Hx]; [reflexivity|].
  destruct (String.eqb_spec "y" c) as [<-|Hy]; [reflexivity|].
  rewrite relabel_swap_unfold.
  destruct (String.eqb_spec "x" c); [contradiction|].
  destruct (String.eqb_spec "y" c); [contradiction | reflexivity].
Qed.

Lemma relabel_swap_eqb (c d : string) :
  String.eqb (relabel [("x", "y"); ("y", "x")] c)
    (relabel [("x", "y"); ("y", "x")] d)
  = String.eqb c d.
Proof.
  destruct (String.eqb_spec c d) as [->|Hcd]; [apply String.eqb_refl|].
  apply String.eqb_neq. intros Heq. apply Hcd.
  rewrite <- (relabel_swap_involutive c), <- (relabel_swap_involutive d).
  now rewrite Heq.
Qed.

Lemma col_pos_relabel_swap (c : string) (cols : list string) :
  col_pos (relabel [("x", "y"); ("y", "x")] c)
    (map (relabel [("x", "y"); ("y", "x")]) cols)
  = col_pos c cols.
Proof.
  induction cols as [|d cols IH]; [reflexivity|].
  cbn [map col_pos]. rewrite relabel_swap_eqb, IH. reflexivity.
Qed.

Section RenameAndSpacing.

Context {F : Type} `{Float64 F}.

Lemma getitem_rename_swap (dat : DataFrame F) (c : string) :
  getitem (rename [("x", "y"); ("y", "x")] dat)
    (relabel [("x", "y"); ("y", "x")] c)
  = getitem dat c.
Proof.
  unfold getitem, rename. cbn [columns rows].
  now rewrite col_pos_relabel_swap.
Qed.

(** On any table, after the rename the column read as "x" is the column
    that was read as "y" and conversely, and every other label reads the
    column it read before. *)
Theorem rename_swaps_x_and_y (dat : DataFrame F) :
  getitem (rename [("x", "y"); ("y", "x")] dat) "x" = getitem dat "y"
  /\ getitem (rename [("x", "y"); ("y", "x")] dat) "y" = getitem dat "x"
  /\ forall c, c <> "x" -> c <> "y" ->
       getitem (rename [("x", "y"); ("y", "x")] dat) c = getitem dat c.
Proof.
  split; [exact (getitem_rename_swap dat "y")|].
  split; [exact (getitem_rename_swap dat "x")|].
  intros c Hx Hy. rewrite <- (getitem_rename_swap dat c). f_equal.
  rewrite relabel_swap_unfold.
  destruct (String.eqb_spec "x" c); [congruence|].
  destruct (String.eqb_spec "y" c); [congruence | reflexivity].
Qed.

(** Renaming twice gives the table back. *)
Theorem rename_swap_twice (dat : DataFrame F) :
  rename [("x", "y"); ("y", "x")] (rename [("x", "y"); ("y", "x")] dat) = dat.
Proof.
  destruct dat as [cols rs]. unfold rename; cbn [columns rows]. f_equal.
  rewrite map_map. rewrite <- (map_id cols) at 2.
  apply map_ext. intros c. apply relabel_swap_involutive.
Qed.

(** ** The spacing of line 83 *)

(** The coordinate transformer returns on the tables of two rows or more
    and on no other: with fewer rows [np.diff] is empty and [np.max] raises
    ValueError. *)
Theorem transformer_needs_two_rows (data : list (Rec6 F)) :
  (2 <= List.length data
   /\ exists dx out, coordinate_transformer (frame_of names data) = Ok (dx, out))
  \/ (List.length data < 2
      /\ coordinate_transformer (frame_of names data) = Raise ValueError).
Proof.
  rewrite coordinate_transformer_spec.
  destruct data as [|t [|t' data]].
  - right. split; [simpl; lia | reflexivity].
  - right. split; [simpl; lia | reflexivity].
  - left. split; [simpl; lia|].
    destruct (spacing_returns (t :: t' :: data)) as [dx Hdx]; [simpl; lia|].
    rewrite Hdx. simpl. eauto.
Qed.

End RenameAndSpacing.

(** In exact arithmetic, when the y column of the file steps by [h] or
    less between consecutive rows and one step is [h] (a uniform grid of
    spacing [h], with its jumps back at the end of each line of the grid),
    the spacing the transformer finds is [h]. *)
Theorem spacing_of_uniform_grid (data : list (Rec6 R)) (ys : list R) (h : R) :
  getitem (frame_of names data) "y" = Ok ys ->
  In h (np_diff ys) ->
  (forall d, In d (np_diff ys) -> (d <= h)%R) ->
  exists out, coordinate_transformer (frame_of names data) = Ok (h, out).
Proof.
  intros Hy Hin Hmax.
  rewrite (getitem_rect (frame_of names data) "y" 1
             (frame_of_rectangular data) eq_refl) in Hy.
  apply Ok_inj in Hy. simpl in Hy. subst ys.
  rewrite coordinate_transformer_spec.
  destruct (np_max (np_diff (map (val 1) (index_from 0 data)))) as [m|e] eqn:Em.
  - destruct (np_max_is_maximum _ _ Em) as [Hm Hup].
    assert (m = h) by (apply Rle_antisym; auto). subst m.
    simpl. eauto.
  - destruct (np_diff (map (val 1) (index_from 0 data))); [contradiction|].
    discriminate.
Qed.

Lemma spacing_of_uniform_grid_witness :
  let data := [ (0, 0, 0, 1, 0, 0); (0, 1, 0, 1, 0, 0); (0, 2, 0, 1, 0, 0);
                (1, 0, 0, 1, 0, 0); (1, 1, 0, 1, 0, 0) ]%R in
  getitem (frame_of names data) "y" = Ok [0; 1; 2; 0; 1]%R
  /\ exists out, coordinate_transformer (frame_of names data) = Ok (1%R, out).
Proof.
  intros data.
  assert (Hy : getitem (frame_of names data) "y" = Ok [0; 1; 2; 0; 1]%R)
    by reflexivity.
  split; [exact Hy|].
  apply (spacing_of_uniform_grid data [0; 1; 2; 0; 1]%R 1%R Hy).
  - simpl. left. lra.
  - simpl. intros d [<-|[<-|[<-|[<-|[]]]]]; lra.
Defined.

(** ** Sorting again (line 90) *)

Section SortAgain.

Context {F : Type} `{Float64 F}.

Lemma sort_keyed_fixed (l : list (Keyed F)) :
  total_on l -> Sorted key_le l -> sort_keyed l = l.
Proof.
  intros Htot Hs. induction Hs as [|x l Hs IH Hhd]; simpl; [reflexivity|].
  rewrite IH by (intros a b Ha Hb; apply Htot; now right).
  destruct Hhd as [|y l' Hxy]; simpl; [reflexivity|].
  rewrite (total_on_sort_leb (x :: y :: l') x y Htot) by (simpl; auto).
  unfold key_le in Hxy. now rewrite Hxy.
Qed.

Lemma sort_values_renamed (rs : list (Row F)) :
  Forall six rs ->
  sort_values {| columns := renamed; rows := rs |} sort_keys
  = Ok {| columns := renamed;
          rows := map snd (sort_keyed (map (with_key [2; 0; 1]) rs)) |}.
Proof.
  intros H6. unfold sort_values; simpl.
  rewrite (mapM_map _ (with_key [2; 0; 1])); [reflexivity|].
  intros r Hr. apply with_key_zyx. rewrite Forall_forall in H6. now apply H6.
Qed.

(** The keyed rows behind the table after line 90 have comparable keys
    when the table has, and then they are in order. *)
Lemma sorted_frame_total (data : list (Rec6 F)) (dx : F) :
  comparable_rows (sorted_frame dx (frame_of names data)) = true ->
  total_on
    (sort_keyed (map (with_key [2; 0; 1])
                   (map (shift_row dx) (rows (frame_of names data))))).
Proof.
  intros Hcmp.
  set (keyed := map (with_key [2; 0; 1])
                  (map (shift_row dx) (rows (frame_of names data)))) in *.
  intros a b Ha Hb.
  destruct (sorted_keyed_shape _ _ _ Ha) as [Hina Hfa].
  destruct (sorted_keyed_shape _ _ _ Hb) as [Hinb Hfb].
  pose proof (shifted_rows_six dx data _ Hina) as Ha6.
  pose proof (shifted_rows_six dx data _ Hinb) as Hb6.
  unfold comparable_rows in Hcmp.
  rewrite forallb_forall in Hcmp.
  assert (Hra : In (snd a) (rows (sorted_frame dx (frame_of names data))))
    by (apply in_map; exact Ha).
  assert (Hrb : In (snd b) (rows (sorted_frame dx (frame_of names data))))
    by (apply in_map; exact Hb).
  specialize (Hcmp _ Hra). rewrite forallb_forall in Hcmp.
  specialize (Hcmp _ Hrb). unfold sorted_frame in Hcmp.
  rewrite (zyx_renamed _ _ Ha6), (zyx_renamed _ _ Hb6) in Hcmp.
  now rewrite Hfa, Hfb.
Qed.

Lemma sorted_frame_Sorted (data : list (Rec6 F)) (dx : F) :
  comparable_rows (sorted_frame dx (frame_of names data)) = true ->
  Sorted key_le
    (sort_keyed (map (with_key [2; 0; 1])
                   (map (shift_row dx) (rows (frame_of names data))))).
Proof.
  intros Hcmp. pose proof (sorted_frame_total data dx Hcmp) as Htot.
  apply sort_keyed_sorted. intros a b Ha Hb.
  apply Htot; now apply (Permutation_in _ (Permutation_sym (sort_keyed_perm _))).
Qed.

(** Sorting the table the transformer returned changes nothing: with
    comparable keys, line 90 applied again gives the same table, rows and
    labels in the same order. *)
Theorem sort_again_is_identity (data : list (Rec6 F)) :
  2 <= List.length data ->
  exists dx out,
    coordinate_transformer (frame_of names data) = Ok (dx, out)
    /\ (comparable_rows out = true -> sort_values out sort_keys = Ok out).
Proof.
  intros Hn. destruct (spacing_returns data Hn) as [dx Hdx].
  exists dx, (sorted_frame dx (frame_of names data)).
  split; [rewrite coordinate_transformer_spec, Hdx; reflexivity|].
  intros Hcmp. pose proof (sorted_frame_Sorted data dx Hcmp) as Hs.
  set (keyed := map (with_key [2; 0; 1])
                  (map (shift_row dx) (rows (frame_of names data)))) in *.
  unfold sorted_frame. fold keyed.
  rewrite sort_values_renamed.
  - f_equal. f_equal. f_equal.
    assert (Hk : map (with_key [2; 0; 1]) (map snd (sort_keyed keyed))
                 = sort_keyed keyed).
    { rewrite map_map. rewrite <- (map_id (sort_keyed keyed)) at 2.
      apply map_ext_in. intros a Ha.
      destruct (sorted_keyed_shape _ _ _ Ha) as [_ Hfa].
      unfold with_key. rewrite <- Hfa. now destruct a. }
    rewrite Hk. apply sort_keyed_fixed; [|exact Hs].
    now apply sorted_frame_total.
  - rewrite Forall_forall. intros r Hr.
    apply in_map_iff in Hr as (a & <- & Ha).
    destruct (sorted_keyed_shape _ _ _ Ha) as [Hin _].
    now apply (shifted_rows_six dx data).
Qed.

End SortAgain.

Lemma sort_again_is_identity_witness :
  2 <= List.length Example.data
  /\ exists dx out,
      coordinate_transformer (frame_of names Example.data) = Ok (dx, out)
      /\ comparable_rows out = true
      /\ sort_values out sort_keys = Ok out.
Proof.
  assert (Hn : 2 <= List.length Example.data) by (simpl; lia).
  split; [exact Hn|].
  destruct (sort_again_is_identity Example.data Hn) as (dx & out & Hrun & Hid).
  exists dx, out. split; [exact Hrun|].
  assert (Hc : comparable_rows out = true).
  { vm_compute in Hrun. injection Hrun as <- <-. vm_compute. reflexivity. }
  split; [exact Hc | exact (Hid Hc)].
Defined.

(** ** What the normaliser touches (lines 107-109) *)

Lemma col_pos_In (c : string) (cols : list string) :
  In c cols -> exists p, col_pos c cols = Ok p.
Proof.
  induction cols as [|d cols IH]; simpl; [contradiction|].
  intros Hin. destruct (String.eqb_spec c d) as [->|Hcd]; [eauto|].
  destruct Hin as [->|Hin]; [contradiction|].
  destruct (IH Hin) as [p ->]. simpl. eauto.
Qed.

Section NormalizerFrame.

Context {F : Type} `{Float64 F}.

Lemma find_map_label (g : Row F -> Row F) (i : nat) (l : list (Row F)) :
  (forall r, label (g r) = label r) ->
  find (fun r => Nat.eqb (label r) i) (map g l)
  = option_map g (find (fun r => Nat.eqb (label r) i) l).
Proof.
  intros Hg. induction l as [|r l IH]; simpl; [reflexivity|].
  rewrite Hg. destruct (Nat.eqb (label r) i); [reflexivity | exact IH].
Qed.

Lemma scaled_row_length (pu pv pw : nat) (urms : F) (r : Row F) :
  List.length (cells (scaled_row pu pv pw urms r)) = List.length (cells r).
Proof.
  unfold scaled_row, map_column; cbn [cells]. now rewrite !set_nth_length.
Qed.

Lemma scaled_row_other (pu pv pw p : nat) (urms : F) (r : Row F) :
  pu <> p -> pv <> p -> pw <> p ->
  val p (scaled_row pu pv pw urms r) = val p r.
Proof.
  intros Hu Hv Hw. unfold scaled_row.
  now rewrite !val_map_column_other.
Qed.

(** The normaliser returns for every divisor, zero included, on a table
    that has the three velocity columns.  It keeps the column labels and the
    order of the rows; the cells of u, v and w are divided by [urms] and
    every other cell is left as it is. *)
Theorem normalizer_frame (dat : DataFrame F) (urms : F) :
  rectangular dat ->
  In "u" (columns dat) -> In "v" (columns dat) -> In "w" (columns dat) ->
  exists dat',
    normalizer dat urms = Ok dat'
    /\ columns dat' = columns dat
    /\ map label (rows dat') = map label (rows dat)
    /\ forall i c v,
         loc dat i c = Some v ->
         loc dat' i c
         = Some (if String.eqb c "u" || String.eqb c "v" || String.eqb c "w"
                 then fdiv v urms else v).
Proof.
  destruct dat as [cols rs]. cbn [columns rows]. intros R0 Iu Iv Iw.
  destruct (col_pos_In _ _ Iu) as [pu Hu].
  destruct (col_pos_In _ _ Iv) as [pv Hv].
  destruct (col_pos_In _ _ Iw) as [pw Hw].
  exists {| columns := cols; rows := map (scaled_row pu pv pw urms) rs |}.
  split; [now apply normalizer_spec|]. split; [reflexivity|].
  split; [cbn [rows]; rewrite map_map; reflexivity|].
  intros i c v. unfold loc, row_at. cbn [columns rows].
  rewrite (find_map_label (scaled_row pu pv pw urms) i rs) by reflexivity.
  destruct (find (fun r => Nat.eqb (label r) i) rs) as [r|] eqn:Er;
    [|discriminate].
  cbn [option_map].
  destruct (col_pos c cols) as [p|e] eqn:Ep; [|discriminate].
  intros Hv0.
  assert (Hp : p < List.length (cells r)).
  { apply nth_error_Some. congruence. }
  assert (Hval : v = val p r).
  { unfold val. now rewrite (nth_error_nth _ _ fzero Hv0). }
  assert (Hlen : List.length (cells r) = List.length cols).
  { apply find_some in Er as [Hin _]. unfold rectangular in R0.
    rewrite Forall_forall in R0. exact (R0 r Hin). }
  destruct (col_pos_bound _ _ _ Hu) as [Lu _].
  destruct (col_pos_bound _ _ _ Hv) as [Lv _].
  destruct (col_pos_bound _ _ _ Hw) as [Lw _].
  destruct (scaled_row_vals pu pv pw urms r) as (Vu & Vv & Vw);
    try (rewrite Hlen; assumption).
  { now apply (col_pos_distinct cols "u" "v"). }
  { now apply (col_pos_distinct cols "u" "w"). }
  { now apply (col_pos_distinct cols "v" "w"). }
  rewrite nth_error_val by (now rewrite scaled_row_length).
  f_equal. subst v.
  destruct (String.eqb_spec c "u") as [->|Nu].
  { assert (p = pu) by congruence. subst p. exact Vu. }
  destruct (String.eqb_spec c "v") as [->|Nv].
  { assert (p = pv) by congruence. subst p. exact Vv. }
  destruct (String.eqb_spec c "w") as [->|Nw].
  { assert (p = pw) by congruence. subst p. exact Vw. }
  cbn [orb]. apply scaled_row_other.
  - apply (col_pos_distinct cols "u" c); auto.
  - apply (col_pos_distinct cols "v" c); auto.
  - apply (col_pos_distinct cols "w" c); auto.
Qed.

End NormalizerFrame.

Lemma normalizer_frame_witness :
  rectangular (frame_of names Example.data)
  /\ exists dat',
      normalizer (frame_of names Example.data) 0%float = Ok dat'
      /\ columns dat' = columns (frame_of names Example.data)
      /\ map label (rows dat') = map label (rows (frame_of names Example.data))
      /\ forall i c v,
           loc (frame_of names Example.data) i c = Some v ->
           loc dat' i c
           = Some (if String.eqb c "u" || String.eqb c "v" || String.eqb c "w"
                   then fdiv v 0%float else v).
Proof.
  assert (Hr : rectangular (frame_of names Example.data))
    by apply frame_of_rectangular.
  split; [exact Hr|].
  apply (normalizer_frame (frame_of names Example.data) 0%float Hr);
    simpl; auto 10.
Defined.

(** ** The rms velocity and the order of the rows (line 93) *)

Lemma fold_Rplus_perm (l l' : list R) :
  Permutation l l' -> forall a : R, fold_left Rplus l a = fold_left Rplus l' a.
Proof.
  induction 1 as [|x l l' _ IH|x y l|l l' l'' _ IH1 _ IH2]; intros a; simpl.
  - reflexivity.
  - apply IH.
  - f_equal. ring.
  - now rewrite IH1.
Qed.

Lemma R_np_mean_perm (l l' : list R) :
  Permutation l l' -> np_mean l = np_mean l'.
Proof.
  intros Hp. rewrite !R_np_mean.
  now rewrite (fold_Rplus_perm l l' Hp), (Permutation_length Hp).
Qed.

(** In exact arithmetic the transformer does not change the rms velocity:
    [urms] computed on the sorted table, as the script does, is [urms] of
    the table as it was read. *)
Theorem urms_before_or_after_transformer (data : list (Rec6 R)) :
  2 <= List.length data ->
  exists dx out,
    coordinate_transformer (frame_of names data) = Ok (dx, out)
    /\ urms_of out = urms_of (frame_of names data).
Proof.
  intros Hn. destruct (spacing_returns data Hn) as [dx Hdx].
  exists dx, (sorted_frame dx (frame_of names data)).
  split; [rewrite coordinate_transformer_spec, Hdx; reflexivity|].
  pose proof (sorted_rows_perm dx (frame_of names data)) as Hperm.
  assert (H6 : Forall six (rows (sorted_frame dx (frame_of names data)))).
  { rewrite Forall_forall. intros r Hr.
    apply (Permutation_in _ Hperm) in Hr. now apply (shifted_rows_six dx data). }
  set (phi := fun r : Row R => fadd (fadd (square (val 3 r)) (square (val 4 r)))
                                (square (val 5 r))).
  assert (E1 : urms_of (sorted_frame dx (frame_of names data))
               = Ok (fsqrt (fdiv (series_mean
                                    (map phi (rows (sorted_frame dx
                                                      (frame_of names data)))))
                              fthree)))
    by exact (urms_of_spec renamed _ 3 4 5 H6 eq_refl eq_refl eq_refl).
  assert (E2 : urms_of (frame_of names data)
               = Ok (fsqrt (fdiv (series_mean
                                    (map phi (rows (frame_of names data))))
                              fthree)))
    by exact (urms_of_spec names _ 3 4 5 (frame_of_rectangular data)
                eq_refl eq_refl eq_refl).
  rewrite E1, E2. do 3 f_equal. rewrite !R_series_mean.
  rewrite (R_np_mean_perm _ _ (Permutation_map phi Hperm)).
  f_equal. rewrite map_map.
  apply map_ext_in. intros r Hr.
  pose proof (index_from_cells 0 data) as Hsix.
  rewrite Forall_forall in Hsix.
  destruct (val_shift_row dx r (Hsix r Hr)) as (_ & _ & _ & V3 & V4 & V5).
  unfold phi. now rewrite V3, V4, V5.
Qed.

Lemma urms_before_or_after_transformer_witness :
  let data := [ (0, 1, 0, 1, 2, 2); (0, 0, 0, 0, -1, 0); (1, 0, 0, 3, 0, 0) ]%R in
  2 <= List.length data
  /\ exists dx out,
      coordinate_transformer (frame_of names data) = Ok (dx, out)
      /\ urms_of out = urms_of (frame_of names data).
Proof.
  intros data. assert (Hn : 2 <= List.length data) by (simpl; lia).
  split; [exact Hn|].
  exact (urms_before_or_after_transformer data Hn).
Defined.

(** ** The gradient on a linear field (lines 97-101) *)

Lemma fold_Rplus_const (l : list R) (c a : R) :
  (forall x, In x l -> x = c) ->
  fold_left Rplus l a = (a + INR (List.length l) * c)%R.
Proof.
  revert a; induction l as [|x l IH]; intros a Hc.
  - simpl. ring.
  - cbn [fold_left]. rewrite IH by (intros y Hy; apply Hc; now right).
    rewrite (Hc x (or_introl eq_refl)).
    cbn [List.length]. rewrite S_INR. ring.
Qed.

Lemma R_mean_const (l : list R) (c : R) :
  l <> [] -> (forall x, In x l -> x = c) -> np_mean l = c.
Proof.
  intros Hne Hc. rewrite R_np_mean, (fold_Rplus_const l c 0 Hc).
  assert (Hlen : INR (List.length l) <> 0%R).
  { apply not_0_INR. destruct l; [contradiction | discriminate]. }
  now field.
Qed.

Lemma grad_x_linear (n : nat) (u : list R) (dx a b : R) (i j k : nat) :
  2 <= n -> dx <> 0%R ->
  (forall i j k, i < n -> j < n -> k < n ->
     at_F n u i j k = (a * (INR i * dx) + b)%R) ->
  i < n -> j < n -> k < n ->
  grad_x n u dx i j k = a.
Proof.
  intros Hn Hdx Hat Hi Hj Hk. unfold grad_x.
  destruct (Nat.eqb_spec i 0) as [->|Hi0].
  - rewrite !Hat by lia. simpl. now field.
  - destruct (Nat.eqb_spec i (n - 1)) as [->|Hil].
    + rewrite !Hat by lia.
      replace (n - 1) with (S (n - 2)) by lia. rewrite S_INR. simpl. now field.
    + rewrite !Hat by lia.
      replace (i + 1) with (S (S (i - 1))) by lia. rewrite !S_INR.
      unfold ftwo. simpl. now field.
Qed.

(** In exact arithmetic the finite differences are exact on a field that
    is linear along the first axis: when the cube of the u column holds
    [a * (i * dx) + b] at the grid point [(i, j, k)], every difference
    quotient, one-sided or centred, is [a], and [dudx2] is [a^2]. *)
Theorem gradient_exact_on_linear_fields (n : nat) (dat : DataFrame R)
    (dx a b : R) (u : list R) :
  2 <= n -> dx <> 0%R ->
  getitem dat "u" = Ok u ->
  List.length u = n * n * n ->
  (forall i j k, i < n -> j < n -> k < n ->
     at_F n u i j k = (a * (INR i * dx) + b)%R) ->
  dudx2_of n dat dx = Ok (a * a)%R.
Proof.
  intros Hn Hdx Hu Hlen Hat.
  rewrite (dudx2_of_spec n dat dx u Hn Hu Hlen). f_equal.
  unfold mean_sq_grad. apply R_mean_const.
  - destruct n as [|n]; [lia|]. simpl. discriminate.
  - intros x Hx.
    apply in_flat_map in Hx as (k & Hk & Hx).
    apply in_flat_map in Hx as (j & Hj & Hx).
    apply in_map_iff in Hx as (i & <- & Hi).
    apply in_seq in Hi, Hj, Hk.
    rewrite (grad_x_linear n u dx a b i j k Hn Hdx Hat) by lia.
    reflexivity.
Qed.

Lemma gradient_exact_on_linear_fields_witness :
  let dat := frame_of names
               [ (0, 0, 0, 1, 0, 0); (0, 0, 0, 5 / 2, 0, 0);
                 (0, 0, 0, 1, 0, 0); (0, 0, 0, 5 / 2, 0, 0);
                 (0, 0, 0, 1, 0, 0); (0, 0, 0, 5 / 2, 0, 0);
                 (0, 0, 0, 1, 0, 0); (0, 0, 0, 5 / 2, 0, 0) ]%R in
  let u := [1; 5 / 2; 1; 5 / 2; 1; 5 / 2; 1; 5 / 2]%R in
  getitem dat "u" = Ok u
  /\ dudx2_of 2 dat (/ 2)%R = Ok (3 * 3)%R.
Proof.
  intros dat u.
  assert (Hu : getitem dat "u" = Ok u) by reflexivity.
  split; [exact Hu|].
  apply (gradient_exact_on_linear_fields 2 dat (/ 2)%R 3%R 1%R u).
  - lia.
  - lra.
  - exact Hu.
  - reflexivity.
  - intros i j k Hi Hj Hk. unfold at_F, u.
    destruct i as [|[|i]]; [| |lia];
      destruct j as [|[|j]]; try lia;
      destruct k as [|[|k]]; try lia; simpl; lra.
Defined.

(** ** What a successful run implies *)

Lemma mapM_length {A B : Type} (f : A -> result B) (l : list A) (bs : list B) :
  mapM f l = Ok bs -> List.length bs = List.length l.
Proof.
  revert bs; induction l as [|a l IH]; intros bs; simpl.
  - now intros [= <-].
  - intros Hm. apply bind_Ok in Hm as (b & _ & Hm).
    apply bind_Ok in Hm as (bs' & Hbs & [= <-]). simpl. now rewrite (IH bs').
Qed.

Section RunFacts.

Context {F : Type} `{Float64 F}.
Variable parse_args : list string -> result Namespace.
Variable py_float : string -> result F.
Variable pd_read_table : list string -> nat -> result (list (Rec6 F)).
Variable format_e18 : F -> string.

Lemma getitem_length (dat : DataFrame F) (c : string) (x : list F) :
  getitem dat c = Ok x -> List.length x = List.length (rows dat).
Proof.
  unfold getitem. intros Hg. apply bind_Ok in Hg as (p & _ & Hm).
  now apply mapM_length in Hm.
Qed.

Lemma to_csv_length (dat : DataFrame F) (cols lines : list string) :
  to_csv format_e18 dat cols = Ok lines ->
  List.length lines = S (List.length (rows dat)).
Proof.
  unfold to_csv. intros Ht. apply bind_Ok in Ht as (ps & _ & Ht).
  apply bind_Ok in Ht as (body & Hb & [= <-]). simpl.
  now rewrite (mapM_length _ _ _ Hb).
Qed.

Lemma reshape_F_Ok (n : nat) (u : list F) (cube : Cube F) :
  reshape_F n u = Ok cube ->
  List.length u = n * n * n /\ List.length cube = n.
Proof.
  unfold reshape_F. destruct (Nat.eqb_spec (List.length u) (n * n * n)) as [E|E];
    [|discriminate].
  intros [= <-]. split; [exact E|]. now rewrite length_map, length_seq.
Qed.

Lemma np_gradient0_Ok (f g : Cube F) (dx : F) :
  np_gradient0 f dx = Ok g -> 2 <= List.length f.
Proof.
  unfold np_gradient0. destruct (Nat.ltb_spec (List.length f) 2);
    [discriminate | auto].
Qed.

Lemma py_truediv_Ok (a v : F) (mu : pynum F) :
  py_truediv a mu = Ok v -> is_zero mu = false.
Proof.
  unfold py_truediv, is_zero. destruct mu as [z|x].
  - destruct (Z.eqb z 0); [discriminate | reflexivity].
  - destruct (feqb x fzero); [discriminate | reflexivity].
Qed.

(** A run that succeeds has read a table of exactly [n^3] rows with
    [n >= 2] and a viscosity that is not zero, and its output file has
    [n^3 + 1] lines; for [main], [n] is 128.  Any other table size or a zero
    viscosity makes the run raise. *)
Theorem successful_run_conditions (n : nat) (argv : list string)
    (file : option (list string)) (out : Output F) :
  script parse_args py_float pd_read_table format_e18 n argv file = Ok out ->
  exists f data mu,
    file = Some f
    /\ pd_read_table f (get_skiprows_num f) = Ok data
    /\ get_viscosity py_float f = Ok mu
    /\ is_zero mu = false
    /\ 2 <= n
    /\ List.length data = n * n * n
    /\ List.length (out_file out) = S (n * n * n)
    /\ s_resolution (report out) = n
    /\ s_mu (report out) = mu.
Proof.
  unfold script. intros Hs.
  apply bind_Ok in Hs as (args & _ & Hs).
  apply bind_Ok in Hs as (f & Hopen & Hs).
  apply bind_Ok in Hs as ([sc dat] & Hproc & Hs).
  apply bind_Ok in Hs as (lines & Hcsv & [= <-]).
  destruct file as [f'|]; simpl in Hopen; [injection Hopen as ->|discriminate].
  destruct (process_spec py_float pd_read_table n f sc dat Hproc)
    as (data & dx & Hdata & Htr & Hdat).
  unfold process, read_csv in Hproc. rewrite Hdata in Hproc.
  cbn [bind] in Hproc.
  apply bind_Ok in Hproc as (mu & Hmu & Hproc).
  apply bind_Ok in Hproc as (Re & HRe & Hproc).
  rewrite Htr in Hproc. cbn [bind fst snd] in Hproc.
  apply bind_Ok in Hproc as (sc' & Hsc & Hproc).
  apply bind_Ok in Hproc as (dat' & _ & [= -> _]).
  unfold physical_scales in Hsc.
  apply bind_Ok in Hsc as (urms & _ & Hsc).
  apply bind_Ok in Hsc as (u & _ & Hsc).
  apply bind_Ok in Hsc as (dudx2 & Hd & Hsc).
  apply Ok_inj in Hsc.
  unfold dudx2_of in Hd.
  apply bind_Ok in Hd as (u' & Hu' & Hd).
  apply bind_Ok in Hd as (cube & Hcube & Hd).
  apply bind_Ok in Hd as (g & Hg & _).
  apply reshape_F_Ok in Hcube as [Hlen Hcl].
  apply np_gradient0_Ok in Hg. rewrite Hcl in Hg.
  apply getitem_length in Hu'.
  assert (Hrows : List.length (rows (sorted_frame dx (frame_of names data)))
                  = List.length data).
  { rewrite (Permutation_length (sorted_rows_perm dx (frame_of names data))).
    rewrite length_map. apply index_from_length. }
  exists f, data, mu. cbn [out_file report snd fst].
  split; [reflexivity|]. split; [exact Hdata|]. split; [exact Hmu|].
  split; [exact (py_truediv_Ok _ _ _ HRe)|]. split; [exact Hg|].
  split; [congruence|]. split.
  - rewrite (to_csv_length _ _ _ Hcsv). subst dat. cbn [rows snd].
    rewrite length_map. congruence.
  - subst sc. split; reflexivity.
Qed.

End RunFacts.

Lemma successful_run_conditions_witness :
  exists out f data mu,
    Example.run 2 [] (Some Example.file) = Ok out
    /\ Some Example.file = Some f
    /\ Binary64.pd_read_table f (get_skiprows_num f) = Ok data
    /\ get_viscosity Binary64.py_float f = Ok mu
    /\ is_zero mu = false
    /\ 2 <= 2
    /\ List.length data = 2 * 2 * 2
    /\ List.length (out_file out) = S (2 * 2 * 2)
    /\ s_resolution (report out) = 2
    /\ s_mu (report out) = mu.
Proof.
  destruct (Example.run 2 [] (Some Example.file)) as [out|e] eqn:Hrun;
    [|vm_compute in Hrun; discriminate].
  destruct (successful_run_conditions Binary64.parse_args Binary64.py_float
              Binary64.pd_read_table Binary64.format_e18 2 [] _ out Hrun)
    as (f & data & mu & H1 & H2 & H3 & H4 & H5 & H6 & H7 & H8 & H9).
  exists out, f, data, mu. repeat split; assumption.
Defined.

(** ** The index is not written (line 127) *)

Section IndexNotWritten.

Context {F : Type} `{Float64 F}.
Variable format_e18 : F -> string.

Lemma csv_row_cells (ps : list nat) (r : Row F) :
  csv_row format_e18 ps r
  = csv_row format_e18 ps {| label := 0; cells := cells r |}.
Proof. reflexivity. Qed.

Lemma mapM_csv_row_cells (ps : list nat) (rs : list (Row F)) :
  mapM (csv_row format_e18 ps) rs
  = mapM (fun cs => csv_row format_e18 ps {| label := 0; cells := cs |})
      (map (@cells F) rs).
Proof.
  induction rs as [|r rs IH]; simpl; [reflexivity|].
  now rewrite <- csv_row_cells, IH.
Qed.

(** The index is not written ([index=False]): two tables with the same
    columns and the same cells, row by row, give the same file whatever the
    labels of their rows. *)
Theorem to_csv_ignores_labels (dat dat' : DataFrame F) (cols : list string) :
  columns dat = columns dat' ->
  map (@cells F) (rows dat) = map (@cells F) (rows dat') ->
  to_csv format_e18 dat cols = to_csv format_e18 dat' cols.
Proof.
  intros Hc Hr. unfold to_csv. rewrite Hc.
  destruct (mapM (fun c => col_pos c (columns dat')) cols) as [ps|e];
    [|reflexivity].
  cbn [bind]. now rewrite !mapM_csv_row_cells, Hr.
Qed.

End IndexNotWritten.

Lemma to_csv_ignores_labels_witness :
  let dat := frame_of names Example.data in
  let dat' := {| columns := names;
                 rows := map (fun r => {| label := 7; cells := cells r |})
                           (rows dat) |} in
  map label (rows dat) <> map label (rows dat')
  /\ to_csv Binary64.format_e18 dat names = to_csv Binary64.format_e18 dat' names.
Proof.
  intros dat dat'. split; [discriminate|].
  apply (to_csv_ignores_labels Binary64.format_e18 dat dat' names);
    reflexivity.
Defined.

(** ** The table that is written *)

Section WrittenTable.

Context {F : Type} `{Float64 F}.
Variable py_float : string -> result F.
Variable pd_read_table : list string -> nat -> result (list (Rec6 F)).

Lemma zyx_norm_row (rs rs' : list (Row F)) (urms : F) (r : Row F) :
  six r ->
  zyx {| columns := renamed; rows := rs' |} (norm_row urms r)
  = zyx {| columns := renamed; rows := rs |} r.
Proof.
  intros H6. rewrite (zyx_renamed rs' _ (norm_row_six urms r H6)).
  rewrite (zyx_renamed rs r H6). f_equal. unfold norm_row. cbn [map].
  rewrite !scaled_row_other by lia. reflexivity.
Qed.

(** The normaliser leaves the order of line 90 in place: in the table a
    run hands to the writer, when the keys are comparable, every two
    consecutive rows are in lexicographic (z, y, x) order. *)
Theorem written_table_is_sorted (n : nat) (f : list string) (sc : Scalars F)
    (dat : DataFrame F) :
  process py_float pd_read_table n f = Ok (sc, dat) ->
  comparable_rows dat = true ->
  forall k r1 r2,
    nth_error (rows dat) k = Some r1 ->
    nth_error (rows dat) (S k) = Some r2 ->
    exists k1 k2, zyx dat r1 = Ok k1 /\ zyx dat r2 = Ok k2
                  /\ lex_leb k1 k2 = true.
Proof.
  intros Hproc Hcmp k r1 r2 H1 H2.
  destruct (process_spec py_float pd_read_table n f sc dat Hproc)
    as (data & dx & _ & _ & ->).
  set (S0 := sorted_frame dx (frame_of names data)) in *.
  assert (H6 : forall r, In r (rows S0) -> six r).
  { intros r Hr.
    apply (Permutation_in _ (sorted_rows_perm dx (frame_of names data))) in Hr.
    now apply (shifted_rows_six dx data). }
  assert (HcmpS : comparable_rows S0 = true).
  { unfold comparable_rows. apply forallb_forall. intros a Ha.
    apply forallb_forall. intros b Hb.
    unfold comparable_rows in Hcmp. cbn [rows] in Hcmp.
    rewrite forallb_forall in Hcmp.
    specialize (Hcmp _ (in_map (norm_row (s_urms sc)) _ _ Ha)).
    rewrite forallb_forall in Hcmp.
    specialize (Hcmp _ (in_map (norm_row (s_urms sc)) _ _ Hb)).
    rewrite (zyx_norm_row (rows S0) _ _ a (H6 a Ha)) in Hcmp.
    rewrite (zyx_norm_row (rows S0) _ _ b (H6 b Hb)) in Hcmp.
    exact Hcmp. }
  cbn [rows] in H1, H2. rewrite nth_error_map in H1, H2.
  destruct (nth_error (rows S0) k) as [a|] eqn:Ea; [|discriminate].
  destruct (nth_error (rows S0) (S k)) as [b|] eqn:Eb; [|discriminate].
  cbn [option_map] in H1, H2. injection H1 as <-. injection H2 as <-.
  destruct (sorted_frame_consecutive data dx HcmpS k a b Ea Eb)
    as (k1 & k2 & Hk1 & Hk2 & Hle).
  exists k1, k2.
  rewrite (zyx_norm_row (rows S0) _ _ a (H6 a (nth_error_In _ _ Ea))).
  rewrite (zyx_norm_row (rows S0) _ _ b (H6 b (nth_error_In _ _ Eb))).
  repeat split; assumption.
Qed.

End WrittenTable.

Lemma written_table_is_sorted_witness :
  exists sc dat,
    process Binary64.py_float Binary64.pd_read_table 2 Example.file = Ok (sc, dat)
    /\ comparable_rows dat = true
    /\ forall k r1 r2,
         nth_error (rows dat) k = Some r1 ->
         nth_error (rows dat) (S k) = Some r2 ->
         exists k1 k2, zyx dat r1 = Ok k1 /\ zyx dat r2 = Ok k2
                       /\ lex_leb k1 k2 = true.
Proof.
  destruct (process Binary64.py_float Binary64.pd_read_table 2 Example.file)
    as [[sc dat]|e] eqn:Hp; [|vm_compute in Hp; discriminate].
  assert (Hc : comparable_rows dat = true).
  { pose proof Hp as Hp'. vm_compute in Hp'. injection Hp' as <- <-.
    vm_compute. reflexivity. }
  exists sc, dat. split; [reflexivity|]. split; [exact Hc|].
  exact (written_table_is_sorted Binary64.py_float Binary64.pd_read_table
           2 Example.file sc dat Hp Hc).
Defined.

(** ** Normalising a table of unit rms *)

Lemma set_nth_same {A : Type} (p : nat) (d : A) (l : list A) :
  set_nth p (nth p l d) l = l.
Proof.
  revert p; induction l as [|a l IH]; intros [|p]; simpl; try reflexivity.
  now rewrite IH.
Qed.

Lemma R_map_column_by_one (p : nat) (r : Row R) :
  map_column p (scaled 1%R) r = r.
Proof.
  destruct r as [i cs]. unfold map_column, scaled, val; cbn [label cells fdiv].
  f_equal. change (fdiv ?a ?b) with (a / b)%R.
  replace (nth p cs fzero / 1)%R with (nth p cs fzero) by field.
  apply set_nth_same.
Qed.

(** In exact arithmetic the normaliser with [urms = 1] returns the table
    it was given: a table that has been normalised to unit rms is not
    changed by normalising it again. *)
Theorem normalizer_by_one (dat : DataFrame R) :
  rectangular dat ->
  In "u" (columns dat) -> In "v" (columns dat) -> In "w" (columns dat) ->
  normalizer dat 1%R = Ok dat.
Proof.
  destruct dat as [cols rs]. cbn [columns]. intros R0 Iu Iv Iw.
  destruct (col_pos_In _ _ Iu) as [pu Hu].
  destruct (col_pos_In _ _ Iv) as [pv Hv].
  destruct (col_pos_In _ _ Iw) as [pw Hw].
  rewrite (normalizer_spec cols rs 1%R pu pv pw R0 Hu Hv Hw).
  do 2 f_equal. rewrite <- (map_id rs) at 2. apply map_ext. intros r.
  unfold scaled_row. now rewrite !R_map_column_by_one.
Qed.

Lemma normalizer_by_one_witness :
  rectangular Example.real_table
  /\ normalizer Example.real_table 1%R = Ok Example.real_table.
Proof.
  assert (Hr : rectangular Example.real_table) by (repeat constructor).
  split; [exact Hr|].
  apply (normalizer_by_one Example.real_table Hr); simpl; auto 10.
Defined.
